(** * make_ola_high_low_ck.py: FK windows to CK segments, and their validation

    A shallow embedding of [src/make_ola_high_low_ck.py].  The script talks to
    the SPICE toolkit through the module [spiceypy] (imported as [sp]); the
    toolkit is an external library, so its query routines are taken as an
    interface ([SpiceLib]) whose answers depend on the table of loaded
    kernels, while the bookkeeping the script relies on (the table of loaded
    kernels, the files on disk, the open CK handles) is explicit state.
    Python floats are IEEE binary64 numbers: Rocq's primitive floats. *)

From Stdlib Require Import ZArith String Ascii List Floats DecimalString Lia.
From stdpp Require Import base list strings.
Import ListNotations.

Set Warnings "-inexact-float".

Local Open Scope Z_scope.
Local Open Scope string_scope.

(** ** Python values used by the script *)

(** The key a failed dict lookup reports. *)
Inductive pykey : Type :=
| KStr (s : string)
| KFloat (f : float).

(** The exceptions the script can raise.  [SpiceyError] is what spiceypy
    raises when a toolkit routine signals an error or finds nothing;
    [ArgumentError] is [ctypes.ArgumentError], raised when an argument does
    not have the type that the toolkit routine declares. *)
Inductive exn : Type :=
| SpiceyError
| AssertionError
| KeyError (key : pykey)
| IndexError
| ZeroDivisionError
| ArgumentError.

(** A 3x3 rotation matrix and a quaternion, as arrays of floats. *)
Definition Matrix : Type := list (list float).
Definition Quat : Type := (float * float * float * float)%type.

(** [dtquat[et] - sp.m2q(...)]: elementwise subtraction of two 4-arrays. *)
Definition quat_sub (a b : Quat) : Quat :=
  let '(a0, a1, a2, a3) := a in
  let '(b0, b1, b2, b3) := b in
  (PrimFloat.sub a0 b0, PrimFloat.sub a1 b1, PrimFloat.sub a2 b2, PrimFloat.sub a3 b3).

(** [min([a, b])]: Python keeps the first item unless a later one is smaller. *)
Definition py_min2 (a b : float) : float :=
  if PrimFloat.ltb b a then b else a.

(** [-1e30], the threshold below which a stop time means "open ended". *)
Definition open_ended_threshold : float := PrimFloat.opp 1e30%float.

Definition is_open_ended (stop_et : float) : bool :=
  PrimFloat.ltb stop_et open_ended_threshold.

(** [str.upper] on ASCII letters. *)
Definition upper_ascii (c : ascii) : ascii :=
  let n := nat_of_ascii c in
  if (Nat.leb 97 n && Nat.leb n 122)%bool then ascii_of_nat (n - 32) else c.

Fixpoint upper (s : string) : string :=
  match s with
  | EmptyString => EmptyString
  | String c r => String (upper_ascii c) (upper r)
  end.

(** ['{}'.format(n)] for an integer. *)
Definition str_of_Z (n : Z) : string := NilZero.string_of_int (Z.to_int n).

(** [os.path.basename]: what follows the last slash. *)
Fixpoint basename_from (cur p : string) : string :=
  match p with
  | EmptyString => cur
  | String c r =>
      if Ascii.eqb c "/"%char then basename_from r r else basename_from cur r
  end.

Definition basename (p : string) : string := basename_from p p.

(** ['{}[{}]'.format(os.path.basename(fk), reffrm)[:40]] *)
Definition segment_label (fk reffrm : string) : string :=
  substring 0 40 (basename fk ++ "[" ++ reffrm ++ "]").

(** The ids that [sp.gipool] returns are numpy [int32] values.  [-sclk_id]
    is computed in 32 bits: it wraps around, so that the least id,
    -2147483648, is its own negation. *)
Definition int32_wrap (z : Z) : Z := (z + 2147483648) mod 4294967296 - 2147483648.
Definition int32_neg (z : Z) : Z := int32_wrap (- z).

(** ['FRAME_{}'.format(reffrm.upper())] and the other pool variable names. *)
Definition frame_var (reffrm : string) : string := "FRAME_" ++ upper reffrm.
Definition ck_sclk_var (reffrm_id : Z) : string :=
  "CK_" ++ str_of_Z reffrm_id ++ "_" ++ "SCLK".
Definition tkframe_relative_var (reffrm_id : Z) : string :=
  "TKFRAME_" ++ str_of_Z reffrm_id ++ "_" ++ "RELATIVE".
Definition partition_end_var (sclk_id : Z) : string :=
  "SCLK_PARTITION_END_" ++ str_of_Z (int32_neg sclk_id).

(** The arguments of one [sp.ckw02] call: a type 2 segment with one record. *)
Record Segment : Type := mkSegment {
  seg_begtim : float;
  seg_endtim : float;
  seg_inst : Z;
  seg_ref : string;
  seg_segid : string;
  seg_nrec : Z;
  seg_start : list float;
  seg_stop : list float;
  seg_quats : list Quat;
  seg_avvs : list (list float);
  seg_rates : list float
}.

(** One line printed by [test_ck]. *)
Record Report : Type := mkReport {
  rp_fk : string;
  rp_quat_error : float;
  rp_relative_reffrm : string;
  rp_reffrm : string;
  rp_et : string
}.

(** ** Insertion-ordered dictionaries

    A Python dict keeps its keys in insertion order; assigning to a key that
    is already present replaces the value and keeps the key where it is. *)
Section Dict.
Context {K V : Type} (same_key : K -> K -> bool).

Fixpoint dict_set (k : K) (v : V) (d : list (K * V)) : list (K * V) :=
  match d with
  | [] => [(k, v)]
  | (k', v') :: d' =>
      if same_key k' k then (k', v) :: d' else (k', v') :: dict_set k v d'
  end.

Fixpoint dict_get (k : K) (d : list (K * V)) : option V :=
  match d with
  | [] => None
  | (k', v') :: d' => if same_key k' k then Some v' else dict_get k d'
  end.
End Dict.

(** The two floats stored in a [dt[fk][reffrm]] tuple are distinct objects.
    A dict finds a key that is the same object or compares equal, so a key
    is modelled with the slot it comes from. *)
Inductive slot : Type := SlotLo | SlotHi.

Definition slot_eqb (a b : slot) : bool :=
  match a, b with
  | SlotLo, SlotLo | SlotHi, SlotHi => true
  | _, _ => false
  end.

Definition EtKey : Type := (slot * float)%type.

Definition same_et_key (a b : EtKey) : bool :=
  (slot_eqb (fst a) (fst b) || PrimFloat.eqb (snd a) (snd b))%bool.

(** [list.pop()] takes the last element. *)
Definition pop_last {A : Type} (l : list A) : option (A * list A) :=
  match last l with
  | Some x => Some (x, removelast l)
  | None => None
  end.

(** Removing the most recent occurrence of an entry from a table. *)
Fixpoint remove_first {A : Type} `{EqDecision A} (x : A) (l : list A) : list A :=
  match l with
  | [] => []
  | y :: l' => if decide (y = x) then l' else y :: remove_first x l'
  end.

Definition remove_last {A : Type} `{EqDecision A} (x : A) (l : list A) : list A :=
  rev (remove_first x (rev l)).

(** ** The state the script acts on *)

(** Every call into spiceypy that touches the kernel subsystem or a file. *)
Inductive Call : Type :=
| Furnsh (kernel : string)
| Unload (kernel : string)
| Kclear
| Ktotal
| Exists (path : string)
| Gipool (name : string) (start room : Z)
| Gcpool (name : string) (start room lenout : Z)
| Gdpool (name : string) (start room : Z)
| Stpool (name : string) (item : Z) (contin : string) (lenout : Z)
| Sce2t (sc : Z) (et : float)
| Sct2e (sc : Z) (sclkdp : float)
| Pxform (fromfr tofr : string) (et : float)
| Ckopn (path ifname : string) (ncomch : Z)
| Ckw02 (handle : Z) (seg : Segment)
| Ckcls (handle : Z).

(** A call as it happened: the kernels loaded when it was made, and whether
    it returned ([true]) or raised ([false]). *)
Record Event : Type := mkEvent {
  ev_call : Call;
  ev_loaded : list string;
  ev_ok : bool
}.

Record State : Type := mkState {
  keeper : list string;          (* the kernels loaded, in load order *)
  disk : list string;            (* the paths at which a file exists *)
  ck_open : list Z;              (* the CK handles open for writing *)
  ck_next : Z;                   (* the next handle [ckopn] hands out *)
  trace : list Event;            (* the calls made so far, oldest first *)
  stdout : list Report;          (* what [test_ck] printed, oldest first *)
  sheap : list (list string);    (* Python lists of strings, by reference *)
  dheap : list (list float)      (* Python lists of floats, by reference *)
}.

Definition set_keeper (k : list string) (s : State) : State :=
  mkState k (disk s) (ck_open s) (ck_next s) (trace s) (stdout s) (sheap s) (dheap s).
Definition set_disk (d : list string) (s : State) : State :=
  mkState (keeper s) d (ck_open s) (ck_next s) (trace s) (stdout s) (sheap s) (dheap s).
Definition set_ck_open (o : list Z) (s : State) : State :=
  mkState (keeper s) (disk s) o (ck_next s) (trace s) (stdout s) (sheap s) (dheap s).
Definition set_ck_next (n : Z) (s : State) : State :=
  mkState (keeper s) (disk s) (ck_open s) n (trace s) (stdout s) (sheap s) (dheap s).
Definition set_trace (t : list Event) (s : State) : State :=
  mkState (keeper s) (disk s) (ck_open s) (ck_next s) t (stdout s) (sheap s) (dheap s).
Definition set_stdout (o : list Report) (s : State) : State :=
  mkState (keeper s) (disk s) (ck_open s) (ck_next s) (trace s) o (sheap s) (dheap s).
Definition set_sheap (h : list (list string)) (s : State) : State :=
  mkState (keeper s) (disk s) (ck_open s) (ck_next s) (trace s) (stdout s) h (dheap s).
Definition set_dheap (h : list (list float)) (s : State) : State :=
  mkState (keeper s) (disk s) (ck_open s) (ck_next s) (trace s) (stdout s) (sheap s) h.

Definition log_call (c : Call) (ok : bool) (s : State) : State :=
  set_trace (trace s ++ [mkEvent c (keeper s) ok])%list s.

(** ** Computations: state passing with exceptions

    A computation returns a value, raises, or (loops only) runs out of the
    fuel the model gives it; the state reached is returned in every case. *)
Inductive outcome (A : Type) : Type :=
| Ok (a : A)
| Raise (e : exn)
| OutOfFuel.
Arguments Ok {A} a.
Arguments Raise {A} e.
Arguments OutOfFuel {A}.

Definition M (A : Type) : Type := State -> outcome A * State.

Definition ret {A : Type} (a : A) : M A := fun s => (Ok a, s).
Definition raise {A : Type} (e : exn) : M A := fun s => (Raise e, s).
Definition bind {A B : Type} (c : M A) (k : A -> M B) : M B :=
  fun s =>
    match c s with
    | (Ok a, s') => k a s'
    | (Raise e, s') => (Raise e, s')
    | (OutOfFuel, s') => (OutOfFuel, s')
    end.

Declare Scope py_scope.
Delimit Scope py_scope with py.
Notation "x <- c ;; k" := (bind c (fun x => k))
  (at level 100, c at next level, right associativity) : py_scope.
Notation "c ;; k" := (bind c (fun _ => k))
  (at level 100, right associativity) : py_scope.
Local Open Scope py_scope.

(** [for x in l: body x] *)
Fixpoint for_each {A : Type} (l : list A) (body : A -> M unit) : M unit :=
  match l with
  | [] => ret tt
  | x :: l' => body x ;; for_each l' body
  end.

(** [for x in l: acc = body acc x] for the variables a loop body assigns. *)
Fixpoint for_fold {A B : Type} (l : list A) (acc : B) (body : B -> A -> M B) : M B :=
  match l with
  | [] => ret acc
  | x :: l' => acc' <- body acc x ;; for_fold l' acc' body
  end.

(** [assert b] *)
Definition py_assert (b : bool) : M unit :=
  if b then ret tt else raise AssertionError.

(** [l[0]] and [l[-1]] *)
Definition index0 {A : Type} (l : list A) : M A :=
  match l with
  | x :: _ => ret x
  | [] => raise IndexError
  end.

Definition index_last {A : Type} (l : list A) : M A :=
  match last l with
  | Some x => ret x
  | None => raise IndexError
  end.

(** *** Python list objects *)

Definition list_at {A : Type} (h : list (list A)) (r : nat) : list A :=
  default [] (h !! r).

(** [list(...)], [l[:]]: a fresh list object. *)
Definition new_slist (l : list string) : M nat :=
  fun s => (Ok (length (sheap s)), set_sheap (sheap s ++ [l])%list s).
Definition new_dlist (l : list float) : M nat :=
  fun s => (Ok (length (dheap s)), set_dheap (dheap s ++ [l])%list s).

Definition read_slist (r : nat) : M (list string) :=
  fun s => (Ok (list_at (sheap s) r), s).
Definition read_dlist (r : nat) : M (list float) :=
  fun s => (Ok (list_at (dheap s) r), s).

Definition copy_slist (r : nat) : M nat := l <- read_slist r ;; new_slist l.
Definition copy_dlist (r : nat) : M nat := l <- read_dlist r ;; new_dlist l.

(** [l.pop()] *)
Definition pop_slist (r : nat) : M string :=
  fun s =>
    match pop_last (list_at (sheap s) r) with
    | Some (x, l') => (Ok x, set_sheap (<[r := l']> (sheap s)) s)
    | None => (Raise IndexError, s)
    end.
Definition pop_dlist (r : nat) : M float :=
  fun s =>
    match pop_last (list_at (dheap s) r) with
    | Some (x, l') => (Ok x, set_dheap (<[r := l']> (dheap s)) s)
    | None => (Raise IndexError, s)
    end.

(** [l.append(x)] and [l.reverse()] *)
Definition append_slist (r : nat) (x : string) : M unit :=
  fun s => (Ok tt, set_sheap (<[r := (list_at (sheap s) r ++ [x])%list]> (sheap s)) s).
Definition reverse_slist (r : nat) : M unit :=
  fun s => (Ok tt, set_sheap (<[r := rev (list_at (sheap s) r)]> (sheap s)) s).
Definition reverse_dlist (r : nat) : M unit :=
  fun s => (Ok tt, set_dheap (<[r := rev (list_at (dheap s) r)]> (dheap s)) s).

(** [print(dict(...))] in [test_ck] *)
Definition print_report (r : Report) : M unit :=
  fun s => (Ok tt, set_stdout (stdout s ++ [r])%list s).

(** ** The SPICE toolkit as the script sees it

    What a query returns depends on the kernels that are loaded.  [None] is a
    call that raises.  [sp.vnorm] is the magnitude of a 3-vector: the
    routine takes three doubles, and [lib_vnorm_sized] says whether the
    binding refuses an array of another size. *)
Record SpiceLib : Type := mkSpiceLib {
  lib_readable : string -> bool;
  lib_gipool : list string -> string -> Z -> Z -> option (list Z);
  lib_gcpool : list string -> string -> Z -> Z -> Z -> option (list string);
  lib_gdpool : list string -> string -> Z -> Z -> option (list float);
  lib_stpool : list string -> string -> list string;
  lib_sce2t : list string -> Z -> float -> option float;
  lib_sct2e : list string -> Z -> float -> option float;
  lib_pxform : list string -> string -> string -> float -> option Matrix;
  lib_m2q : Matrix -> option Quat;
  lib_vnorm : float -> float -> float -> float;
  lib_vnorm_sized : bool;
  lib_ckopn_ok : list string -> string -> bool;
  lib_ckw02_ok : Segment -> bool;
  lib_ckcls_ok : Z -> bool
}.

(** A small toolkit to run the script on.  The pool knows the frames A
    and B, with ids -64001 and -64002, on the clock -64, whose partition
    ends are in SCLK_PARTITION_END_64; a historical file, while it is
    loaded, gives the parent of a frame.  A tick is half a second; the CK
    gives the rotation 1 and a historical file loaded without it gives 2;
    the binding of [sp.vnorm] reads three items. *)
Definition toy_history (loaded : list string) : bool :=
  existsb (String.prefix "old") loaded.

Definition toy_lib (write_ok : bool) : SpiceLib :=
  {| lib_readable := fun _ => true;
     lib_gipool := fun _ name _ _ =>
       if String.eqb name "FRAME_A" then Some [(-64001)%Z]
       else if String.eqb name "FRAME_B" then Some [(-64002)%Z]
       else if (String.eqb name "CK_-64001_SCLK" || String.eqb name "CK_-64002_SCLK")%bool
       then Some [(-64)%Z] else None;
     lib_gcpool := fun loaded name _ _ _ =>
       if String.eqb name "FRAMES_TO_CONVERT" then Some ["A"; "B"]
       else if (toy_history loaded
                && (String.eqb name "TKFRAME_-64001_RELATIVE"
                    || String.eqb name "TKFRAME_-64002_RELATIVE"))%bool
       then Some ["PARENT"] else None;
     lib_gdpool := fun _ name _ _ =>
       if String.eqb name "STOP_ETS" then Some [100%float; PrimFloat.opp 1e32%float]
       else if String.eqb name "SCLK_PARTITION_END_64" then Some [7%float; 500000%float]
       else None;
     lib_stpool := fun _ name =>
       if String.eqb name "FKS" then ["old1.tf"; "old2.tf"]
       else if String.eqb name "OUTPUT_CK" then ["out.bc"] else [];
     lib_sce2t := fun _ _ et => Some (PrimFloat.mul et 2%float);
     lib_sct2e := fun _ _ sclkdp => Some (PrimFloat.div sclkdp 2%float);
     lib_pxform := fun loaded _ _ _ =>
       Some [[if bool_decide ("out.bc" ∈ loaded) then 1%float else 2%float]];
     lib_m2q := fun mtx =>
       match mtx with
       | [x :: _] =>
           Some (x, PrimFloat.div x 2%float, PrimFloat.div x 4%float, PrimFloat.div x 8%float)
       | _ => None
       end;
     lib_vnorm := fun a b c =>
       PrimFloat.sqrt
         (PrimFloat.add (PrimFloat.add (PrimFloat.mul a a) (PrimFloat.mul b b))
            (PrimFloat.mul c c));
     lib_vnorm_sized := false;
     lib_ckopn_ok := fun files path => negb (bool_decide (path ∈ files));
     lib_ckw02_ok := fun _ => write_ok;
     lib_ckcls_ok := fun _ => true |}.

(** The same toolkit with another conversion to quaternions, with a
    binding of [sp.vnorm] that checks the size or not, or with a pool that
    lacks a variable. *)
Definition with_m2q (f : Matrix -> option Quat) (lib : SpiceLib) : SpiceLib :=
  mkSpiceLib (lib_readable lib) (lib_gipool lib) (lib_gcpool lib) (lib_gdpool lib)
    (lib_stpool lib) (lib_sce2t lib) (lib_sct2e lib) (lib_pxform lib) f
    (lib_vnorm lib) (lib_vnorm_sized lib) (lib_ckopn_ok lib) (lib_ckw02_ok lib)
    (lib_ckcls_ok lib).

Definition with_vnorm_sized (sized : bool) (lib : SpiceLib) : SpiceLib :=
  mkSpiceLib (lib_readable lib) (lib_gipool lib) (lib_gcpool lib) (lib_gdpool lib)
    (lib_stpool lib) (lib_sce2t lib) (lib_sct2e lib) (lib_pxform lib) (lib_m2q lib)
    (lib_vnorm lib) sized (lib_ckopn_ok lib) (lib_ckw02_ok lib) (lib_ckcls_ok lib).

Definition without_variable (var : string) (lib : SpiceLib) : SpiceLib :=
  mkSpiceLib (lib_readable lib)
    (fun loaded name start room =>
       if String.eqb name var then None else lib_gipool lib loaded name start room)
    (fun loaded name start room lenout =>
       if String.eqb name var then None else lib_gcpool lib loaded name start room lenout)
    (fun loaded name start room =>
       if String.eqb name var then None else lib_gdpool lib loaded name start room)
    (fun loaded name => if String.eqb name var then [] else lib_stpool lib loaded name)
    (lib_sce2t lib) (lib_sct2e lib) (lib_pxform lib) (lib_m2q lib)
    (lib_vnorm lib) (lib_vnorm_sized lib) (lib_ckopn_ok lib) (lib_ckw02_ok lib)
    (lib_ckcls_ok lib).

(** A state with nothing loaded and the given files on disk, holding one
    list of file names and one list of stop times. *)
Definition toy_state (files fks : list string) (stop_ets : list float) : State :=
  mkState [] files [] 1 [] [] [fks] [stop_ets].

Section Script.

Context (lib : SpiceLib).

(** [doDebug] and [doVerbose]: whether DEBUG and VERBOSE are in the
    environment. *)
Variables (doDebug doVerbose : bool).

(** Python's [round(x, ndigits)] and ['{:015.4f}'.format(et)], and the
    value of [__file__]. *)
Variable py_round : float -> Z -> float.
Variable py_format_et : float -> string.
Variable script_file : string.

(** *** The calls *)

(** [sp.furnsh]: the file must be there and be a kernel; it joins the
    table of loaded kernels. *)
Definition furnsh (kernel : string) : M unit :=
  fun s =>
    let ok := (bool_decide (kernel ∈ disk s) && lib_readable lib kernel)%bool in
    let s' := log_call (Furnsh kernel) ok s in
    if ok then (Ok tt, set_keeper (keeper s ++ [kernel])%list s')
    else (Raise SpiceyError, s').

(** [sp.unload]: the most recent load of the file leaves the table. *)
Definition unload (kernel : string) : M unit :=
  fun s =>
    (Ok tt, set_keeper (remove_last kernel (keeper s)) (log_call (Unload kernel) true s)).

Definition kclear : M unit :=
  fun s => (Ok tt, set_keeper [] (log_call Kclear true s)).

(** [sp.ktotal('all')] *)
Definition ktotal : M Z :=
  fun s => (Ok (Z.of_nat (length (keeper s))), log_call Ktotal true s).

(** [sp.exists] *)
Definition sp_exists (path : string) : M bool :=
  fun s => (Ok (bool_decide (path ∈ disk s)), log_call (Exists path) true s).

(** A query of the kernel pool or of the loaded kernels. *)
Definition query {A : Type} (c : Call) (answer : list string -> option A) : M A :=
  fun s =>
    match answer (keeper s) with
    | Some a => (Ok a, log_call c true s)
    | None => (Raise SpiceyError, log_call c false s)
    end.

Definition gipool (name : string) (start room : Z) : M (list Z) :=
  query (Gipool name start room) (fun k => lib_gipool lib k name start room).
Definition gcpool (name : string) (start room lenout : Z) : M (list string) :=
  query (Gcpool name start room lenout) (fun k => lib_gcpool lib k name start room lenout).
Definition gdpool (name : string) (start room : Z) : M (list float) :=
  query (Gdpool name start room) (fun k => lib_gdpool lib k name start room).
Definition sce2t (sc : Z) (et : float) : M float :=
  query (Sce2t sc et) (fun k => lib_sce2t lib k sc et).
Definition sct2e (sc : Z) (sclkdp : float) : M float :=
  query (Sct2e sc sclkdp) (fun k => lib_sct2e lib k sc sclkdp).
Definition pxform (fromfr tofr : string) (et : float) : M Matrix :=
  query (Pxform fromfr tofr et) (fun k => lib_pxform lib k fromfr tofr et).

(** [sp.stpool(name, item, contin, lenout)[0]]: the item-th string of a
    pool variable; it raises past the last one. *)
Definition stpool (name : string) (item : Z) (contin : string) (lenout : Z) : M string :=
  query (Stpool name item contin lenout)
        (fun k => if Z.ltb item 0 then None else lib_stpool lib k name !! Z.to_nat item).

(** [sp.m2q] reads no kernel. *)
Definition m2q (mtx : Matrix) : M Quat :=
  match lib_m2q lib mtx with
  | Some q => ret q
  | None => raise SpiceyError
  end.

(** [sp.vnorm] on the four items of a quaternion.  The routine takes an
    array of three doubles: a binding that checks the size of its argument
    raises [ctypes.ArgumentError], and with one that does not the routine
    reads the first three items. *)
Definition vnorm (v : Quat) : M float :=
  let '(v0, v1, v2, _) := v in
  if lib_vnorm_sized lib then raise ArgumentError else ret (lib_vnorm lib v0 v1 v2).

(** [sp.ckopn]: a new file appears at the path and a handle is open. *)
Definition ckopn (path ifname : string) (ncomch : Z) : M Z :=
  fun s =>
    let ok := lib_ckopn_ok lib (disk s) path in
    let s' := log_call (Ckopn path ifname ncomch) ok s in
    if ok then
      (Ok (ck_next s),
       set_ck_next (ck_next s + 1)
         (set_ck_open (ck_open s ++ [ck_next s])%list
            (set_disk (disk s ++ [path])%list s')))
    else (Raise SpiceyError, s').

(** [sp.ckw02] *)
Definition ckw02 (handle : Z) (seg : Segment) : M unit :=
  fun s =>
    let ok := (bool_decide (handle ∈ ck_open s) && lib_ckw02_ok lib seg)%bool in
    (if ok then Ok tt else Raise SpiceyError, log_call (Ckw02 handle seg) ok s).

(** [sp.ckcls] *)
Definition ckcls (handle : Z) : M unit :=
  fun s =>
    let ok := (bool_decide (handle ∈ ck_open s) && lib_ckcls_ok lib handle)%bool in
    let s' := log_call (Ckcls handle) ok s in
    if ok then (Ok tt, set_ck_open (remove_last handle (ck_open s)) s')
    else (Raise SpiceyError, s').

(** *** create_ck (lines 75-168) *)

(** The body of [for reffrm in frames_to_convert] (lines 103-162).  The
    loop assigns [ck_handle]; [last_et] is read only. *)
Definition create_ck_frame (fk : string) (stop_et : float) (last_et : option float)
    (output_ck : string) (ck_handle : option Z) (reffrm : string) : M (option Z) :=
  reffrm_ids <- gipool (frame_var reffrm) 0 1 ;;
  reffrm_id <- index0 reffrm_ids ;;
  sclk_ids <- gipool (ck_sclk_var reffrm_id) 0 1 ;;
  sclk_id <- index0 sclk_ids ;;
  begtim <- match last_et with
            | None => ret 0%float
            | Some et => sce2t sclk_id et
            end ;;
  furnsh fk ;;
  relatives <- gcpool (tkframe_relative_var reffrm_id) 0 1 99 ;;
  relative_reffrm <- index0 relatives ;;
  mtx <- pxform relative_reffrm reffrm 0%float ;;
  unload fk ;;
  quat <- m2q mtx ;;
  t1000 <- sct2e sclk_id 1e3%float ;;
  t0 <- sct2e sclk_id 0%float ;;
  let rate := PrimFloat.div (PrimFloat.sub t1000 t0) 1e3%float in
  (* the VERBOSE line formats 1./rate *)
  (if (doVerbose && PrimFloat.eqb rate 0%float)%bool
   then raise ZeroDivisionError else ret tt) ;;
  endtim <- (if is_open_ended stop_et
             then ends <- gdpool (partition_end_var sclk_id) 0 999 ;; index_last ends
             else sce2t sclk_id stop_et) ;;
  (* the DEBUG dump computes endtim-begtim and prints; it raises nothing *)
  handle <- match ck_handle with
            | None => ckopn output_ck "ORX FK REPLACEMENT" 0
            | Some h => ret h
            end ;;
  ckw02 handle
    (mkSegment begtim endtim reffrm_id relative_reffrm (segment_label fk reffrm)
       1 [begtim] [endtim] [quat] [[0%float; 0%float; 0%float]] [rate]) ;;
  ret (Some handle).

(** [while fks:] (lines 94-165), with [last_et] and [ck_handle] as the
    variables it assigns. *)
Fixpoint create_ck_loop (fuel : nat) (frames_to_convert : list string)
    (fks stop_ets : nat) (output_ck : string)
    (last_et : option float) (ck_handle : option Z) : M (option Z) :=
  l <- read_slist fks ;;
  match l with
  | [] => ret ck_handle
  | _ :: _ =>
      match fuel with
      | O => fun s => (OutOfFuel, s)
      | S fuel' =>
          fk <- pop_slist fks ;;
          stop_et <- pop_dlist stop_ets ;;
          ck_handle' <- for_fold frames_to_convert ck_handle
                          (create_ck_frame fk stop_et last_et output_ck) ;;
          create_ck_loop fuel' frames_to_convert fks stop_ets output_ck
            (Some stop_et) ck_handle'
      end
  end.

Definition overwrite_message (output_ck : string) : string :=
  "Cannot overwrite existing CK[" ++ output_ck ++ "]".

Definition create_ck (kernels frames_to_convert : list string) (fks stop_ets : nat)
    (output_ck : string) : M unit :=
  for_each kernels furnsh ;;
  (* assert (not sp.exists(output_ck)) or dict()[...] *)
  there <- sp_exists output_ck ;;
  (if negb there then ret tt
   else raise (KeyError (KStr (overwrite_message output_ck)))) ;;
  l <- read_slist fks ;;
  ck_handle <- create_ck_loop (length l) frames_to_convert fks stop_ets output_ck
                 None None ;;
  match ck_handle with
  | Some h => ckcls h
  | None => ret tt
  end.

(** *** test_ck (lines 172-280) *)

(** [dt[fk][reffrm]]: the relative frame, the two test epochs, and the
    dict of quaternions by epoch. *)
Definition Plan : Type := (string * float * float * list (EtKey * Quat))%type.
Definition FrameTable : Type := list (string * Plan).
Definition Dt : Type := list (string * FrameTable).

(** Lines 218-224: the two epochs at which a window is tested. *)
Definition test_epochs (et_lo stop_et : float) : float * float :=
  if is_open_ended stop_et then
    (PrimFloat.add et_lo 10%float, PrimFloat.add et_lo 1e6%float)
  else
    let et_delta := py_min2 10%float (PrimFloat.div (PrimFloat.sub stop_et et_lo) 3%float) in
    (PrimFloat.add et_lo et_delta, PrimFloat.sub stop_et et_delta).

(** The body of the first [for reffrm in frames_to_convert] (lines 199-228). *)
Definition test_ck_frame (fk : string) (stop_et : float) (last_et : option float)
    (dt : Dt) (reffrm : string) : M Dt :=
  reffrm_ids <- gipool (frame_var reffrm) 0 1 ;;
  reffrm_id <- index0 reffrm_ids ;;
  sclk_ids <- gipool (ck_sclk_var reffrm_id) 0 1 ;;
  sclk_id <- index0 sclk_ids ;;
  et_lo <- match last_et with
           | None => sct2e sclk_id 0%float
           | Some et => ret et
           end ;;
  furnsh fk ;;
  relatives <- gcpool (tkframe_relative_var reffrm_id) 0 1 99 ;;
  relative_reffrm <- index0 relatives ;;
  unload fk ;;
  let '(et_test_lo, et_test_hi) := test_epochs et_lo stop_et in
  (* dt[fk][reffrm] = (relative_reffrm,et_test_lo,et_test_hi,dict()) *)
  match dict_get String.eqb fk dt with
  | Some table =>
      ret (dict_set String.eqb fk
             (dict_set String.eqb reffrm (relative_reffrm, et_test_lo, et_test_hi, []) table)
             dt)
  | None => raise (KeyError (KStr fk))
  end.

(** The first [while fks:] (lines 187-231). *)
Fixpoint test_ck_loop (fuel : nat) (frames_to_convert : list string)
    (fks stop_ets : nat) (last_et : option float) (dt : Dt) : M Dt :=
  l <- read_slist fks ;;
  match l with
  | [] => ret dt
  | _ :: _ =>
      match fuel with
      | O => fun s => (OutOfFuel, s)
      | S fuel' =>
          fk <- pop_slist fks ;;
          stop_et <- pop_dlist stop_ets ;;
          (* dt[fk] = dict() *)
          dt' <- for_fold frames_to_convert (dict_set String.eqb fk [] dt)
                   (test_ck_frame fk stop_et last_et) ;;
          test_ck_loop fuel' frames_to_convert fks stop_ets (Some stop_et) dt'
      end
  end.

(** [for x in l: l[i] = body x], for a loop that updates what it visits. *)
Fixpoint for_map {A B : Type} (l : list A) (body : A -> M B) : M (list B) :=
  match l with
  | [] => ret []
  | x :: l' => y <- body x ;; ys <- for_map l' body ;; ret (y :: ys)
  end.

(** [for et in (et_test_lo,et_test_hi,)] *)
Definition plan_keys (plan : Plan) : list EtKey :=
  let '(_, et_test_lo, et_test_hi, _) := plan in
  [(SlotLo, et_test_lo); (SlotHi, et_test_hi)].

(** Lines 246-251: the quaternions from the CK, stored by epoch. *)
Definition test_ck_fill (reffrm : string) (plan : Plan) : M Plan :=
  let '(relative_reffrm, et_test_lo, et_test_hi, dtquat) := plan in
  dtquat' <- for_fold (plan_keys plan) dtquat
               (fun dq key =>
                  mtx <- pxform relative_reffrm reffrm (snd key) ;;
                  q <- m2q mtx ;;
                  ret (dict_set same_et_key key q dq)) ;;
  ret (relative_reffrm, et_test_lo, et_test_hi, dtquat').

(** Lines 241-251.  A dict has each key once, so going through the keys
    and looking each one up visits the entries in order. *)
Definition test_ck_pass1 (dt : Dt) : M Dt :=
  for_map dt
    (fun entry =>
       table' <- for_map (snd entry)
                   (fun row => plan' <- test_ck_fill (fst row) (snd row) ;;
                               ret (fst row, plan')) ;;
       ret (fst entry, table')).

(** Lines 266-280: one printed line per epoch. *)
Definition test_ck_compare (fk reffrm : string) (plan : Plan) : M unit :=
  let '(relative_reffrm, _, _, dtquat) := plan in
  for_each (plan_keys plan)
    (fun key =>
       q_ck <- match dict_get same_et_key key dtquat with
               | Some q => ret q
               | None => raise (KeyError (KFloat (snd key)))
               end ;;
       mtx <- pxform relative_reffrm reffrm (snd key) ;;
       q_fk <- m2q mtx ;;
       norm <- vnorm (quat_sub q_ck q_fk) ;;
       let quat_error := py_round norm 16 in
       print_report (mkReport fk quat_error relative_reffrm reffrm (py_format_et (snd key)))).

(** Lines 254-280. *)
Definition test_ck_pass2 (dt : Dt) : M unit :=
  for_each dt
    (fun entry =>
       kclear ;;
       n <- ktotal ;;
       py_assert (Z.eqb 0 n) ;;
       furnsh (fst entry) ;;
       for_each (snd entry) (fun row => test_ck_compare (fst entry) (fst row) (snd row))).

(** Lines 178-231: everything before the kernels are cleared. *)
Definition test_ck_plan (kernels frames_to_convert : list string) (fks stop_ets : nat)
    (output_ck : string) : M Dt :=
  for_each (kernels ++ [output_ck])%list furnsh ;;
  l <- read_slist fks ;;
  test_ck_loop (length l) frames_to_convert fks stop_ets None [].

(** Lines 233-251: clear, reload, and take the quaternions from the CK. *)
Definition test_ck_reload (kernels : list string) (output_ck : string) (dt : Dt) : M Dt :=
  kclear ;;
  n <- ktotal ;;
  py_assert (Z.eqb 0 n) ;;
  for_each (kernels ++ [output_ck])%list furnsh ;;
  test_ck_pass1 dt.

Definition test_ck (kernels frames_to_convert : list string) (fks stop_ets : nat)
    (output_ck : string) : M unit :=
  dt <- test_ck_plan kernels frames_to_convert fks stop_ets output_ck ;;
  dt' <- test_ck_reload kernels output_ck dt ;;
  test_ck_pass2 dt'.

(** *** main (lines 284-348) *)

(** [try: c  except: handler] *)
Definition try_except {A : Type} (c handler : M A) : M A :=
  fun s =>
    match c s with
    | (Raise _, s') => handler s'
    | r => r
    end.

(** Lines 312-321: read the FKS strings until a lookup raises. *)
Fixpoint read_fks (fuel : nat) (fks : nat) (item : Z) : M unit :=
  got <- try_except (fk <- stpool "FKS" item "+" 2048 ;;
                     append_slist fks fk ;;
                     ret true)
                    (ret false) ;;
  if got then
    match fuel with
    | O => fun s => (OutOfFuel, s)
    | S fuel' => read_fks fuel' fks (item + 1)
    end
  else ret tt.

(** [__file__[-4:-1]=='.py' and __file__[:-1] or __file__] *)
Definition script_kernel : string :=
  let n := String.length script_file in
  if (Nat.leb 4 n && String.eqb (substring (n - 4) 3 script_file) ".py")%bool
  then substring 0 (n - 1) script_file
  else script_file.

Definition non_kernel_opts : list string := ["--test"; "--create"].

(** Lines 297-300: the arguments that are not options are kernels; with
    none, the script itself is the kernel. *)
Definition main_kernels (argv_arg : list string) : list string :=
  let kernels := filter (fun arg => negb (bool_decide (arg ∈ non_kernel_opts))) argv_arg in
  match kernels with
  | [] => [script_kernel]
  | _ :: _ => kernels
  end.

(** The fuel of the FKS loop: the pool holds that many strings. *)
Definition fks_fuel : M nat :=
  fun s => (Ok (length (lib_stpool lib (keeper s) "FKS")), s).

(** Lines 291-340: what [main] does before it converts anything.  It
    returns the arguments of [create_ck] and [test_ck]. *)
Definition main_setup (argv_arg : list string)
    : M (list string * list string * nat * nat * string) :=
  let kernels := main_kernels argv_arg in
  for_each kernels furnsh ;;
  frames_to_convert <- gcpool "FRAMES_TO_CONVERT" 0 999 99 ;;
  py_assert (negb (Nat.eqb (length frames_to_convert) 0)) ;;
  fks <- new_slist [] ;;
  fuel <- fks_fuel ;;
  read_fks fuel fks 0 ;;
  l <- read_slist fks ;;
  py_assert (negb (Nat.eqb (length l) 0)) ;;
  stops <- gdpool "STOP_ETS" 0 999 ;;
  stop_ets <- new_dlist stops ;;
  lf <- read_slist fks ;;
  ls <- read_dlist stop_ets ;;
  py_assert (Nat.eqb (length lf) (length ls)) ;;
  reverse_slist fks ;;
  reverse_dlist stop_ets ;;
  output_ck <- stpool "OUTPUT_CK" 0 "+" 2048 ;;
  kclear ;;
  ret (kernels, frames_to_convert, fks, stop_ets, output_ck).

(** Lines 342-344 and 346-348: each call gets [fks[:]] and [stop_ets[:]]. *)
Definition main_create (cfg : list string * list string * nat * nat * string) : M unit :=
  let '(kernels, frames_to_convert, fks, stop_ets, output_ck) := cfg in
  fks_copy <- copy_slist fks ;;
  stop_ets_copy <- copy_dlist stop_ets ;;
  create_ck kernels frames_to_convert fks_copy stop_ets_copy output_ck.

Definition main_test (cfg : list string * list string * nat * nat * string) : M unit :=
  let '(kernels, frames_to_convert, fks, stop_ets, output_ck) := cfg in
  fks_copy <- copy_slist fks ;;
  stop_ets_copy <- copy_dlist stop_ets ;;
  test_ck kernels frames_to_convert fks_copy stop_ets_copy output_ck.

Definition main (argv_arg : list string) : M unit :=
  cfg <- main_setup argv_arg ;;
  (if bool_decide ("--create" ∈ argv_arg) then main_create cfg else ret tt) ;;
  (if bool_decide ("--test" ∈ argv_arg) then main_test cfg else ret tt).

End Script.

(** ** What the runs are measured against *)

(** The segments that [sp.ckw02] wrote, in order. *)
Definition segments_written (evs : list Event) : list Segment :=
  omap (fun e => match ev_call e with
                 | Ckw02 _ seg => if ev_ok e then Some seg else None
                 | _ => None
                 end) evs.

(** The windows in the order the loops take them: both lists are popped
    from the end. *)
Definition windows (fks : list string) (stop_ets : list float) : list (string * float) :=
  zip (rev fks) (rev stop_ets).

(** One job per window and frame, with the stop time of the window before
    ([None] for the first window). *)
Fixpoint schedule (last_et : option float) (ws : list (string * float))
    (frames : list string) : list (option float * string * float * string) :=
  match ws with
  | [] => []
  | (fk, stop_et) :: ws' =>
      (map (fun reffrm => (last_et, fk, stop_et, reffrm)) frames
         ++ schedule (Some stop_et) ws' frames)%list
  end.

(** Around the reads of a historical frame kernel: nothing of it is loaded
    ([Idle]) or exactly that file is loaded on top of the base kernels. *)
Inductive mode : Type :=
| Idle
| Holding (fk : string).

Definition scan_step (base : list string) (m : mode) (e : Event) : option mode :=
  match m, ev_call e with
  | Idle, Furnsh fk =>
      if bool_decide (ev_loaded e = base)
      then Some (if ev_ok e then Holding fk else Idle) else None
  | Idle, (Gcpool _ _ _ _ | Pxform _ _ _ | Unload _ | Kclear) => None
  | Idle, _ => if bool_decide (ev_loaded e = base) then Some Idle else None
  | Holding fk, (Gcpool _ _ _ _ | Pxform _ _ _) =>
      if bool_decide (ev_loaded e = base ++ [fk])%list then Some (Holding fk) else None
  | Holding fk, Unload fk' =>
      if bool_decide (ev_loaded e = base ++ [fk])%list && bool_decide (fk' = fk)
      then Some Idle else None
  | Holding _, _ => None
  end.

Fixpoint scan (base : list string) (m : mode) (evs : list Event) : option mode :=
  match evs with
  | [] => Some m
  | e :: evs' =>
      match scan_step base m e with
      | Some m' => scan base m' evs'
      | None => None
      end
  end.

(** The second pass of [test_ck]: clear, check that nothing is loaded, load
    one historical file, and read with that file alone. *)
Inductive alone_mode : Type :=
| Unknown
| Cleared
| Verified
| Alone (fk : string).

Definition alone_step (m : alone_mode) (e : Event) : option alone_mode :=
  match ev_call e, m with
  | Kclear, _ => Some Cleared
  | Ktotal, Cleared => if bool_decide (ev_loaded e = []) then Some Verified else None
  | Furnsh fk, Verified =>
      if bool_decide (ev_loaded e = [])
      then Some (if ev_ok e then Alone fk else Unknown) else None
  | Pxform _ _ _, Alone fk =>
      if bool_decide (ev_loaded e = [fk]) then Some (Alone fk) else None
  | _, _ => None
  end.

Fixpoint alone_scan (m : alone_mode) (evs : list Event) : option alone_mode :=
  match evs with
  | [] => Some m
  | e :: evs' =>
      match alone_step m e with
      | Some m' => alone_scan m' evs'
      | None => None
      end
  end.

Definition is_call_exists (e : Event) : bool :=
  match ev_call e with Exists _ => true | _ => false end.
Definition is_call_ckopn (e : Event) : bool :=
  match ev_call e with Ckopn _ _ _ => true | _ => false end.
Definition is_call_ckw02 (e : Event) : bool :=
  match ev_call e with Ckw02 _ _ => true | _ => false end.
Definition is_call_ckcls (e : Event) : bool :=
  match ev_call e with Ckcls _ => true | _ => false end.
Definition is_call_furnsh (e : Event) : bool :=
  match ev_call e with Furnsh _ => true | _ => false end.

Definition opened (evs : list Event) : bool :=
  existsb (fun e => is_call_ckopn e && ev_ok e)%bool evs.

(** A window and a frame to write a segment for: the stop time of the
    window before, the historical file, the stop time, the frame. *)
Definition Job : Type := (option float * string * float * string)%type.

Section Expected.

Context (lib : SpiceLib).

(** The clock of a frame, resolved through the pool: [FRAME_<NAME>] gives
    the frame id and [CK_<id>_SCLK] the clock id. *)
Definition resolve_clock (loaded : list string) (reffrm : string) : option Z :=
  ids ← lib_gipool lib loaded (frame_var reffrm) 0 1;
  reffrm_id ← head ids;
  sclk_ids ← lib_gipool lib loaded (ck_sclk_var reffrm_id) 0 1;
  head sclk_ids.

(** The begin tick of a window: 0.0 for the first one, else the ticks of
    the stop time of the window before. *)
Definition begin_tick (loaded : list string) (last_et : option float) (reffrm : string)
    : option float :=
  match last_et with
  | None => Some 0%float
  | Some et => sclk_id ← resolve_clock loaded reffrm; lib_sce2t lib loaded sclk_id et
  end.

(** The stop tick of a window: the last [SCLK_PARTITION_END] value of the
    clock for an open-ended stop, else the ticks of the stop time. *)
Definition stop_tick (loaded : list string) (stop_et : float) (reffrm : string)
    : option float :=
  sclk_id ← resolve_clock loaded reffrm;
  if is_open_ended stop_et
  then ends ← lib_gdpool lib loaded (partition_end_var sclk_id) 0 999; last ends
  else lib_sce2t lib loaded sclk_id stop_et.

Definition seg_ok (loaded : list string) (j : Job) (seg : Segment) : Prop :=
  let '(last_et, _, stop_et, reffrm) := j in
  begin_tick loaded last_et reffrm = Some (seg_begtim seg)
  /\ stop_tick loaded stop_et reffrm = Some (seg_endtim seg).

(** What running the loop of [create_ck] over [jobs] does, from [s] with
    the handle variable at [ck], when it ends in [r] and [s']. *)
Definition jobs_post (output_ck : string) (jobs : list Job) (ck : option Z)
    (s : State) (r : outcome (option Z)) (s' : State) : Prop :=
  stdout s' = stdout s /\
  exists evs, trace s' = (trace s ++ evs)%list /\
    Forall (fun e => is_call_exists e = false /\ is_call_ckcls e = false) evs /\
    match r with
    | Ok res =>
        keeper s' = keeper s /\ scan (keeper s) Idle evs = Some Idle /\
        Forall2 (seg_ok (keeper s)) jobs (segments_written evs) /\
        match ck with
        | Some h0 => res = Some h0 /\ ck_open s' = ck_open s /\ disk s' = disk s
        | None =>
            (res = None /\ evs = [] /\ ck_next s' = ck_next s
             /\ ck_open s' = ck_open s /\ disk s' = disk s)
            \/ (res = Some (ck_next s) /\ segments_written evs <> []
                /\ opened evs = true
                /\ ck_open s' = (ck_open s ++ [ck_next s])%list
                /\ disk s' = (disk s ++ [output_ck])%list)
        end
    | Raise e =>
        is_Some (scan (keeper s) Idle evs) /\
        (exists done, done `prefix_of` jobs
                      /\ Forall2 (seg_ok (keeper s)) done (segments_written evs)) /\
        match ck with
        | Some h0 => ck_open s' = ck_open s /\ disk s' = disk s
        | None =>
            (opened evs = false /\ segments_written evs = []
             /\ ck_open s' = ck_open s /\ disk s' = disk s)
            \/ (opened evs = true
                /\ ck_open s' = (ck_open s ++ [ck_next s])%list
                /\ disk s' = (disk s ++ [output_ck])%list)
        end
    | OutOfFuel => False
    end.

End Expected.

(** What a loop that pops [fks] and [stop_ets] does to the list objects:
    it touches no other list, and when it returns [fks] is empty and
    [stop_ets] has lost as many items as [fks] had. *)
Definition drained {A : Type} (fks stop_ets : nat) (s : State) (r : outcome A) (s' : State)
    : Prop :=
  length (sheap s') = length (sheap s) /\ length (dheap s') = length (dheap s) /\
  (forall r', r' <> fks -> sheap s' !! r' = sheap s !! r') /\
  (forall r', r' <> stop_ets -> dheap s' !! r' = dheap s !! r') /\
  match r with
  | Ok _ =>
      list_at (sheap s') fks = []
      /\ list_at (dheap s') stop_ets
         = take (length (list_at (dheap s) stop_ets) - length (list_at (sheap s) fks))
                (list_at (dheap s) stop_ets)
  | _ => True
  end.

(** All the kernels are on disk and readable. *)
Definition loadable (lib : SpiceLib) (s : State) (kernels : list string) : Prop :=
  Forall (fun k => k ∈ disk s /\ lib_readable lib k = true) kernels.

(** Two states with the same files, handles, output and list objects. *)
Definition same_files (s s' : State) : Prop :=
  disk s' = disk s /\ ck_open s' = ck_open s /\ ck_next s' = ck_next s /\
  stdout s' = stdout s /\ sheap s' = sheap s /\ dheap s' = dheap s.

(** The event of the one [sp.exists] call of [create_ck]. *)
Definition exists_event (kernels : list string) (output_ck : string) (s : State) : Event :=
  mkEvent (Exists output_ck) (keeper s ++ kernels) true.

(** A run of [create_ck] from [s] to [r] and [s']: it stops while loading
    the kernels, or at the check of the output path, or it runs the loop
    from [s0] to [r1] and [s1] and closes what the loop opened. *)
Definition create_ck_post (lib : SpiceLib) (kernels frames : list string)
    (fks stop_ets : nat) (output_ck : string) (s : State) (r : outcome unit) (s' : State)
    : Prop :=
  exists pre, Forall (fun e => is_call_furnsh e = true) pre /\
    ((r = Raise SpiceyError /\ trace s' = (trace s ++ pre)%list /\ same_files s s'
      /\ ~ loadable lib s kernels)
     \/ (output_ck ∈ disk s
         /\ r = Raise (KeyError (KStr (overwrite_message output_ck)))
         /\ trace s' = (trace s ++ pre ++ [exists_event kernels output_ck s])%list
         /\ same_files s s')
     \/ ((output_ck ∉ disk s) /\
         exists s0 r1 s1 post,
           same_files s s0 /\ keeper s0 = (keeper s ++ kernels)%list
           /\ trace s0 = (trace s ++ pre ++ [exists_event kernels output_ck s])%list
           /\ jobs_post lib output_ck
                (schedule None
                   (windows (list_at (sheap s) fks) (list_at (dheap s) stop_ets)) frames)
                None s0 r1 s1
           /\ drained fks stop_ets s0 r1 s1
           /\ (frames = [] \/ list_at (sheap s) fks = [] ->
               (length (list_at (sheap s) fks) <= length (list_at (dheap s) stop_ets))%nat ->
               r1 = Ok None)
           /\ trace s' = (trace s1 ++ post)%list
           /\ disk s' = disk s1 /\ keeper s' = keeper s1 /\ stdout s' = stdout s1
           /\ sheap s' = sheap s1 /\ dheap s' = dheap s1
           /\ match r1 with
              | Ok None => r = Ok tt /\ post = [] /\ ck_open s' = ck_open s1
              | Ok (Some h) =>
                  (r = Ok tt /\ post = [mkEvent (Ckcls h) (keeper s1) true]
                   /\ ck_open s' = remove_last h (ck_open s1))
                  \/ (r = Raise SpiceyError /\ post = [mkEvent (Ckcls h) (keeper s1) false]
                      /\ ck_open s' = ck_open s1)
              | Raise e => r = Raise e /\ post = [] /\ ck_open s' = ck_open s1
              | OutOfFuel => False
              end)).

(** *** The properties of a segment, stated on what the toolkit answers *)

Section SegmentProperties.

Context (lib : SpiceLib).

(** The begin tick is 0.0 when there is no window before, else the ticks,
    on the clock of the frame, of the stop time of the window before. *)
Definition begins_at (loaded : list string) (j : Job) (seg : Segment) : Prop :=
  let '(last_et, _, _, reffrm) := j in
  match last_et with
  | None => seg_begtim seg = 0%float
  | Some et =>
      exists sclk_id, resolve_clock lib loaded reffrm = Some sclk_id
                      /\ lib_sce2t lib loaded sclk_id et = Some (seg_begtim seg)
  end.

(** [n] is the negation of [sclk_id] as a 32-bit integer: [-sclk_id] for
    every id but the least one, -2147483648, which is its own negation. *)
Definition negated_in_32_bits (sclk_id n : Z) : Prop :=
  -2147483648 <= n < 2147483648 /\ (sclk_id + n) mod 4294967296 = 0.

(** The stop tick is the last value of the pool variable
    SCLK_PARTITION_END_n of the clock, which SPICE names by the negated
    clock id, when the stop time is strictly below -1e30, else the ticks
    of the stop time. *)
Definition stops_at (loaded : list string) (j : Job) (seg : Segment) : Prop :=
  let '(_, _, stop_et, reffrm) := j in
  exists sclk_id, resolve_clock lib loaded reffrm = Some sclk_id /\
    if PrimFloat.ltb stop_et (PrimFloat.opp 1e30%float)
    then exists n ends,
           negated_in_32_bits sclk_id n
           /\ lib_gdpool lib loaded ("SCLK_PARTITION_END_" ++ str_of_Z n) 0 999 = Some ends
           /\ last ends = Some (seg_endtim seg)
    else lib_sce2t lib loaded sclk_id stop_et = Some (seg_endtim seg).

(** Every handle the call opened is closed when the call ends, however it
    ends. *)
Definition closes_on_every_exit (doVerbose : bool) (kernels frames : list string)
    (fks stop_ets : nat) (output_ck : string) (s : State) : Prop :=
  forall r s',
    create_ck lib doVerbose kernels frames fks stop_ets output_ck s = (r, s') ->
    ck_open s' = ck_open s.

End SegmentProperties.

(** *** What [test_ck] plans and prints *)

(** A step that touches no file or handle and prints nothing. *)
Definition calm (s s' : State) : Prop :=
  disk s' = disk s /\ ck_open s' = ck_open s /\ ck_next s' = ck_next s /\
  stdout s' = stdout s /\
  exists evs, trace s' = (trace s ++ evs)%list.

(** The exceptions of a toolkit call or of an index into an empty list. *)
Definition plain_error (e : exn) : Prop := e = SpiceyError \/ e = IndexError.

(** The rows of one window, put into a fresh [dt[fk]]. *)
Definition table_of (rows : list (string * Plan)) (table : FrameTable) : FrameTable :=
  fold_left (fun t row => dict_set String.eqb (fst row) (snd row) t) rows table.

Definition set_window (dt : Dt) (result : string * list (string * Plan)) : Dt :=
  dict_set String.eqb (fst result) (table_of (snd result) []) dt.

(** The samples of a table: for every file and frame, the two epochs. *)
Definition Sample : Type := (string * string * string * float)%type.

Definition row_samples (fk : string) (row : string * Plan) : list Sample :=
  let '(relative_reffrm, et_test_lo, et_test_hi, _) := snd row in
  [(fk, fst row, relative_reffrm, et_test_lo); (fk, fst row, relative_reffrm, et_test_hi)].

Definition samples (dt : Dt) : list Sample :=
  flat_map (fun entry => flat_map (row_samples (fst entry)) (snd entry)) dt.

(** A table as the first loop leaves it: no quaternion stored yet. *)
Definition planned (dt : Dt) : Prop :=
  Forall (fun entry => Forall (fun row => snd (snd row) = []) (snd entry)) dt.

Section TestExpected.

Context (lib : SpiceLib).
Variable py_round : float -> Z -> float.
Variable py_format_et : float -> string.

(** The start of a window: the stop time of the window before, or the
    time of tick 0 of the clock of the frame for the first window. *)
Definition window_start (loaded : list string) (last_et : option float) (reffrm : string)
    : option float :=
  match last_et with
  | None => sclk_id ← resolve_clock lib loaded reffrm; lib_sct2e lib loaded sclk_id 0%float
  | Some et => Some et
  end.

(** The parent frame a historical file declares for a frame. *)
Definition relative_frame (loaded : list string) (fk reffrm : string) : option string :=
  ids ← lib_gipool lib loaded (frame_var reffrm) 0 1;
  reffrm_id ← head ids;
  relatives ← lib_gcpool lib (loaded ++ [fk])%list (tkframe_relative_var reffrm_id) 0 1 99;
  head relatives.

(** What the first loop of [test_ck] stores for a job. *)
Definition plan_ok (loaded : list string) (j : Job) (plan : Plan) : Prop :=
  let '(last_et, fk, stop_et, reffrm) := j in
  let '(relative_reffrm, et_test_lo, et_test_hi, dtquat) := plan in
  dtquat = []
  /\ relative_frame loaded fk reffrm = Some relative_reffrm
  /\ exists et_lo, window_start loaded last_et reffrm = Some et_lo
                   /\ (et_test_lo, et_test_hi) = test_epochs et_lo stop_et.

(** The results of the windows, one list of rows per window. *)
Fixpoint plans_ok (loaded : list string) (last_et : option float)
    (ws : list (string * float)) (frames : list string)
    (results : list (string * list (string * Plan))) : Prop :=
  match ws, results with
  | [], [] => True
  | (fk, stop_et) :: ws', (fk', rows) :: results' =>
      fk' = fk
      /\ Forall2 (fun reffrm row =>
                    fst row = reffrm
                    /\ plan_ok loaded (last_et, fk, stop_et, reffrm) (snd row))
                 frames rows
      /\ plans_ok loaded (Some stop_et) ws' frames results'
  | _, _ => False
  end.

(** The quaternion of the CK at an epoch. *)
Definition quat_at (loaded : list string) (relative_reffrm reffrm : string) (et : float)
    : option Quat :=
  mtx ← lib_pxform lib loaded relative_reffrm reffrm et; lib_m2q lib mtx.

(** A row after the first pass: the quaternion dict holds the
    quaternions at the two epochs, the second stored after the first. *)
Definition filled (loaded : list string) (reffrm : string) (plan plan' : Plan) : Prop :=
  let '(relative_reffrm, et_test_lo, et_test_hi, _) := plan in
  exists q_lo q_hi,
    quat_at loaded relative_reffrm reffrm et_test_lo = Some q_lo
    /\ quat_at loaded relative_reffrm reffrm et_test_hi = Some q_hi
    /\ plan' = (relative_reffrm, et_test_lo, et_test_hi,
                dict_set same_et_key (SlotHi, et_test_hi) q_hi [((SlotLo, et_test_lo), q_lo)]).

Definition filled_table (loaded : list string) (dt dt' : Dt) : Prop :=
  Forall2 (fun entry entry' =>
             fst entry' = fst entry
             /\ Forall2 (fun row row' =>
                           fst row' = fst row
                           /\ filled loaded (fst row) (snd row) (snd row'))
                        (snd entry) (snd entry'))
          dt dt'.

(** A printed line for a sample.  With [c] the quaternion from the CK
    (taken at the epoch, or at an epoch that compares equal to it) and
    [f] the quaternion from the historical file loaded alone, the error
    printed is what the toolkit's 3-vector norm gives for the first three
    components of [c - f], rounded to 16 places: the fourth components
    have no part in it. *)
Definition report_ok (loaded_ck : list string) (sample : Sample) (rp : Report) : Prop :=
  let '(fk, reffrm, relative_reffrm, et) := sample in
  rp_fk rp = fk /\ rp_reffrm rp = reffrm /\ rp_relative_reffrm rp = relative_reffrm
  /\ rp_et rp = py_format_et et
  /\ exists et_ck c0 c1 c2 c3 f0 f1 f2 f3,
       (et_ck = et \/ PrimFloat.eqb et et_ck = true)
       /\ quat_at loaded_ck relative_reffrm reffrm et_ck = Some (c0, c1, c2, c3)
       /\ quat_at [fk] relative_reffrm reffrm et = Some (f0, f1, f2, f3)
       /\ rp_quat_error rp
          = py_round (lib_vnorm lib (PrimFloat.sub c0 f0) (PrimFloat.sub c1 f1)
                        (PrimFloat.sub c2 f2)) 16.

(** [delta] is the smaller of [a] and [b]: it is one of the two, it is
    not above [a], and it is not above [b] ([a] is taken when [b] is not a
    number, which compares with nothing). *)
Definition smaller_of (a b delta : float) : Prop :=
  (delta = a \/ delta = b)
  /\ PrimFloat.leb delta a = true
  /\ (PrimFloat.leb delta b = true \/ PrimFloat.eqb b b = false).

(** The two epochs of a window that starts at [start]: 10 s and 1e6 s
    after the start when the stop time is below the threshold, else
    [delta] after the start and [delta] before the stop, with [delta] the
    smaller of 10 s and a third of the window. *)
Definition policy_epochs (start stop_et et_test_lo et_test_hi : float) : Prop :=
  if PrimFloat.ltb stop_et (PrimFloat.opp 1e30%float)
  then et_test_lo = PrimFloat.add start 10%float
       /\ et_test_hi = PrimFloat.add start 1e6%float
  else exists delta,
         smaller_of 10%float (PrimFloat.div (PrimFloat.sub stop_et start) 3%float) delta
         /\ et_test_lo = PrimFloat.add start delta
         /\ et_test_hi = PrimFloat.sub stop_et delta.





(** What a part of the second pass did: the lines it printed are those
    of a prefix of the samples, all of them when it returns; it read with
    the historical file alone. *)
Definition printed (loaded_ck : list string) (all : list Sample)
    (scanned : list Event -> Prop) (s : State) (r : outcome unit) (s' : State) : Prop :=
  (sheap s' = sheap s /\ dheap s' = dheap s /\ disk s' = disk s
   /\ ck_open s' = ck_open s /\ ck_next s' = ck_next s) /\
  exists evs reports done,
    trace s' = (trace s ++ evs)%list /\ stdout s' = (stdout s ++ reports)%list
    /\ scanned evs
    /\ done `prefix_of` all
    /\ Forall2 (report_ok loaded_ck) done reports
    /\ match r with
       | Ok _ => done = all
       | Raise e => e = SpiceyError \/ (e = ArgumentError /\ lib_vnorm_sized lib = true)
       | OutOfFuel => False
       end.

End TestExpected.

(** *** What [main] checks before it converts *)

(** The calls of [main] before its first [sp.kclear]. *)
Definition is_setup_call (e : Event) : bool :=
  match ev_call e with
  | Furnsh _ | Gcpool _ _ _ _ | Stpool _ _ _ _ | Gdpool _ _ _ => true
  | _ => false
  end.

(** What [main] leaves when its checks pass: the arguments of the two
    routines, and the two lists it built, reversed. *)
Definition setup_ok (lib : SpiceLib) (script_file : string) (argv_arg : list string)
    (s : State) (cfg : list string * list string * nat * nat * string) (s' : State) : Prop :=
  let kernels := main_kernels script_file argv_arg in
  let loaded := (keeper s ++ kernels)%list in
  let '(kernels', frames, fks, stop_ets, output_ck) := cfg in
  kernels' = kernels /\ loadable lib s kernels
  /\ lib_gcpool lib loaded "FRAMES_TO_CONVERT" 0 999 99 = Some frames /\ frames <> []
  /\ lib_stpool lib loaded "FKS" <> []
  /\ (exists stops, lib_gdpool lib loaded "STOP_ETS" 0 999 = Some stops
                    /\ length (lib_stpool lib loaded "FKS") = length stops
                    /\ dheap s' = (dheap s ++ [rev stops])%list)
  /\ lib_stpool lib loaded "OUTPUT_CK" !! 0%nat = Some output_ck
  /\ fks = length (sheap s) /\ stop_ets = length (dheap s)
  /\ sheap s' = (sheap s ++ [rev (lib_stpool lib loaded "FKS")])%list
  /\ keeper s' = [] /\ disk s' = disk s /\ ck_open s' = ck_open s
  /\ ck_next s' = ck_next s /\ stdout s' = stdout s.

(** Why [main] stops before it converts anything. *)
Definition setup_failed (lib : SpiceLib) (script_file : string) (argv_arg : list string)
    (s : State) (e : exn) : Prop :=
  let kernels := main_kernels script_file argv_arg in
  let loaded := (keeper s ++ kernels)%list in
  let fks := lib_stpool lib loaded "FKS" in
  (e = SpiceyError /\ ~ loadable lib s kernels)
  \/ (loadable lib s kernels /\
      ((e = SpiceyError /\ lib_gcpool lib loaded "FRAMES_TO_CONVERT" 0 999 99 = None)
       \/ exists frames,
            lib_gcpool lib loaded "FRAMES_TO_CONVERT" 0 999 99 = Some frames /\
            ((e = AssertionError /\ frames = [])
             \/ (frames <> [] /\
                 ((e = AssertionError /\ fks = [])
                  \/ (fks <> [] /\
                      ((e = SpiceyError /\ lib_gdpool lib loaded "STOP_ETS" 0 999 = None)
                       \/ exists stops,
                            lib_gdpool lib loaded "STOP_ETS" 0 999 = Some stops /\
                            ((e = AssertionError /\ length fks <> length stops)
                             \/ (length fks = length stops /\ e = SpiceyError
                                 /\ lib_stpool lib loaded "OUTPUT_CK" !! 0%nat = None))))))))).

(** *** Loading the historical files *)





(** How [test_ck] gets to its second pass. *)
Definition stops_before_second_pass (lib : SpiceLib) (kernels frames : list string)
    (fks stop_ets : nat) (output_ck : string) (s : State) (e : exn) (s' : State) : Prop :=
  test_ck_plan lib kernels frames fks stop_ets output_ck s = (Raise e, s')
  \/ exists dt s1,
       test_ck_plan lib kernels frames fks stop_ets output_ck s = (Ok dt, s1)
       /\ test_ck_reload lib kernels output_ck dt s1 = (Raise e, s').



(** *** The lines of a run of [test_ck] *)

(** What [test_ck] prints: nothing when it stops before the second pass,
    else one line for each sample of the table [dt] of the first loop, in
    order, up to the sample at which a toolkit call raised. *)
Definition reports_samples (lib : SpiceLib) (py_round : float -> Z -> float)
    (py_format_et : float -> string) (kernels frames : list string)
    (fks stop_ets : nat) (output_ck : string) (s : State) (r : outcome unit) (s' : State)
    : Prop :=
  exists reports,
    stdout s' = (stdout s ++ reports)%list
    /\ ((reports = []
         /\ exists e, r = Raise e
                      /\ stops_before_second_pass lib kernels frames fks stop_ets output_ck
                           s e s')
        \/ exists dt s1 done,
             test_ck_plan lib kernels frames fks stop_ets output_ck s = (Ok dt, s1)
             /\ done `prefix_of` samples dt
             /\ (r = Ok tt -> done = samples dt)
             /\ Forall2 (report_ok lib py_round py_format_et (kernels ++ [output_ck])%list)
                  done reports).


(** The rotation of a frame was read at an epoch. *)
Definition read_at (evs : list Event) (reffrm : string) (et : float) : bool :=
  existsb (fun e => match ev_call e with
                    | Pxform _ tofr et' => (String.eqb tofr reffrm && PrimFloat.eqb et' et)%bool
                    | _ => false
                    end) evs.

(** The claim without the proviso: in a run that returns, every window
    and every frame was sampled at the two epochs of the policy. *)
Definition samples_every_window (lib : SpiceLib) (py_round : float -> Z -> float)
    (py_format_et : float -> string) (kernels frames : list string)
    (fks stop_ets : nat) (output_ck : string) (s : State) : Prop :=
  let ws := windows (list_at (sheap s) fks) (list_at (dheap s) stop_ets) in
  let loaded := (keeper s ++ kernels ++ [output_ck])%list in
  forall s' evs,
    test_ck lib py_round py_format_et kernels frames fks stop_ets output_ck s = (Ok tt, s') ->
    trace s' = (trace s ++ evs)%list ->
    forall last_et fk stop_et reffrm start et_test_lo et_test_hi,
      (last_et, fk, stop_et, reffrm) ∈ schedule None ws frames ->
      window_start lib loaded last_et reffrm = Some start ->
      policy_epochs start stop_et et_test_lo et_test_hi ->
      read_at evs reffrm et_test_lo = true /\ read_at evs reffrm et_test_hi = true.

(** The norm of a quaternion, over its four components. *)
Definition quat_norm (q : Quat) : float :=
  let '(q0, q1, q2, q3) := q in
  PrimFloat.sqrt
    (PrimFloat.add
       (PrimFloat.add (PrimFloat.add (PrimFloat.mul q0 q0) (PrimFloat.mul q1 q1))
          (PrimFloat.mul q2 q2))
       (PrimFloat.mul q3 q3)).

(** *** Calls on copies of the lists *)

(** A call on [fks[:]] and [stop_ets[:]] from [s], where [fks] holds [F]
    and [stop_ets] holds [S]: the routine gets two new list objects with
    the same items; the lists of the caller are as before when the call
    ends, and the new ones are empty when it returns. *)
Definition runs_on_copies (run : nat -> nat -> M unit) (fks stop_ets : nat)
    (F : list string) (S : list float) (s : State) (r : outcome unit) (s' : State) : Prop :=
  let fks_copy := length (sheap s) in
  let stop_ets_copy := length (dheap s) in
  list_at (sheap s) fks = F /\ list_at (dheap s) stop_ets = S
  /\ run fks_copy stop_ets_copy
       (set_dheap (dheap s ++ [S])%list (set_sheap (sheap s ++ [F])%list s)) = (r, s')
  /\ list_at (sheap s') fks = F /\ list_at (dheap s') stop_ets = S
  /\ (r = Ok tt -> list_at (sheap s') fks_copy = [] /\ list_at (dheap s') stop_ets_copy = []).

(** A run of [main] that ends before the [sp.kclear] of line 340: it
    made only the calls of the setup, and left the files, the handles and
    the output as they were; neither [create_ck] nor [test_ck] was
    called. *)
Definition stops_in_setup (s s' : State) : Prop :=
  (exists evs, trace s' = (trace s ++ evs)%list
               /\ Forall (fun e => is_setup_call e = true) evs)
  /\ disk s' = disk s /\ ck_open s' = ck_open s /\ stdout s' = stdout s.

(** What [main] checks of the two lists it reads from the pool. *)
Definition checks_lists (lib : SpiceLib) (script_file : string) (argv_arg : list string)
    (s : State) (r : outcome unit) (s' : State) : Prop :=
  let loaded := (keeper s ++ main_kernels script_file argv_arg)%list in
  let fks := lib_stpool lib loaded "FKS" in
  (fks = [] -> r = Raise AssertionError /\ stops_in_setup s s')
  /\ (forall stops,
        lib_gdpool lib loaded "STOP_ETS" 0 999 = Some stops ->
        stops = [] \/ length fks <> length stops ->
        r = Raise AssertionError /\ stops_in_setup s s')
  /\ (forall cfg s1,
        main_setup lib script_file argv_arg s = (Ok cfg, s1) ->
        fks <> []
        /\ exists stops,
             lib_gdpool lib loaded "STOP_ETS" 0 999 = Some stops
             /\ stops <> [] /\ length fks = length stops
             /\ list_at (sheap s1) (snd (fst (fst cfg))) = rev fks
             /\ list_at (dheap s1) (snd (fst cfg)) = rev stops).

(** *** The script on the small toolkit *)

Definition toy_files : list string := ["base.tm"; "old1.tf"; "old2.tf"].

(** The lists as [main] passes them: reversed, the oldest window last. *)
Definition toy_start : State :=
  toy_state toy_files ["old2.tf"; "old1.tf"] [PrimFloat.opp 1e32%float; 100%float].

(** The state after [create_ck] has written the four segments. *)
Definition toy_created : State :=
  Eval vm_compute in
    snd (create_ck (toy_lib true) false ["base.tm"] ["A"; "B"] 0 0 "out.bc" toy_start).

(** The state after [create_ck] has opened the file and [ckw02] failed. *)
Definition toy_failed : State :=
  Eval vm_compute in
    snd (create_ck (toy_lib false) false ["base.tm"] ["A"; "B"] 0 0 "out.bc" toy_start).

(** The state after [create_ck] with no frame to convert. *)
Definition toy_noop : State :=
  Eval vm_compute in
    snd (create_ck (toy_lib true) false ["base.tm"] [] 0 0 "out.bc" toy_start).

Definition toy_round (x : float) (ndigits : Z) : float := x.

Definition toy_format_et (et : float) : string :=
  if PrimFloat.ltb et 1000%float then "early" else "late".

Definition toy_test_start : State :=
  toy_state (toy_files ++ ["out.bc"]) ["old2.tf"; "old1.tf"]
    [PrimFloat.opp 1e32%float; 100%float].

Definition toy_tested : State :=
  Eval vm_compute in
    snd (test_ck (toy_lib true) toy_round toy_format_et ["base.tm"] ["A"; "B"] 0 0 "out.bc"
           toy_test_start).

Definition toy_script : string := "make_ola_high_low_ck.py".
Definition toy_argv : list string := ["base.tm"; "--create"; "--test"].
Definition toy_main_start : State := mkState [] toy_files [] 1 [] [] [] [].

Definition toy_cfg : list string * list string * nat * nat * string :=
  (["base.tm"], ["A"; "B"], 0%nat, 0%nat, "out.bc").

Definition toy_main_ready : State :=
  Eval vm_compute in snd (main_setup (toy_lib true) toy_script toy_argv toy_main_start).

Definition toy_main_created : State :=
  Eval vm_compute in snd (main_create (toy_lib true) false toy_cfg toy_main_ready).

Definition toy_main_tested : State :=
  Eval vm_compute in
    snd (main_test (toy_lib true) toy_round toy_format_et toy_cfg toy_main_created).

(** *** Further properties of the runs *)

(** The segment of a job, as the toolkit answers with [loaded] as the
    base kernels: the frame id and the clock come from the base kernels,
    the relative frame and the rotation from the base kernels with the
    historical file on top; there is one record, over the whole segment,
    with no angular velocity. *)
Definition segment_of (lib : SpiceLib) (loaded : list string) (j : Job) (seg : Segment)
    : Prop :=
  let '(_, fk, _, reffrm) := j in
  exists reffrm_ids sclk_id relatives mtx quat t1000 t0,
    lib_gipool lib loaded (frame_var reffrm) 0 1 = Some reffrm_ids
    /\ head reffrm_ids = Some (seg_inst seg)
    /\ resolve_clock lib loaded reffrm = Some sclk_id
    /\ lib_gcpool lib (loaded ++ [fk])%list (tkframe_relative_var (seg_inst seg)) 0 1 99
       = Some relatives
    /\ head relatives = Some (seg_ref seg)
    /\ lib_pxform lib (loaded ++ [fk])%list (seg_ref seg) reffrm 0%float = Some mtx
    /\ lib_m2q lib mtx = Some quat
    /\ lib_sct2e lib loaded sclk_id 1e3%float = Some t1000
    /\ lib_sct2e lib loaded sclk_id 0%float = Some t0
    /\ seg_segid seg = segment_label fk reffrm
    /\ seg_nrec seg = 1
    /\ seg_start seg = [seg_begtim seg]
    /\ seg_stop seg = [seg_endtim seg]
    /\ seg_quats seg = [quat]
    /\ seg_avvs seg = [[0%float; 0%float; 0%float]]
    /\ seg_rates seg = [PrimFloat.div (PrimFloat.sub t1000 t0) 1e3%float].

(** The segments of a run over [jobs]: those of the jobs done, in order. *)
Definition segments_post (lib : SpiceLib) (output_ck : string) (jobs : list Job)
    (ck : option Z) (s : State) (r : outcome (option Z)) (s' : State) : Prop :=
  jobs_post lib output_ck jobs ck s r s'
  /\ exists evs done,
       trace s' = (trace s ++ evs)%list
       /\ done `prefix_of` jobs
       /\ match r with Ok _ => done = jobs | _ => True end
       /\ Forall2 (segment_of lib (keeper s)) done (segments_written evs).

(** The output file along a run: not opened yet, open, or closed. *)
Inductive file_mode : Type :=
| NotOpen
| IsOpen
| Closed.

(** One call, with [h] the handle that [sp.ckopn] hands out: the file at
    [output_ck] is opened while not open, written and closed through [h]
    while open, and not touched once closed. *)
Definition file_step (output_ck : string) (h : Z) (m : file_mode) (e : Event)
    : option file_mode :=
  match ev_call e, m with
  | Ckopn path _ _, NotOpen =>
      if String.eqb path output_ck then Some (if ev_ok e then IsOpen else NotOpen) else None
  | Ckw02 h' _, IsOpen => if Z.eqb h' h then Some IsOpen else None
  | Ckcls h', IsOpen =>
      if Z.eqb h' h then Some (if ev_ok e then Closed else IsOpen) else None
  | (Ckopn _ _ _ | Ckw02 _ _ | Ckcls _), _ => None
  | _, _ => Some m
  end.

Fixpoint file_scan (output_ck : string) (h : Z) (m : file_mode) (evs : list Event)
    : option file_mode :=
  match evs with
  | [] => Some m
  | e :: evs' =>
      match file_step output_ck h m e with
      | Some m' => file_scan output_ck h m' evs'
      | None => None
      end
  end.

Definition mode_of (ck : option Z) : file_mode :=
  match ck with None => NotOpen | Some _ => IsOpen end.

(** The handle in use: the one in the variable, or the next one that
    [sp.ckopn] hands out. *)
Definition handle_of (ck : option Z) (s : State) (h : Z) : Prop :=
  match ck with None => h = ck_next s | Some h0 => h = h0 end.

Definition file_post (lib : SpiceLib) (output_ck : string) (jobs : list Job)
    (ck : option Z) (s : State) (r : outcome (option Z)) (s' : State) : Prop :=
  jobs_post lib output_ck jobs ck s r s'
  /\ forall h, handle_of ck s h ->
       exists evs,
         trace s' = (trace s ++ evs)%list
         /\ match r with
            | Ok res =>
                file_scan output_ck h (mode_of ck) evs = Some (mode_of res)
                /\ (res = ck \/ res = Some h)
            | Raise _ =>
                file_scan output_ck h (mode_of ck) evs = Some NotOpen
                \/ file_scan output_ck h (mode_of ck) evs = Some IsOpen
            | OutOfFuel => False
            end.

(** What the window loop can raise: the error of a toolkit call, the
    index error of an empty answer or of a pop from an empty list, and,
    with VERBOSE, the division by a zero rate. *)
Definition loop_error (doVerbose : bool) (e : exn) : Prop :=
  e = SpiceyError \/ e = IndexError \/ (e = ZeroDivisionError /\ doVerbose = true).

Definition loop_raises (doVerbose : bool) (jobs : list Job) (ck : option Z)
    (s : State) (r : outcome (option Z)) (s' : State) : Prop :=
  match r with
  | Ok _ => True
  | Raise e => loop_error doVerbose e
  | OutOfFuel => False
  end.

(** A run that stopped while loading its kernels: it called only
    [sp.furnsh], and the files, the handles, the output and the lists are
    as they were. *)
Definition stops_at_load (s : State) (r : outcome unit) (s' : State) : Prop :=
  r = Raise SpiceyError
  /\ same_files s s'
  /\ exists evs, trace s' = (trace s ++ evs)%list
                 /\ Forall (fun e => is_call_furnsh e = true) evs.

(** The errors of [main] on what it reads besides the two lists: each one
    ends the run in the setup. *)
Definition configuration_errors (lib : SpiceLib) (script_file : string)
    (argv_arg : list string) (s : State) (r : outcome unit) (s' : State) : Prop :=
  let kernels := main_kernels script_file argv_arg in
  let loaded := (keeper s ++ kernels)%list in
  let fails e := r = Raise e /\ stops_in_setup s s' in
  (~ loadable lib s kernels -> fails SpiceyError)
  /\ (loadable lib s kernels ->
      (lib_gcpool lib loaded "FRAMES_TO_CONVERT" 0 999 99 = None -> fails SpiceyError)
      /\ (lib_gcpool lib loaded "FRAMES_TO_CONVERT" 0 999 99 = Some [] ->
          fails AssertionError)
      /\ forall frame frames,
           lib_gcpool lib loaded "FRAMES_TO_CONVERT" 0 999 99 = Some (frame :: frames) ->
           lib_stpool lib loaded "FKS" <> [] ->
           (lib_gdpool lib loaded "STOP_ETS" 0 999 = None -> fails SpiceyError)
           /\ forall stops,
                lib_gdpool lib loaded "STOP_ETS" 0 999 = Some stops ->
                length (lib_stpool lib loaded "FKS") = length stops ->
                lib_stpool lib loaded "OUTPUT_CK" = [] ->
                fails SpiceyError).

(** The kernels loaded when [test_ck] returns: the file of the last entry
    of its table, or what the reload loaded for an empty table. *)
Definition loaded_after_test (kernels : list string) (output_ck : string) (dt : Dt)
    : list string :=
  match last (map fst dt) with
  | Some fk => [fk]
  | None => (kernels ++ [output_ck])%list
  end.

(** The rows that the table keeps for a file: those of the last window
    that names the file. *)
Definition kept_rows (results : list (string * list (string * Plan))) (fk : string)
    : option FrameTable :=
  match last (filter (fun res => fst res = fk) results) with
  | Some res => Some (table_of (snd res) [])
  | None => None
  end.


(** *** More runs on the small toolkit *)

(** Two files and one stop time. *)
Definition toy_short_start : State :=
  toy_state toy_files ["old2.tf"; "old1.tf"] [100%float].

Definition toy_short_created : State :=
  Eval vm_compute in
    snd (create_ck (toy_lib true) false ["base.tm"] ["A"; "B"] 0 0 "out.bc" toy_short_start).

Definition toy_short_tested : State :=
  Eval vm_compute in
    snd (test_ck (toy_lib true) toy_round toy_format_et ["base.tm"] ["A"; "B"] 0 0 "out.bc"
           toy_short_start).

(** [test_ck] with no CK on disk. *)
Definition toy_untested : State :=
  Eval vm_compute in
    snd (test_ck (toy_lib true) toy_round toy_format_et ["base.tm"] ["A"; "B"] 0 0 "out.bc"
           toy_start).

(** [main] with a kernel and no option. *)
Definition toy_main_idle : State :=
  Eval vm_compute in
    snd (main (toy_lib true) false toy_round toy_format_et toy_script ["base.tm"]
           toy_main_start).

(** The same file for both windows. *)
Definition toy_twice_start : State :=
  toy_state (toy_files ++ ["out.bc"]) ["old1.tf"; "old1.tf"]
    [PrimFloat.opp 1e32%float; 100%float].

Definition toy_twice_table : Dt :=
  Eval vm_compute in
    match fst (test_ck_plan (toy_lib true) ["base.tm"] ["A"] 0 0 "out.bc" toy_twice_start) with
    | Ok dt => dt
    | _ => []
    end.

Definition toy_twice_planned : State :=
  Eval vm_compute in
    snd (test_ck_plan (toy_lib true) ["base.tm"] ["A"] 0 0 "out.bc" toy_twice_start).


(** Three windows: one of 12 s, one of 88 s, and the open-ended one. *)
Definition toy_three_start : State :=
  toy_state ["base.tm"; "old1.tf"; "old2.tf"; "old3.tf"; "out.bc"]
    ["old3.tf"; "old2.tf"; "old1.tf"] [PrimFloat.opp 1e32%float; 100%float; 12%float].


Definition toy_three_tested : State :=
  Eval vm_compute in
    snd (test_ck (toy_lib true) toy_round toy_format_et ["base.tm"] ["A"] 0 0 "out.bc"
           toy_three_start).

(** A toolkit for which the CK and the historical files disagree: the CK
    gives the quaternion (0.5, 0.5, 0.5, 0.5) for every rotation and a
    historical file gives (0.5, 0.5, 0.5, -0.5), two different rotations. *)
Definition toy_turn (mtx : Matrix) : option Quat :=
  match mtx with
  | [x :: _] =>
      Some (0.5%float, 0.5%float, 0.5%float,
            if PrimFloat.eqb x 1%float then 0.5%float else PrimFloat.opp 0.5%float)
  | _ => None
  end.

Definition toy_lib_turned : SpiceLib := with_m2q toy_turn (toy_lib true).

Definition toy_turned_tested : State :=
  Eval vm_compute in
    snd (test_ck toy_lib_turned toy_round toy_format_et ["base.tm"] ["A"; "B"] 0 0 "out.bc"
           toy_test_start).

(** The same with a binding of [sp.vnorm] that checks the size. *)
Definition toy_sized_tested : State :=
  Eval vm_compute in
    snd (test_ck (with_vnorm_sized true toy_lib_turned) toy_round toy_format_et
           ["base.tm"] ["A"; "B"] 0 0 "out.bc" toy_test_start).

(** [main] with a kernel that is not there, and with a pool that lacks
    FRAMES_TO_CONVERT, STOP_ETS or OUTPUT_CK. *)
Definition toy_main_no_kernel : State :=
  Eval vm_compute in
    snd (main (toy_lib true) false toy_round toy_format_et toy_script
           ["missing.tm"; "--create"] toy_main_start).

Definition toy_main_no_frames : State :=
  Eval vm_compute in
    snd (main (without_variable "FRAMES_TO_CONVERT" (toy_lib true)) false toy_round
           toy_format_et toy_script toy_argv toy_main_start).

Definition toy_main_no_stops : State :=
  Eval vm_compute in
    snd (main (without_variable "STOP_ETS" (toy_lib true)) false toy_round
           toy_format_et toy_script toy_argv toy_main_start).

Definition toy_main_no_output : State :=
  Eval vm_compute in
    snd (main (without_variable "OUTPUT_CK" (toy_lib true)) false toy_round
           toy_format_et toy_script toy_argv toy_main_start).

(** ** Reasoning about runs *)

(** [wp c s Q]: the run of [c] from [s] ends in an outcome and a state
    that satisfy [Q]. *)
Definition wp {A : Type} (c : M A) (s : State) (Q : outcome A -> State -> Prop) : Prop :=
  Q (fst (c s)) (snd (c s)).

Lemma wp_run {A : Type} (c : M A) (s : State) (Q : outcome A -> State -> Prop) r s' :
  wp c s Q -> c s = (r, s') -> Q r s'.
Proof. unfold wp. intros H E. rewrite E in H. exact H. Qed.

Lemma wp_intro {A : Type} (c : M A) (s : State) (Q : outcome A -> State -> Prop) :
  (forall r s', c s = (r, s') -> Q r s') -> wp c s Q.
Proof. unfold wp. intros H. apply H. destruct (c s); reflexivity. Qed.

Lemma wp_mono {A : Type} (c : M A) (s : State) (Q Q' : outcome A -> State -> Prop) :
  wp c s Q -> (forall r s', Q r s' -> Q' r s') -> wp c s Q'.
Proof. unfold wp. auto. Qed.

Lemma wp_ret {A : Type} (a : A) s (Q : outcome A -> State -> Prop) :
  Q (Ok a) s -> wp (ret a) s Q.
Proof. exact (fun H => H). Qed.

Lemma wp_raise {A : Type} (e : exn) s (Q : outcome A -> State -> Prop) :
  Q (Raise e) s -> wp (raise e) s Q.
Proof. exact (fun H => H). Qed.

Lemma wp_bind {A B : Type} (c : M A) (k : A -> M B) s (Q : outcome B -> State -> Prop) :
  wp c s (fun r s1 =>
            match r with
            | Ok a => wp (k a) s1 Q
            | Raise e => Q (Raise e) s1
            | OutOfFuel => Q OutOfFuel s1
            end) ->
  wp (bind c k) s Q.
Proof.
  unfold wp, bind. destruct (c s) as [[a|e|] s1]; simpl; auto.
Qed.

Lemma bind_run {A B : Type} (c : M A) (k : A -> M B) s r s' :
  bind c k s = (r, s') ->
  (exists a s1, c s = (Ok a, s1) /\ k a s1 = (r, s'))
  \/ (exists e, c s = (Raise e, s') /\ r = Raise e)
  \/ (c s = (OutOfFuel, s') /\ r = OutOfFuel).
Proof.
  unfold bind. destruct (c s) as [[a|e|] s1]; intros H.
  - left. eauto.
  - right. left. inversion H. eauto.
  - right. right. inversion H. eauto.
Qed.

Section Properties.

Context (lib : SpiceLib).
Variables (doDebug doVerbose : bool).
Variable py_round : float -> Z -> float.
Variable py_format_et : float -> string.
Variable script_file : string.

(** *** Rules for the calls *)

Lemma wp_query {A : Type} (c : Call) (answer : list string -> option A) s
    (Q : outcome A -> State -> Prop) :
  (forall a, answer (keeper s) = Some a -> Q (Ok a) (log_call c true s)) ->
  (answer (keeper s) = None -> Q (Raise SpiceyError) (log_call c false s)) ->
  wp (query c answer) s Q.
Proof.
  unfold wp, query. intros H1 H2. destruct (answer (keeper s)); simpl; auto.
Qed.

Lemma wp_furnsh kernel s (Q : outcome unit -> State -> Prop) :
  (kernel ∈ disk s -> lib_readable lib kernel = true ->
   Q (Ok tt) (set_keeper (keeper s ++ [kernel])%list (log_call (Furnsh kernel) true s))) ->
  (Q (Raise SpiceyError) (log_call (Furnsh kernel) false s)) ->
  wp (furnsh lib kernel) s Q.
Proof.
  unfold wp, furnsh. intros H1 H2.
  destruct (bool_decide (kernel ∈ disk s)) eqn:E1; simpl; auto.
  destruct (lib_readable lib kernel) eqn:E2; simpl; auto.
  apply H1; auto. by apply bool_decide_eq_true in E1.
Qed.

Lemma wp_index0 {A : Type} (l : list A) s (Q : outcome A -> State -> Prop) :
  (forall x l', l = x :: l' -> Q (Ok x) s) ->
  (l = [] -> Q (Raise IndexError) s) ->
  wp (index0 l) s Q.
Proof. unfold wp. destruct l; simpl; eauto. Qed.

Lemma wp_index_last {A : Type} (l : list A) s (Q : outcome A -> State -> Prop) :
  (forall x, last l = Some x -> Q (Ok x) s) ->
  (last l = None -> Q (Raise IndexError) s) ->
  wp (index_last l) s Q.
Proof. unfold wp, index_last. destruct (last l); simpl; eauto. Qed.

Lemma wp_m2q mtx s (Q : outcome Quat -> State -> Prop) :
  (forall q, lib_m2q lib mtx = Some q -> Q (Ok q) s) ->
  (lib_m2q lib mtx = None -> Q (Raise SpiceyError) s) ->
  wp (m2q lib mtx) s Q.
Proof. unfold wp, m2q. destruct (lib_m2q lib mtx); simpl; eauto. Qed.

Lemma wp_vnorm v s (Q : outcome float -> State -> Prop) :
  (lib_vnorm_sized lib = false ->
   Q (Ok (lib_vnorm lib (fst (fst (fst v))) (snd (fst (fst v))) (snd (fst v)))) s) ->
  (lib_vnorm_sized lib = true -> Q (Raise ArgumentError) s) ->
  wp (vnorm lib v) s Q.
Proof.
  destruct v as [[[v0 v1] v2] v3]. unfold wp, vnorm. intros H1 H2.
  destruct (lib_vnorm_sized lib); simpl; auto.
Qed.

Lemma wp_ckopn path ifname ncomch s (Q : outcome Z -> State -> Prop) :
  (lib_ckopn_ok lib (disk s) path = true ->
   Q (Ok (ck_next s))
     (set_ck_next (ck_next s + 1)
        (set_ck_open (ck_open s ++ [ck_next s])%list
           (set_disk (disk s ++ [path])%list
              (log_call (Ckopn path ifname ncomch) true s))))) ->
  (Q (Raise SpiceyError) (log_call (Ckopn path ifname ncomch) false s)) ->
  wp (ckopn lib path ifname ncomch) s Q.
Proof.
  unfold wp, ckopn. intros H1 H2.
  destruct (lib_ckopn_ok lib (disk s) path); simpl; auto.
Qed.

Lemma wp_ckw02 handle seg s (Q : outcome unit -> State -> Prop) :
  (handle ∈ ck_open s -> Q (Ok tt) (log_call (Ckw02 handle seg) true s)) ->
  (Q (Raise SpiceyError) (log_call (Ckw02 handle seg) false s)) ->
  wp (ckw02 lib handle seg) s Q.
Proof.
  unfold wp, ckw02. intros H1 H2.
  destruct (bool_decide (handle ∈ ck_open s)) eqn:E1; simpl; auto.
  destruct (lib_ckw02_ok lib seg); simpl; auto.
  apply H1. by apply bool_decide_eq_true in E1.
Qed.

Lemma wp_ckcls handle s (Q : outcome unit -> State -> Prop) :
  (Q (Ok tt) (set_ck_open (remove_last handle (ck_open s)) (log_call (Ckcls handle) true s))) ->
  (Q (Raise SpiceyError) (log_call (Ckcls handle) false s)) ->
  wp (ckcls lib handle) s Q.
Proof.
  unfold wp, ckcls. intros H1 H2.
  destruct (bool_decide (handle ∈ ck_open s) && lib_ckcls_ok lib handle)%bool; simpl; auto.
Qed.

Lemma wp_unload kernel s (Q : outcome unit -> State -> Prop) :
  Q (Ok tt) (set_keeper (remove_last kernel (keeper s)) (log_call (Unload kernel) true s)) ->
  wp (unload kernel) s Q.
Proof. exact (fun H => H). Qed.

Lemma wp_kclear s (Q : outcome unit -> State -> Prop) :
  Q (Ok tt) (set_keeper [] (log_call Kclear true s)) -> wp kclear s Q.
Proof. exact (fun H => H). Qed.

Lemma wp_ktotal s (Q : outcome Z -> State -> Prop) :
  Q (Ok (Z.of_nat (length (keeper s)))) (log_call Ktotal true s) -> wp ktotal s Q.
Proof. exact (fun H => H). Qed.

Lemma wp_sp_exists path s (Q : outcome bool -> State -> Prop) :
  Q (Ok (bool_decide (path ∈ disk s))) (log_call (Exists path) true s) ->
  wp (sp_exists path) s Q.
Proof. exact (fun H => H). Qed.

Lemma wp_read_slist r s (Q : outcome (list string) -> State -> Prop) :
  Q (Ok (list_at (sheap s) r)) s -> wp (read_slist r) s Q.
Proof. exact (fun H => H). Qed.

Lemma wp_read_dlist r s (Q : outcome (list float) -> State -> Prop) :
  Q (Ok (list_at (dheap s) r)) s -> wp (read_dlist r) s Q.
Proof. exact (fun H => H). Qed.

Lemma wp_print_report rp s (Q : outcome unit -> State -> Prop) :
  Q (Ok tt) (set_stdout (stdout s ++ [rp])%list s) -> wp (print_report rp) s Q.
Proof. exact (fun H => H). Qed.

Lemma wp_py_assert b s (Q : outcome unit -> State -> Prop) :
  (b = true -> Q (Ok tt) s) -> (b = false -> Q (Raise AssertionError) s) ->
  wp (py_assert b) s Q.
Proof. destruct b; unfold wp; simpl; auto. Qed.

End Properties.

Lemma remove_last_snoc {A : Type} `{EqDecision A} (x : A) (l : list A) :
  remove_last x (l ++ [x])%list = l.
Proof.
  unfold remove_last. rewrite rev_app_distr. simpl.
  destruct (decide (x = x)); [|congruence]. apply rev_involutive.
Qed.

Lemma bool_decide_refl {A : Type} `{EqDecision A} (x : A) : bool_decide (x = x) = true.
Proof. by apply bool_decide_eq_true. Qed.

Arguments remove_last : simpl never.
Arguments frame_var : simpl never.
Arguments ck_sclk_var : simpl never.
Arguments tkframe_relative_var : simpl never.
Arguments partition_end_var : simpl never.
Arguments segment_label : simpl never.
Arguments is_open_ended : simpl never.
Arguments overwrite_message : simpl never.

(** One step of a run: the rule of the computation at the head. *)
Ltac wp_step :=
  lazymatch goal with
  | |- wp (bind _ _) _ _ => apply wp_bind
  | |- wp (ret _) _ _ => apply wp_ret
  | |- wp (raise _) _ _ => apply wp_raise
  | |- wp (gipool _ _ _ _) _ _ => apply wp_query; [intros ? ? | intros ?]
  | |- wp (gcpool _ _ _ _ _) _ _ => apply wp_query; [intros ? ? | intros ?]
  | |- wp (gdpool _ _ _ _) _ _ => apply wp_query; [intros ? ? | intros ?]
  | |- wp (sce2t _ _ _) _ _ => apply wp_query; [intros ? ? | intros ?]
  | |- wp (sct2e _ _ _) _ _ => apply wp_query; [intros ? ? | intros ?]
  | |- wp (pxform _ _ _ _) _ _ => apply wp_query; [intros ? ? | intros ?]
  | |- wp (stpool _ _ _ _ _) _ _ => apply wp_query; [intros ? ? | intros ?]
  | |- wp (index0 _) _ _ => apply wp_index0; [intros ? ? ? | intros ?]
  | |- wp (index_last _) _ _ => apply wp_index_last; [intros ? ? | intros ?]
  | |- wp (m2q _ _) _ _ => apply wp_m2q; [intros ? ? | intros ?]
  | |- wp (vnorm _ _) _ _ => apply wp_vnorm; intros ?
  | |- wp (furnsh _ _) _ _ => apply wp_furnsh; [intros ? ? | ]
  | |- wp (unload _) _ _ => apply wp_unload
  | |- wp kclear _ _ => apply wp_kclear
  | |- wp ktotal _ _ => apply wp_ktotal
  | |- wp (sp_exists _) _ _ => apply wp_sp_exists
  | |- wp (read_slist _) _ _ => apply wp_read_slist
  | |- wp (read_dlist _) _ _ => apply wp_read_dlist
  | |- wp (print_report _) _ _ => apply wp_print_report
  | |- wp (py_assert _) _ _ => apply wp_py_assert; intros ?
  | |- wp (ckopn _ _ _ _) _ _ => apply wp_ckopn; [intros ? | ]
  | |- wp (ckw02 _ _ _) _ _ => apply wp_ckw02; [intros ? | ]
  | |- wp (ckcls _ _) _ _ => apply wp_ckcls
  | |- wp (match ?x with _ => _ end) _ _ => destruct x eqn:?
  end.

(** Rewriting with what the toolkit answered along the run. *)
Ltac use_answers :=
  repeat match goal with
         | H : ?t = Some _ |- context [?t] => rewrite H; cbn
         | H : ?t = true |- context [?t] => rewrite H; cbn
         | H : ?t = false |- context [?t] => rewrite H; cbn
         end.

(** *** Lists of events and Python list objects *)

Lemma scan_app base m evs1 evs2 :
  scan base m (evs1 ++ evs2)%list
  = match scan base m evs1 with
    | Some m' => scan base m' evs2
    | None => None
    end.
Proof.
  revert m. induction evs1 as [|e evs1 IH]; intros m; simpl; [reflexivity|].
  destruct (scan_step base m e); [apply IH|reflexivity].
Qed.

Lemma alone_scan_app m evs1 evs2 :
  alone_scan m (evs1 ++ evs2)%list
  = match alone_scan m evs1 with
    | Some m' => alone_scan m' evs2
    | None => None
    end.
Proof.
  revert m. induction evs1 as [|e evs1 IH]; intros m; simpl; [reflexivity|].
  destruct (alone_step m e); [apply IH|reflexivity].
Qed.

Lemma segments_written_app evs1 evs2 :
  segments_written (evs1 ++ evs2)%list
  = (segments_written evs1 ++ segments_written evs2)%list.
Proof. unfold segments_written. apply omap_app. Qed.

Lemma opened_app evs1 evs2 :
  opened (evs1 ++ evs2)%list = (opened evs1 || opened evs2)%bool.
Proof. unfold opened. apply existsb_app. Qed.

Lemma list_at_lt {A : Type} (h : list (list A)) (r : nat) :
  list_at h r <> [] -> (r < length h)%nat.
Proof.
  unfold list_at. intros H. destruct (h !! r) eqn:E.
  - eapply lookup_lt_Some. exact E.
  - simpl in H. congruence.
Qed.

Lemma list_at_insert {A : Type} (h : list (list A)) (r : nat) (l : list A) :
  (r < length h)%nat -> list_at (<[r := l]> h) r = l.
Proof. intros H. unfold list_at. by rewrite list_lookup_insert_eq. Qed.

Lemma list_at_insert_ne {A : Type} (h : list (list A)) (r r' : nat) (l : list A) :
  r <> r' -> list_at (<[r := l]> h) r' = list_at h r'.
Proof. intros H. unfold list_at. by rewrite list_lookup_insert_ne. Qed.

Lemma pop_last_snoc {A : Type} (l : list A) (x : A) :
  pop_last (l ++ [x])%list = Some (x, l).
Proof. unfold pop_last. by rewrite last_snoc, removelast_last. Qed.

Lemma pop_last_inv {A : Type} (l l' : list A) (x : A) :
  pop_last l = Some (x, l') -> l = (l' ++ [x])%list.
Proof.
  destruct l as [|y l0] using rev_ind; [discriminate|].
  rewrite pop_last_snoc. congruence.
Qed.

Lemma pop_last_None {A : Type} (l : list A) : pop_last l = None -> l = [].
Proof.
  destruct l as [|y l0] using rev_ind; [reflexivity|].
  rewrite pop_last_snoc. discriminate.
Qed.

Lemma wp_pop_slist r s (Q : outcome string -> State -> Prop) :
  (forall x l', list_at (sheap s) r = (l' ++ [x])%list ->
                Q (Ok x) (set_sheap (<[r := l']> (sheap s)) s)) ->
  (list_at (sheap s) r = [] -> Q (Raise IndexError) s) ->
  wp (pop_slist r) s Q.
Proof.
  unfold wp, pop_slist. intros H1 H2.
  destruct (pop_last (list_at (sheap s) r)) as [[x l']|] eqn:E; simpl.
  - apply H1. by apply pop_last_inv.
  - apply H2. by apply pop_last_None.
Qed.

Lemma wp_pop_dlist r s (Q : outcome float -> State -> Prop) :
  (forall x l', list_at (dheap s) r = (l' ++ [x])%list ->
                Q (Ok x) (set_dheap (<[r := l']> (dheap s)) s)) ->
  (list_at (dheap s) r = [] -> Q (Raise IndexError) s) ->
  wp (pop_dlist r) s Q.
Proof.
  unfold wp, pop_dlist. intros H1 H2.
  destruct (pop_last (list_at (dheap s) r)) as [[x l']|] eqn:E; simpl.
  - apply H1. by apply pop_last_inv.
  - apply H2. by apply pop_last_None.
Qed.

Lemma windows_snoc fks stop_ets fk stop_et :
  windows (fks ++ [fk]) (stop_ets ++ [stop_et]) = (fk, stop_et) :: windows fks stop_ets.
Proof. unfold windows. by rewrite !rev_app_distr. Qed.

Lemma windows_nil_l stop_ets : windows [] stop_ets = [].
Proof. reflexivity. Qed.

Lemma windows_nil_r fks : windows fks [] = [].
Proof. unfold windows. simpl. by destruct (rev fks). Qed.

Lemma windows_length fks stop_ets :
  length fks = length stop_ets -> length (windows fks stop_ets) = length fks.
Proof.
  intros H. unfold windows. rewrite length_zip_with, !length_rev. lia.
Qed.

Section CreateCk.

Context (lib : SpiceLib).
Variables (doVerbose : bool).

(** One pass through the body of the frame loop writes the segment of its
    job, or raises having written none. *)
Lemma create_ck_frame_spec fk stop_et last_et output_ck ck_handle reffrm s :
  wp (create_ck_frame lib doVerbose fk stop_et last_et output_ck ck_handle reffrm) s
     (fun r s' =>
        sheap s' = sheap s /\ dheap s' = dheap s /\
        jobs_post lib output_ck [(last_et, fk, stop_et, reffrm)] ck_handle s r s').
Proof.
  unfold create_ck_frame.
  repeat wp_step.
  all: cbn in *; rewrite ?remove_last_snoc in *.
  all: unfold jobs_post; cbn; rewrite <- ?app_assoc; cbn.
  all: subst.
  all: split; [reflexivity|]; split; [reflexivity|]; split; [reflexivity|].
  all: eexists; split; [reflexivity|].
  all: split; [repeat constructor|].
  all: cbn; repeat (rewrite bool_decide_refl; cbn).
  all: try (destruct ck_handle; discriminate).
  all: try match goal with
           | |- context [match ?c with Some _ => _ | None => _ end] =>
               first [is_var c; destruct c]
           end.
  all: try (split; [eauto|]; split; [exists []; split; [apply prefix_nil|constructor]|]; tauto).
  all: split; [reflexivity|]; split; [reflexivity|].
  all: split; [constructor; [|constructor]|].
  all: try (unfold seg_ok, begin_tick, stop_tick, resolve_clock; cbn; use_answers;
            split; congruence).
  all: try (split; [congruence|]; tauto).
  all: right; repeat split; congruence.
Qed.

(** Nothing to do: nothing happens. *)
Lemma jobs_post_nil output_ck ck s :
  jobs_post lib output_ck [] ck s (Ok ck) s.
Proof.
  split; [reflexivity|]. exists []. rewrite app_nil_r.
  split; [reflexivity|]. split; [constructor|].
  split; [reflexivity|]. split; [reflexivity|]. split; [constructor|].
  destruct ck; [tauto|]. left. tauto.
Qed.

Lemma jobs_post_raise_now output_ck jobs ck e s s' :
  stdout s' = stdout s -> trace s' = trace s ->
  ck_open s' = ck_open s -> disk s' = disk s ->
  jobs_post lib output_ck jobs ck s (Raise e) s'.
Proof.
  intros Hout Htr Ho Hd.
  split; [assumption|]. exists []. rewrite app_nil_r.
  split; [assumption|]. split; [constructor|].
  split; [by eexists|]. split; [exists []; split; [apply prefix_nil|constructor]|].
  destruct ck; [tauto|]. left. tauto.
Qed.

(** A run that raised stays a run of any longer list of jobs. *)
Lemma jobs_post_raise_more output_ck jobs1 jobs2 ck e s s' :
  jobs_post lib output_ck jobs1 ck s (Raise e) s' ->
  jobs_post lib output_ck (jobs1 ++ jobs2) ck s (Raise e) s'.
Proof.
  intros (Hout & evs & Htr & Hev & Hscan & (done & Hpre & Hdone) & Hck).
  split; [exact Hout|]. exists evs. repeat split; try assumption.
  exists done. split; [|exact Hdone]. by apply prefix_app_r.
Qed.

(** Runs compose: first [jobs1], then [jobs2] with the handle the first
    run left. *)
Lemma jobs_post_seq output_ck jobs1 jobs2 ck res1 r s s1 s2 :
  jobs_post lib output_ck jobs1 ck s (Ok res1) s1 ->
  jobs_post lib output_ck jobs2 res1 s1 r s2 ->
  jobs_post lib output_ck (jobs1 ++ jobs2) ck s r s2.
Proof.
  intros (Hout1 & evs1 & Htr1 & Hev1 & Hk1 & Hscan1 & Hseg1 & Hck1).
  intros (Hout2 & evs2 & Htr2 & Hev2 & H2).
  split; [congruence|]. exists (evs1 ++ evs2)%list.
  split; [rewrite Htr2, Htr1; by rewrite app_assoc|].
  split; [by apply Forall_app|].
  rewrite Hk1 in H2.
  destruct r as [res|e|]; [| |exact H2].
  - destruct H2 as (Hk2 & Hscan2 & Hseg2 & Hck2).
    split; [congruence|]. split; [by rewrite scan_app, Hscan1|].
    split; [rewrite segments_written_app; by apply Forall2_app|].
    destruct ck as [h0|].
    + destruct Hck1 as (-> & Ho1 & Hd1). destruct Hck2 as (-> & Ho2 & Hd2).
      repeat split; congruence.
    + destruct Hck1 as [(-> & -> & Hn1 & Ho1 & Hd1)|(-> & Hw1 & Hop1 & Ho1 & Hd1)].
      * simpl. rewrite Hn1, Ho1, Hd1 in Hck2. exact Hck2.
      * destruct Hck2 as (-> & Ho2 & Hd2). right.
        split; [reflexivity|]. rewrite segments_written_app, opened_app, Hop1.
        split; [intros E; apply app_eq_nil in E; tauto|].
        split; [reflexivity|]. split; congruence.
  - destruct H2 as (Hscan2 & (done & Hpre & Hdone) & Hck2).
    split; [by rewrite scan_app, Hscan1|].
    split.
    + exists (jobs1 ++ done)%list. split; [by apply prefix_app|].
      rewrite segments_written_app. by apply Forall2_app.
    + destruct ck as [h0|].
      * destruct Hck1 as (-> & Ho1 & Hd1). destruct Hck2 as (Ho2 & Hd2).
        split; congruence.
      * destruct Hck1 as [(-> & -> & Hn1 & Ho1 & Hd1)|(-> & Hw1 & Hop1 & Ho1 & Hd1)].
        -- simpl. rewrite Hn1, Ho1, Hd1 in Hck2. exact Hck2.
        -- destruct Hck2 as (Ho2 & Hd2). right.
           rewrite opened_app, Hop1. split; [reflexivity|]. split; congruence.
Qed.

(** The frame loop of one window (lines 101-162). *)
Lemma create_ck_frames_spec fk stop_et last_et output_ck frames :
  forall ck_handle s,
    wp (for_fold frames ck_handle
          (create_ck_frame lib doVerbose fk stop_et last_et output_ck)) s
       (fun r s' =>
          sheap s' = sheap s /\ dheap s' = dheap s /\
          jobs_post lib output_ck
            (map (fun reffrm => (last_et, fk, stop_et, reffrm)) frames) ck_handle s r s').
Proof.
  induction frames as [|reffrm frames IH]; intros ck_handle s; simpl.
  - apply wp_ret. split; [reflexivity|]. split; [reflexivity|]. apply jobs_post_nil.
  - apply wp_bind.
    eapply wp_mono; [apply create_ck_frame_spec|].
    intros r s1 (Hs1 & Hd1 & Hj1). destruct r as [res1|e|].
    + eapply wp_mono; [apply IH|].
      intros r s2 (Hs2 & Hd2 & Hj2).
      split; [congruence|]. split; [congruence|].
      change (?j :: ?js) with ([j] ++ js)%list.
      eapply jobs_post_seq; eassumption.
    + split; [assumption|]. split; [assumption|].
      change (?j :: ?js) with ([j] ++ js)%list.
      by apply jobs_post_raise_more.
    + destruct Hj1 as (_ & evs & _ & _ & []).
Qed.

(** The window loop (lines 94-165), with enough fuel for the windows. *)
Lemma create_ck_loop_spec frames fks stop_ets output_ck :
  forall fuel last_et ck_handle s,
    (length (list_at (sheap s) fks) <= fuel)%nat ->
    wp (create_ck_loop lib doVerbose fuel frames fks stop_ets output_ck last_et ck_handle) s
       (fun r s' =>
          jobs_post lib output_ck
            (schedule last_et
               (windows (list_at (sheap s) fks) (list_at (dheap s) stop_ets)) frames)
            ck_handle s r s'
          /\ drained fks stop_ets s r s').
Proof.
  induction fuel as [|fuel IH]; intros last_et ck_handle s Hfuel.
  - destruct (list_at (sheap s) fks) as [|x l] eqn:El; [|simpl in Hfuel; lia].
    unfold create_ck_loop. apply wp_bind, wp_read_slist. rewrite El.
    apply wp_ret. rewrite windows_nil_l. simpl.
    split; [apply jobs_post_nil|]. unfold drained. rewrite El.
    repeat split; auto. rewrite take_ge; [reflexivity|simpl; lia].
  - cbn [create_ck_loop]. apply wp_bind, wp_read_slist.
    destruct (list_at (sheap s) fks) as [|x0 l0] eqn:El.
    { apply wp_ret. rewrite windows_nil_l. simpl.
      split; [apply jobs_post_nil|]. unfold drained. rewrite El.
      repeat split; auto. rewrite take_ge; [reflexivity|simpl; lia]. }
    assert (Hlt : (fks < length (sheap s))%nat) by (apply list_at_lt; congruence).
    apply wp_bind, wp_pop_slist; [|congruence].
    intros fk fks' Efks. rewrite El in Efks.
    apply wp_bind, wp_pop_dlist.
    + intros stop_et stops' Estops. cbn in Estops.
      assert (Hlt' : (stop_ets < length (dheap s))%nat).
      { apply list_at_lt. rewrite Estops. by destruct stops'. }
      apply wp_bind.
      eapply wp_mono; [apply create_ck_frames_spec|].
      intros r s1 (Hs1 & Hd1 & Hj1). cbn in Hs1, Hd1.
      rewrite Efks, Estops, windows_snoc. cbn [schedule].
      destruct r as [res1|e|].
      * eapply wp_mono; [apply IH|].
        { rewrite Hs1, list_at_insert by assumption.
          rewrite Efks, length_app in Hfuel. simpl in Hfuel. lia. }
        intros r s2 (Hj2 & Hdr2).
        rewrite Hs1, Hd1, !list_at_insert in Hj2 by assumption.
        split; [eapply jobs_post_seq; [exact Hj1|exact Hj2]|].
        destruct Hdr2 as (Hl1 & Hl2 & Hn1 & Hn2 & Hfin).
        rewrite Hs1, Hd1 in *. rewrite !length_insert in *.
        split; [assumption|]. split; [assumption|].
        split; [intros r' Hr'; rewrite Hn1 by assumption;
                by apply list_lookup_insert_ne|].
        split; [intros r' Hr'; rewrite Hn2 by assumption;
                by apply list_lookup_insert_ne|].
        destruct r; [|exact I|exact I].
        rewrite !list_at_insert in Hfin by assumption.
        destruct Hfin as (Hf1 & Hf2). split; [assumption|].
        rewrite Hf2, El, Efks, Estops, !length_app. simpl.
        replace (length stops' + 1 - (length fks' + 1))%nat
          with (length stops' - length fks')%nat by lia.
        rewrite take_app_le by lia. reflexivity.
      * split; [by apply jobs_post_raise_more|].
        unfold drained. rewrite Hs1, Hd1. rewrite !length_insert.
        repeat split; auto; intros r' Hr'; by apply list_lookup_insert_ne.
      * destruct Hj1 as (_ & evs & _ & _ & []).
    + intros Estops. cbn in Estops. rewrite Estops, windows_nil_r. simpl.
      split; [by apply jobs_post_raise_now|].
      unfold drained. cbn. rewrite length_insert.
      repeat split; auto; intros r' Hr'; by apply list_lookup_insert_ne.
Qed.

(** With no frame to convert, or no window, the loop pops what there is
    and returns the handle it was given. *)
Lemma create_ck_loop_empty frames fks stop_ets output_ck :
  forall fuel last_et ck_handle s,
    (length (list_at (sheap s) fks) <= fuel)%nat ->
    frames = [] \/ list_at (sheap s) fks = [] ->
    (length (list_at (sheap s) fks) <= length (list_at (dheap s) stop_ets))%nat ->
    wp (create_ck_loop lib doVerbose fuel frames fks stop_ets output_ck last_et ck_handle) s
       (fun r _ => r = Ok ck_handle).
Proof.
  induction fuel as [|fuel IH]; intros last_et ck_handle s Hfuel Hempty Hlen.
  - destruct (list_at (sheap s) fks) as [|x l] eqn:El; [|simpl in Hfuel; lia].
    unfold create_ck_loop. apply wp_bind, wp_read_slist. rewrite El.
    by apply wp_ret.
  - cbn [create_ck_loop]. apply wp_bind, wp_read_slist.
    destruct (list_at (sheap s) fks) as [|x0 l0] eqn:El; [by apply wp_ret|].
    destruct Hempty as [->|E]; [|discriminate E].
    assert (Hlt : (fks < length (sheap s))%nat) by (apply list_at_lt; congruence).
    apply wp_bind, wp_pop_slist; [|congruence].
    intros fk fks' Efks. rewrite El in Efks.
    apply wp_bind, wp_pop_dlist.
    + intros stop_et stops' Estops. cbn in Estops.
      assert (Hlt' : (stop_ets < length (dheap s))%nat).
      { apply list_at_lt. rewrite Estops. by destruct stops'. }
      apply wp_bind. cbn [for_fold]. apply wp_ret.
      rewrite Efks, length_app in Hfuel, Hlen. simpl in Hfuel, Hlen.
      rewrite Estops, length_app in Hlen. simpl in Hlen.
      apply IH; cbn; rewrite ?list_at_insert by assumption; [lia|by left|lia].
    + intros Estops. cbn in Estops. rewrite Estops in Hlen. simpl in Hlen. lia.
Qed.

Lemma wp_conj {A : Type} (c : M A) s (Q1 Q2 : outcome A -> State -> Prop) :
  wp c s Q1 -> wp c s Q2 -> wp c s (fun r s' => Q1 r s' /\ Q2 r s').
Proof. unfold wp. auto. Qed.

(** [for kernel in kernels: sp.furnsh(kernel)] *)
Lemma load_kernels_spec kernels :
  forall s,
    wp (for_each kernels (furnsh lib)) s
       (fun r s' =>
          same_files s s' /\
          exists evs, trace s' = (trace s ++ evs)%list
            /\ Forall (fun e => is_call_furnsh e = true) evs
            /\ match r with
               | Ok _ => keeper s' = (keeper s ++ kernels)%list
               | Raise e => e = SpiceyError /\ ~ loadable lib s kernels
               | OutOfFuel => False
               end).
Proof.
  induction kernels as [|k kernels IH]; intros s; simpl.
  - apply wp_ret. split; [by repeat split|]. exists [].
    by rewrite !app_nil_r.
  - apply wp_bind. unfold wp at 1, furnsh.
    destruct (bool_decide (k ∈ disk s) && lib_readable lib k)%bool eqn:Eok; cbn [fst snd].
    + eapply wp_mono; [apply IH|].
      intros r s' (Hsame & evs & Htr & Hev & Hr). cbn in *.
      split; [exact Hsame|].
      exists (mkEvent (Furnsh k) (keeper s) true :: evs).
      split; [by rewrite Htr, <- app_assoc|]. split; [by constructor|].
      destruct r; [by rewrite Hr, <- app_assoc| |exact Hr].
      destruct Hr as [-> Hr]. split; [reflexivity|].
      intros Hl. apply Hr. by inversion Hl.
    + split; [by repeat split|]. eexists. split; [reflexivity|].
      split; [by repeat constructor|]. split; [reflexivity|].
      intros Hl. inversion Hl as [|? ? [Hin Hrd] _]; subst.
      apply andb_false_iff in Eok. destruct Eok as [E|E]; [|congruence].
      apply bool_decide_eq_false in E. contradiction.
Qed.

(** Every run of [create_ck] has one of the three shapes. *)
Lemma create_ck_spec kernels frames fks stop_ets output_ck s :
  wp (create_ck lib doVerbose kernels frames fks stop_ets output_ck) s
     (create_ck_post lib kernels frames fks stop_ets output_ck s).
Proof.
  unfold create_ck. apply wp_bind.
  eapply wp_mono; [apply load_kernels_spec|].
  intros r s0 (Hsame & pre & Htr & Hpre & Hr).
  destruct r as [[]|e|];
    [|exists pre; split; [exact Hpre|]; left; destruct Hr; subst; tauto|destruct Hr].
  destruct Hsame as (Hd & Ho & Hn & Hout & Hsh & Hdh).
  apply wp_bind, wp_sp_exists. apply wp_bind.
  destruct (bool_decide (output_ck ∈ disk s0)) eqn:Ex; simpl.
  - apply bool_decide_eq_true in Ex. rewrite Hd in Ex.
    apply wp_raise. exists pre; split; [exact Hpre|]. right. left. cbn.
    unfold exists_event. rewrite Htr, Hr, <- app_assoc. by repeat split.
  - apply bool_decide_eq_false in Ex. rewrite Hd in Ex.
    apply wp_ret. apply wp_bind, wp_read_slist. apply wp_bind.
    eapply wp_mono.
    { eapply (wp_conj _ _ _
               (fun r1 _ =>
                  frames = [] \/ list_at (sheap s0) fks = [] ->
                  (length (list_at (sheap s0) fks)
                   <= length (list_at (dheap s0) stop_ets))%nat ->
                  r1 = Ok None));
        [apply create_ck_loop_spec; cbn; lia|].
      apply wp_intro. intros r1 s1 Hloop Hempty Hlen.
      refine (wp_run _ _ _ _ _
                (create_ck_loop_empty frames fks stop_ets output_ck _ None None
                   (log_call (Exists output_ck) true s0) _ Hempty Hlen) Hloop).
      cbn. lia. }
    intros r1 s1 ((Hj & Hdr) & Hempty). cbn in Hj, Hempty.
    rewrite Hsh, Hdh in Hempty.
    set (s0' := log_call (Exists output_ck) true s0) in *.
    assert (Hs0 : same_files s s0' /\ keeper s0' = (keeper s ++ kernels)%list
                  /\ trace s0' = (trace s ++ pre ++ [exists_event kernels output_ck s])%list).
    { subst s0'. cbn. unfold exists_event. rewrite Htr, Hr, <- app_assoc.
      by repeat split. }
    destruct Hs0 as (Hsf & Hk0 & Ht0).
    assert (Hjobs : jobs_post lib output_ck
              (schedule None
                 (windows (list_at (sheap s) fks) (list_at (dheap s) stop_ets)) frames)
              None s0' r1 s1).
    { subst s0'. cbn in *. rewrite <- Hsh, <- Hdh. exact Hj. }
    destruct r1 as [[h|]|e|].
    + apply wp_ckcls.
      * exists pre; split; [exact Hpre|]. right. right. split; [exact Ex|].
        exists s0', (Ok (Some h)), s1, [mkEvent (Ckcls h) (keeper s1) true].
        do 6 (split; [assumption|]). cbn. do 6 (split; [reflexivity|]).
        left. by repeat split.
      * exists pre; split; [exact Hpre|]. right. right. split; [exact Ex|].
        exists s0', (Ok (Some h)), s1, [mkEvent (Ckcls h) (keeper s1) false].
        do 6 (split; [assumption|]). cbn. do 6 (split; [reflexivity|]).
        right. by repeat split.
    + apply wp_ret. exists pre; split; [exact Hpre|]. right. right. split; [exact Ex|].
      exists s0', (Ok None), s1, [].
      rewrite app_nil_r. do 6 (split; [assumption|]). by repeat split.
    + exists pre; split; [exact Hpre|]. right. right. split; [exact Ex|].
      exists s0', (Raise e), s1, [].
      rewrite app_nil_r. do 6 (split; [assumption|]). by repeat split.
    + destruct Hj as (_ & evs & _ & _ & []).
Qed.

Lemma seg_ok_begins_at loaded j seg : seg_ok lib loaded j seg -> begins_at lib loaded j seg.
Proof.
  destruct j as [[[last_et fk] stop_et] reffrm]. intros [Hb _]. simpl.
  unfold begin_tick in Hb. destruct last_et as [et|]; [|congruence].
  destruct (resolve_clock lib loaded reffrm) as [sclk_id|]; [|discriminate].
  exists sclk_id. split; [reflexivity|exact Hb].
Qed.

(** The negation that the script computes is the 32-bit one, and there
    is no other. *)
Lemma int32_neg_negated sclk_id : negated_in_32_bits sclk_id (int32_neg sclk_id).
Proof.
  unfold negated_in_32_bits, int32_neg, int32_wrap.
  pose proof (Z.mod_pos_bound (- sclk_id + 2147483648) 4294967296 eq_refl) as Hb.
  pose proof (Z.div_mod (- sclk_id + 2147483648) 4294967296) as Hd.
  split; [lia|].
  replace (sclk_id + ((- sclk_id + 2147483648) mod 4294967296 - 2147483648))
    with (- ((- sclk_id + 2147483648) / 4294967296) * 4294967296) by lia.
  apply Z_mod_mult.
Qed.

Lemma negated_in_32_bits_unique sclk_id n m :
  negated_in_32_bits sclk_id n -> negated_in_32_bits sclk_id m -> n = m.
Proof.
  intros [Hn En] [Hm Em].
  apply Z.mod_divide in En; [|lia]. apply Z.mod_divide in Em; [|lia].
  destruct En as [a Ea]. destruct Em as [b Eb]. lia.
Qed.

Lemma seg_ok_stops_at loaded j seg : seg_ok lib loaded j seg -> stops_at lib loaded j seg.
Proof.
  destruct j as [[[last_et fk] stop_et] reffrm]. intros [_ He]. simpl.
  unfold stop_tick in He.
  destruct (resolve_clock lib loaded reffrm) as [sclk_id|]; [|discriminate].
  exists sclk_id. split; [reflexivity|]. simpl in He.
  unfold is_open_ended, open_ended_threshold in He. simpl in He.
  match goal with |- if ?b then _ else _ => destruct b end; [|exact He].
  unfold partition_end_var in He.
  destruct (lib_gdpool lib loaded ("SCLK_PARTITION_END_" ++ str_of_Z (int32_neg sclk_id)) 0 999)
    as [ends|] eqn:Eends; [|discriminate].
  exists (int32_neg sclk_id), ends.
  split; [apply int32_neg_negated|]. split; [exact Eends|exact He].
Qed.

Lemma furnsh_events_write_nothing evs :
  Forall (fun e => is_call_furnsh e = true) evs ->
  segments_written evs = [] /\ opened evs = false
  /\ Forall (fun e => is_call_ckopn e = false /\ is_call_ckw02 e = false
                      /\ is_call_ckcls e = false /\ is_call_exists e = false) evs.
Proof.
  induction 1 as [|e evs He _ (IH1 & IH2 & IH3)]; [by repeat split|].
  destruct e as [[] loaded ok]; try discriminate.
  unfold segments_written, opened in *. cbn.
  split; [exact IH1|]. split; [exact IH2|]. by constructor.
Qed.

(** The segments the loop wrote match a prefix of the jobs, all of them
    when it returns. *)
Lemma jobs_post_segments output_ck jobs ck s r s' :
  jobs_post lib output_ck jobs ck s r s' ->
  exists evs done,
    trace s' = (trace s ++ evs)%list
    /\ done `prefix_of` jobs
    /\ (forall res, r = Ok res -> done = jobs)
    /\ Forall2 (seg_ok lib (keeper s)) done (segments_written evs).
Proof.
  intros (_ & evs & Htr & _ & H). exists evs.
  destruct r as [res|e|]; [| |destruct H].
  - destruct H as (_ & _ & Hseg & _). exists jobs. by repeat split.
  - destruct H as (_ & (done & Hpre & Hdone) & _). exists done.
    repeat split; try assumption. discriminate.
Qed.

(** The segments of a whole run of [create_ck]. *)
Lemma create_ck_segments kernels frames fks stop_ets output_ck s r s' :
  create_ck lib doVerbose kernels frames fks stop_ets output_ck s = (r, s') ->
  exists evs done,
    trace s' = (trace s ++ evs)%list
    /\ done `prefix_of`
         schedule None (windows (list_at (sheap s) fks) (list_at (dheap s) stop_ets)) frames
    /\ (r = Ok tt ->
        done = schedule None
                 (windows (list_at (sheap s) fks) (list_at (dheap s) stop_ets)) frames)
    /\ Forall2 (seg_ok lib (keeper s ++ kernels)) done (segments_written evs).
Proof.
  intros Hrun. pose proof (wp_run _ _ _ _ _ (create_ck_spec _ _ _ _ _ _) Hrun) as H.
  destruct H as (pre & Hpre & H).
  destruct (furnsh_events_write_nothing _ Hpre) as (Hw & _ & _).
  destruct H as [(-> & Htr & _)|[(_ & -> & Htr & _)|(_ & s0 & r1 & s1 & post & H)]].
  - exists pre, []. rewrite Hw.
    repeat split; [assumption|apply prefix_nil|discriminate|constructor].
  - eexists _, []. split; [exact Htr|]. rewrite segments_written_app, Hw.
    repeat split; [apply prefix_nil|discriminate|constructor].
  - destruct H as (_ & Hk0 & Ht0 & Hj & _ & _ & Ht' & _ & _ & _ & _ & _ & Hclose).
    destruct (jobs_post_segments _ _ _ _ _ _ Hj) as (evs & done & Ht1 & Hpf & Hall & Hseg).
    exists ((pre ++ [exists_event kernels output_ck s]) ++ evs ++ post)%list, done.
    assert (Hpost : segments_written post = []).
    { destruct r1 as [[h|]|e|]; [|by destruct Hclose as (_ & -> & _)
                                 |by destruct Hclose as (_ & -> & _)|destruct Hclose].
      by destruct Hclose as [(_ & -> & _)|(_ & -> & _)]. }
    split; [rewrite Ht', Ht1, Ht0; by rewrite <- !app_assoc|].
    split; [exact Hpf|]. split.
    + intros ->. destruct r1 as [res|e|]; [by eapply Hall| |destruct Hclose].
      by destruct Hclose as (? & _).
    + rewrite !segments_written_app, Hw, Hpost. simpl.
      rewrite app_nil_r, <- Hk0. exact Hseg.
Qed.

(** C1: for every run of [create_ck], the segments written follow the
    schedule of windows and frames in order; the begin tick of a segment
    of the first window is 0.0, and the begin tick of a segment of a later
    window is the [sce2t] conversion, on the clock resolved for its frame,
    of the stop time of the window before: the one value the schedule
    threads from a window to the next. *)
Theorem create_ck_begin_ticks kernels frames fks stop_ets output_ck s r s' :
  create_ck lib doVerbose kernels frames fks stop_ets output_ck s = (r, s') ->
  exists evs done,
    trace s' = (trace s ++ evs)%list
    /\ done `prefix_of`
         schedule None (windows (list_at (sheap s) fks) (list_at (dheap s) stop_ets)) frames
    /\ (r = Ok tt ->
        done = schedule None
                 (windows (list_at (sheap s) fks) (list_at (dheap s) stop_ets)) frames)
    /\ Forall2 (begins_at lib (keeper s ++ kernels)) done (segments_written evs).
Proof.
  intros Hrun.
  destruct (create_ck_segments _ _ _ _ _ _ _ _ Hrun) as (evs & done & Htr & Hpf & Hall & Hseg).
  exists evs, done. repeat split; try assumption.
  eapply Forall2_impl; [exact Hseg|]. intros j seg. apply seg_ok_begins_at.
Qed.

(** C2: for every run of [create_ck], the stop tick of a segment whose
    window has a stop time strictly below -1e30 is the last value of the
    pool variable SCLK_PARTITION_END_n of the clock of the frame, and
    otherwise the [sce2t] conversion of the stop time; the body of the
    loop does the same for any two stop times below the threshold.  The
    [n] in the name of the variable is the clock id negated in 32 bits:
    [-sclk_id] for every id above -2147483648. *)
Theorem create_ck_stop_ticks kernels frames fks stop_ets output_ck s r s' :
  create_ck lib doVerbose kernels frames fks stop_ets output_ck s = (r, s') ->
  (exists evs done,
     trace s' = (trace s ++ evs)%list
     /\ done `prefix_of`
          schedule None (windows (list_at (sheap s) fks) (list_at (dheap s) stop_ets)) frames
     /\ (r = Ok tt ->
         done = schedule None
                  (windows (list_at (sheap s) fks) (list_at (dheap s) stop_ets)) frames)
     /\ Forall2 (stops_at lib (keeper s ++ kernels)) done (segments_written evs))
  /\ (forall stop_a stop_b fk last_et ck_handle reffrm,
        PrimFloat.ltb stop_a (PrimFloat.opp 1e30%float) = true ->
        PrimFloat.ltb stop_b (PrimFloat.opp 1e30%float) = true ->
        create_ck_frame lib doVerbose fk stop_a last_et output_ck ck_handle reffrm
        = create_ck_frame lib doVerbose fk stop_b last_et output_ck ck_handle reffrm)
  /\ (forall sclk_id n,
        negated_in_32_bits sclk_id n ->
        (-2147483648 < sclk_id < 2147483648 -> n = - sclk_id)
        /\ (sclk_id = -2147483648 -> n = -2147483648)).
Proof.
  intros Hrun. split; [|split].
  - destruct (create_ck_segments _ _ _ _ _ _ _ _ Hrun)
      as (evs & done & Htr & Hpf & Hall & Hseg).
    exists evs, done. repeat split; try assumption.
    eapply Forall2_impl; [exact Hseg|]. intros j seg. apply seg_ok_stops_at.
  - intros stop_a stop_b fk last_et ck_handle reffrm Ha Hb.
    unfold create_ck_frame, is_open_ended, open_ended_threshold. rewrite Ha, Hb. reflexivity.
  - intros sclk_id n Hn. split.
    + intros Hr. apply (negated_in_32_bits_unique sclk_id); [exact Hn|].
      unfold negated_in_32_bits. split; [lia|].
      replace (sclk_id + - sclk_id) with 0 by lia. reflexivity.
    + intros ->. apply (negated_in_32_bits_unique (-2147483648)); [exact Hn|].
      unfold negated_in_32_bits. split; [lia|]. reflexivity.
Qed.

(** When the output path is taken, [create_ck] stops at its check, or
    before it when a kernel fails to load. *)
Lemma create_ck_existing kernels frames fks stop_ets output_ck s r s' :
  output_ck ∈ disk s ->
  create_ck lib doVerbose kernels frames fks stop_ets output_ck s = (r, s') ->
  (exists e, r = Raise e)
  /\ (loadable lib s kernels -> r = Raise (KeyError (KStr (overwrite_message output_ck))))
  /\ same_files s s'
  /\ exists evs, trace s' = (trace s ++ evs)%list
                 /\ Forall (fun e => is_call_ckopn e = false /\ is_call_ckw02 e = false) evs.
Proof.
  intros Hin Hrun.
  pose proof (wp_run _ _ _ _ _ (create_ck_spec _ _ _ _ _ _) Hrun) as (pre & Hpre & H).
  destruct (furnsh_events_write_nothing _ Hpre) as (_ & _ & Hpre').
  assert (Hpre2 : Forall (fun e => is_call_ckopn e = false /\ is_call_ckw02 e = false) pre).
  { eapply Forall_impl; [exact Hpre'|]. intros e He; simpl in *; tauto. }
  destruct H as [(-> & Htr & Hsame & Hnl)|[(_ & -> & Htr & Hsame)|(Hnot & _)]];
    [| |contradiction].
  - split; [by eexists|]. split; [intros Hl; contradiction|].
    split; [exact Hsame|]. by exists pre.
  - split; [by eexists|]. split; [reflexivity|]. split; [exact Hsame|].
    eexists. split; [exact Htr|]. apply Forall_app. split; [exact Hpre2|].
    by repeat constructor.
Qed.

(** A run that wrote a segment left a file at the output path. *)
Lemma create_ck_wrote_file kernels frames fks stop_ets output_ck s r s' evs :
  create_ck lib doVerbose kernels frames fks stop_ets output_ck s = (r, s') ->
  trace s' = (trace s ++ evs)%list ->
  segments_written evs <> [] ->
  output_ck ∈ disk s'.
Proof.
  intros Hrun Hevs Hw.
  pose proof (wp_run _ _ _ _ _ (create_ck_spec _ _ _ _ _ _) Hrun) as (pre & Hpre & H).
  destruct (furnsh_events_write_nothing _ Hpre) as (Hwpre & _ & _).
  destruct H as [(-> & Htr & _)|[(_ & -> & Htr & _)|(_ & s0 & r1 & s1 & post & H)]].
  - rewrite Htr in Hevs. apply app_inv_head in Hevs. subst evs. contradiction.
  - rewrite Htr in Hevs. apply app_inv_head in Hevs. subst evs.
    rewrite segments_written_app, Hwpre in Hw. by contradiction Hw.
  - destruct H as (_ & _ & Ht0 & Hj & _ & _ & Ht' & Hd' & _ & _ & _ & _ & Hclose).
    destruct Hj as (_ & evs1 & Ht1 & _ & Hj).
    assert (Hpost : segments_written post = []).
    { destruct r1 as [[h|]|e|]; [|by destruct Hclose as (_ & -> & _)
                                 |by destruct Hclose as (_ & -> & _)|destruct Hclose].
      by destruct Hclose as [(_ & -> & _)|(_ & -> & _)]. }
    rewrite Ht', Ht1, Ht0, <- !app_assoc in Hevs. apply app_inv_head in Hevs. subst evs.
    rewrite !segments_written_app, Hwpre, Hpost, app_nil_r in Hw. simpl in Hw.
    rewrite Hd'.
    destruct r1 as [res|e|]; [| |destruct Hj].
    + destruct Hj as (_ & _ & _ & [(_ & -> & _)|(_ & _ & _ & _ & ->)]); [by contradiction Hw|].
      apply elem_of_app. right. by apply list_elem_of_singleton.
    + destruct Hj as (_ & _ & [(_ & Hw0 & _)|(_ & _ & ->)]); [contradiction|].
      apply elem_of_app. right. by apply list_elem_of_singleton.
Qed.

(** C3: [create_ck] checks the output path once, after the kernels are
    loaded and before the window loop.  Called with an output path at
    which a file exists, it raises (the KeyError of line 88 when the
    kernels load), calls neither [ckopn] nor [ckw02], and leaves the
    files and handles as they were; so a call that follows a call that
    wrote a segment to the same path raises and overwrites nothing. *)
Theorem create_ck_refuses_existing_output kernels frames fks stop_ets output_ck s r s' :
  create_ck lib doVerbose kernels frames fks stop_ets output_ck s = (r, s') ->
  (exists pre rest,
     trace s' = (trace s ++ pre ++ rest)%list
     /\ Forall (fun e => is_call_furnsh e = true) pre
     /\ (rest = []
         \/ exists rest', rest = exists_event kernels output_ck s :: rest'
                          /\ Forall (fun e => is_call_exists e = false) rest'))
  /\ (output_ck ∈ disk s ->
      (exists e, r = Raise e)
      /\ (loadable lib s kernels ->
          r = Raise (KeyError (KStr (overwrite_message output_ck))))
      /\ same_files s s'
      /\ exists evs, trace s' = (trace s ++ evs)%list
            /\ Forall (fun e => is_call_ckopn e = false /\ is_call_ckw02 e = false) evs)
  /\ (forall evs, trace s' = (trace s ++ evs)%list -> segments_written evs <> [] ->
      forall kernels2 frames2 fks2 stop_ets2 r2 s2,
        create_ck lib doVerbose kernels2 frames2 fks2 stop_ets2 output_ck s' = (r2, s2) ->
        (exists e, r2 = Raise e) /\ same_files s' s2).
Proof.
  intros Hrun. split; [|split].
  - pose proof (wp_run _ _ _ _ _ (create_ck_spec _ _ _ _ _ _) Hrun) as (pre & Hpre & H).
    exists pre.
    destruct H as [(-> & Htr & _)|[(_ & -> & Htr & _)|(_ & s0 & r1 & s1 & post & H)]].
    + exists []. rewrite app_nil_r. split; [exact Htr|]. split; [exact Hpre|]. by left.
    + eexists. split; [exact Htr|]. split; [exact Hpre|]. right.
      eexists. split; [reflexivity|constructor].
    + destruct H as (_ & _ & Ht0 & Hj & _ & _ & Ht' & _ & _ & _ & _ & _ & Hclose).
      destruct Hj as (_ & evs1 & Ht1 & Hev1 & _).
      exists (exists_event kernels output_ck s :: evs1 ++ post)%list.
      split; [rewrite Ht', Ht1, Ht0; by rewrite <- !app_assoc|].
      split; [exact Hpre|]. right. eexists. split; [reflexivity|].
      apply Forall_app. split.
      * eapply Forall_impl; [exact Hev1|]. intros e He; simpl in *; tauto.
      * destruct r1 as [[h|]|e|]; [|destruct Hclose as (_ & -> & _); constructor
                                   |destruct Hclose as (_ & -> & _); constructor
                                   |destruct Hclose].
        destruct Hclose as [(_ & -> & _)|(_ & -> & _)]; by repeat constructor.
  - intros Hin. by eapply create_ck_existing.
  - intros evs Hevs Hw kernels2 frames2 fks2 stop_ets2 r2 s2 Hrun2.
    pose proof (create_ck_wrote_file _ _ _ _ _ _ _ _ _ Hrun Hevs Hw) as Hin.
    destruct (create_ck_existing _ _ _ _ _ _ _ _ Hin Hrun2) as (He & _ & Hsame & _).
    by split.
Qed.

(** C4, as amended: [create_ck] closes the handle only at the end of the
    window loop.  When the call returns, the handles open are those that
    were open before; when it raises after [ckopn] returned a handle,
    that handle is still open. *)
Theorem create_ck_closes_on_return kernels frames fks stop_ets output_ck s r s' :
  create_ck lib doVerbose kernels frames fks stop_ets output_ck s = (r, s') ->
  exists evs,
    trace s' = (trace s ++ evs)%list
    /\ (r = Ok tt -> ck_open s' = ck_open s)
    /\ (forall e, r = Raise e -> opened evs = true ->
                  ck_open s' = (ck_open s ++ [ck_next s])%list).
Proof.
  intros Hrun.
  pose proof (wp_run _ _ _ _ _ (create_ck_spec _ _ _ _ _ _) Hrun) as (pre & Hpre & H).
  destruct (furnsh_events_write_nothing _ Hpre) as (_ & Hopre & _).
  destruct H as [(-> & Htr & _)|[(_ & -> & Htr & _)|(_ & s0 & r1 & s1 & post & H)]].
  - exists pre. split; [exact Htr|]. split; [discriminate|]. congruence.
  - eexists. split; [exact Htr|]. split; [discriminate|].
    intros e _. rewrite opened_app, Hopre. discriminate.
  - destruct H as (Hsame & _ & Ht0 & Hj & _ & _ & Ht' & _ & _ & _ & _ & _ & Hclose).
    destruct Hsame as (_ & Ho0 & Hn0 & _).
    destruct Hj as (_ & evs1 & Ht1 & _ & Hj).
    exists ((pre ++ [exists_event kernels output_ck s]) ++ evs1 ++ post)%list.
    split; [rewrite Ht', Ht1, Ht0; by rewrite <- !app_assoc|].
    rewrite !opened_app, Hopre. cbn [opened existsb exists_event is_call_ckopn ev_call orb andb].
    destruct r1 as [[h|]|e1|]; [| | |destruct Hclose].
    + destruct Hj as (_ & _ & _ & [(? & _)|(Hh & _ & _ & Ho1 & _)]); [discriminate|].
      injection Hh as ->. rewrite Ho0, Hn0 in Ho1.
      destruct Hclose as [(-> & _ & Ho')|(-> & _ & Ho')].
      * split; [intros _; by rewrite Ho', Ho1, Hn0, remove_last_snoc|discriminate].
      * split; [discriminate|]. intros e _ _. by rewrite Ho', Ho1.
    + destruct Hclose as (-> & -> & Ho').
      destruct Hj as (_ & _ & _ & [(_ & _ & _ & Ho1 & _)|(? & _)]); [|discriminate].
      split; [intros _; congruence|discriminate].
    + destruct Hclose as (-> & -> & Ho').
      split; [discriminate|]. intros e _.
      destruct Hj as (_ & _ & [(Hop & _)|(_ & Ho1 & _)]).
      * rewrite Hop. discriminate.
      * intros _. by rewrite Ho', Ho1, Ho0, Hn0.
Qed.

(** C7: when [create_ck] returns having written no segment, it called
    neither [ckopn] nor [ckcls] and the files and handles are those
    there were before; and with no frame to convert, or no window, it
    does return (given kernels that load, a free output path and a stop
    time for each window) and writes no segment. *)
Theorem create_ck_empty_is_noop kernels frames fks stop_ets output_ck s r s' :
  create_ck lib doVerbose kernels frames fks stop_ets output_ck s = (r, s') ->
  exists evs,
    trace s' = (trace s ++ evs)%list
    /\ (r = Ok tt -> segments_written evs = [] ->
        Forall (fun e => is_call_ckopn e = false /\ is_call_ckcls e = false) evs
        /\ disk s' = disk s /\ ck_open s' = ck_open s)
    /\ (frames = [] \/ list_at (sheap s) fks = [] ->
        loadable lib s kernels -> output_ck ∉ disk s ->
        (length (list_at (sheap s) fks) <= length (list_at (dheap s) stop_ets))%nat ->
        r = Ok tt /\ segments_written evs = []).
Proof.
  intros Hrun.
  pose proof (wp_run _ _ _ _ _ (create_ck_spec _ _ _ _ _ _) Hrun) as (pre & Hpre & H).
  destruct (furnsh_events_write_nothing _ Hpre) as (Hwpre & _ & Hpre').
  assert (Hpre2 : Forall (fun e => is_call_ckopn e = false /\ is_call_ckcls e = false) pre).
  { eapply Forall_impl; [exact Hpre'|]. intros e He; simpl in *; tauto. }
  destruct H as [(-> & Htr & _ & Hnl)|[(Hin & -> & Htr & _)|(_ & s0 & r1 & s1 & post & H)]].
  - exists pre. split; [exact Htr|]. split; [discriminate|]. intros; contradiction.
  - eexists. split; [exact Htr|]. split; [discriminate|]. intros; contradiction.
  - destruct H as (Hsame & _ & Ht0 & Hj & _ & Hempty & Ht' & Hd' & _ & _ & _ & _ & Hclose).
    destruct Hsame as (Hd0 & Ho0 & _).
    destruct Hj as (_ & evs1 & Ht1 & _ & Hj).
    exists ((pre ++ [exists_event kernels output_ck s]) ++ evs1 ++ post)%list.
    split; [rewrite Ht', Ht1, Ht0; by rewrite <- !app_assoc|].
    assert (Hnone : r1 = Ok None ->
              r = Ok tt /\ evs1 = [] /\ post = [] /\ disk s' = disk s /\ ck_open s' = ck_open s).
    { intros ->. destruct Hclose as (-> & -> & Ho').
      destruct Hj as (_ & _ & _ & [(_ & -> & _ & Ho1 & Hd1)|(? & _)]); [|discriminate].
      repeat split; congruence. }
    split.
    + intros -> Hw. rewrite !segments_written_app, Hwpre in Hw. simpl in Hw.
      destruct r1 as [[h|]|e1|]; [| |by destruct Hclose|destruct Hclose].
      * destruct Hj as (_ & _ & _ & [(? & _)|(_ & Hne & _)]); [discriminate|].
        apply app_eq_nil in Hw. tauto.
      * destruct (Hnone eq_refl) as (_ & -> & -> & Hd & Ho).
        split; [|by split]. rewrite app_nil_r. apply Forall_app.
        split; [exact Hpre2|]. by repeat constructor.
    + intros Hemp _ _ Hlen. destruct (Hnone (Hempty Hemp Hlen)) as (-> & -> & -> & _).
      split; [reflexivity|]. by rewrite !segments_written_app, Hwpre.
Qed.

End CreateCk.

(** *** Dictionaries *)

Section DictFacts.
Context {K V : Type} (same_key : K -> K -> bool).
Hypothesis same_refl : forall k, same_key k k = true.

Lemma dict_get_set k v (d : list (K * V)) :
  dict_get same_key k (dict_set same_key k v d) = Some v.
Proof.
  induction d as [|[k' v'] d IH]; simpl.
  - by rewrite same_refl.
  - destruct (same_key k' k) eqn:E; simpl; rewrite E; [reflexivity|exact IH].
Qed.

Lemma dict_set_set k v1 v2 (d : list (K * V)) :
  dict_set same_key k v2 (dict_set same_key k v1 d) = dict_set same_key k v2 d.
Proof.
  induction d as [|[k' v'] d IH]; simpl.
  - by rewrite same_refl.
  - destruct (same_key k' k) eqn:E; simpl; rewrite E; [reflexivity|by rewrite IH].
Qed.

Lemma dict_set_same k v (d : list (K * V)) :
  dict_get same_key k d = Some v -> dict_set same_key k v d = d.
Proof.
  induction d as [|[k' v'] d IH]; simpl; [discriminate|].
  destruct (same_key k' k); [by intros [= ->]|]. intros H. by rewrite IH.
Qed.


Lemma dict_set_Forall (P : K * V -> Prop) k v (d : list (K * V)) :
  (forall k', P (k', v)) -> Forall P d -> Forall P (dict_set same_key k v d).
Proof.
  intros Hv. induction 1 as [|[k' v'] d Hp Hd IH]; simpl.
  - by repeat constructor.
  - destruct (same_key k' k); constructor; auto.
Qed.
End DictFacts.

Lemma calm_refl s : calm s s.
Proof. repeat split. exists []. by rewrite app_nil_r. Qed.

Lemma calm_trans s1 s2 s3 : calm s1 s2 -> calm s2 s3 -> calm s1 s3.
Proof.
  intros (Hd1 & Ho1 & Hn1 & Hs1 & evs1 & Ht1) (Hd2 & Ho2 & Hn2 & Hs2 & evs2 & Ht2).
  repeat split; try congruence. exists (evs1 ++ evs2)%list.
  by rewrite Ht2, Ht1, app_assoc.
Qed.

Ltac solve_report :=
  unfold report_ok; do 4 (split; [reflexivity|]);
  eexists _, _, _, _, _, _, _, _, _; split; [|split; [|split; [|reflexivity]]];
  [ | |unfold quat_at; cbn; use_answers; reflexivity];
  [ |eassumption];
  first [left; reflexivity|right; assumption].

Ltac solve_printed :=
  split; [reflexivity|]; split; [first [reflexivity|symmetry; apply app_nil_r]|];
  split; [cbn; rewrite ?bool_decide_refl; reflexivity|];
  split; [first [reflexivity|apply prefix_nil|by eexists [_]]|];
  split; [repeat (constructor; [solve_report|]); constructor|];
  first [reflexivity|left; reflexivity|right; split; [reflexivity|assumption]].

Section TestCk.

Context (lib : SpiceLib).

Lemma test_ck_frame_spec fk stop_et last_et dt reffrm table s :
  dict_get String.eqb fk dt = Some table ->
  wp (test_ck_frame lib fk stop_et last_et dt reffrm) s
     (fun r s' =>
        sheap s' = sheap s /\ dheap s' = dheap s /\ calm s s' /\
        match r with
        | Ok dt' =>
            keeper s' = keeper s
            /\ exists plan,
                 dt' = dict_set String.eqb fk (dict_set String.eqb reffrm plan table) dt
                 /\ plan_ok lib (keeper s) (last_et, fk, stop_et, reffrm) plan
        | Raise e => plain_error e
        | OutOfFuel => False
        end).
Proof.
  intros Hget. unfold test_ck_frame.
  repeat wp_step.
  all: cbn in *; rewrite ?remove_last_snoc in *.
  all: unfold calm; cbn; rewrite <- ?app_assoc; cbn.
  all: subst.
  all: split; [reflexivity|]; split; [reflexivity|].
  all: split; [repeat (split; [reflexivity|]); eexists; reflexivity|].
  all: try (unfold plain_error; tauto).
  all: try congruence.
  all: split; [reflexivity|].
  all: injection Hget as ->.
  all: eexists (_, _, _, _); split; [reflexivity|].
  all: split; [reflexivity|].
  all: split; [unfold relative_frame; cbn; use_answers; reflexivity|].
  all: eexists; split; [unfold resolve_clock; cbn; use_answers; reflexivity|].
  all: by symmetry.
Qed.

Lemma test_ck_frames_spec fk stop_et last_et frames :
  forall dt table s,
    dict_get String.eqb fk dt = Some table ->
    wp (for_fold frames dt (test_ck_frame lib fk stop_et last_et)) s
       (fun r s' =>
          sheap s' = sheap s /\ dheap s' = dheap s /\ calm s s' /\
          match r with
          | Ok dt' =>
              keeper s' = keeper s
              /\ exists rows,
                   Forall2 (fun reffrm row =>
                              fst row = reffrm
                              /\ plan_ok lib (keeper s) (last_et, fk, stop_et, reffrm) (snd row))
                           frames rows
                   /\ dt' = dict_set String.eqb fk (table_of rows table) dt
          | Raise e => plain_error e
          | OutOfFuel => False
          end).
Proof.
  induction frames as [|reffrm frames IH]; intros dt table s Hget; simpl.
  - apply wp_ret. split; [reflexivity|]. split; [reflexivity|].
    split; [apply calm_refl|]. split; [reflexivity|]. exists []. split; [constructor|].
    simpl. symmetry. by apply dict_set_same.
  - apply wp_bind.
    eapply wp_mono; [by apply test_ck_frame_spec|].
    intros r s1 (Hs1 & Hd1 & Hc1 & H1). destruct r as [dt1|e|]; [|by do 3 (split; [assumption|])|destruct H1].
    destruct H1 as (Hk1 & plan & -> & Hplan).
    eapply wp_mono; [apply IH; apply dict_get_set, String.eqb_refl|].
    intros r s2 (Hs2 & Hd2 & Hc2 & H2).
    split; [congruence|]. split; [congruence|]. split; [by eapply calm_trans|].
    destruct r as [dt2|e|]; [|exact H2|exact H2].
    destruct H2 as (Hk2 & rows & Hrows & ->).
    split; [congruence|]. exists ((reffrm, plan) :: rows). split.
    + constructor; [by split|]. by rewrite <- Hk1.
    + simpl. apply dict_set_set, String.eqb_refl.
Qed.

(** The first [while fks:] of [test_ck] (lines 187-231). *)
Lemma test_ck_loop_spec frames fks stop_ets :
  forall fuel last_et dt s,
    (length (list_at (sheap s) fks) <= fuel)%nat ->
    wp (test_ck_loop lib fuel frames fks stop_ets last_et dt) s
       (fun r s' =>
          drained fks stop_ets s r s' /\ calm s s' /\
          match r with
          | Ok dt' =>
              keeper s' = keeper s
              /\ exists results,
                   plans_ok lib (keeper s) last_et
                     (windows (list_at (sheap s) fks) (list_at (dheap s) stop_ets))
                     frames results
                   /\ dt' = fold_left set_window results dt
          | Raise e => plain_error e
          | OutOfFuel => False
          end).
Proof.
  induction fuel as [|fuel IH]; intros last_et dt s Hfuel.
  - destruct (list_at (sheap s) fks) as [|x l] eqn:El; [|simpl in Hfuel; lia].
    unfold test_ck_loop. apply wp_bind, wp_read_slist. rewrite El.
    apply wp_ret. rewrite windows_nil_l.
    split; [|split; [apply calm_refl|split; [reflexivity|by exists []]]].
    unfold drained. rewrite El.
    repeat split; auto. rewrite take_ge; [reflexivity|simpl; lia].
  - cbn [test_ck_loop]. apply wp_bind, wp_read_slist.
    destruct (list_at (sheap s) fks) as [|x0 l0] eqn:El.
    { apply wp_ret. rewrite windows_nil_l.
      split; [|split; [apply calm_refl|split; [reflexivity|by exists []]]].
      unfold drained. rewrite El.
      repeat split; auto. rewrite take_ge; [reflexivity|simpl; lia]. }
    assert (Hlt : (fks < length (sheap s))%nat) by (apply list_at_lt; congruence).
    apply wp_bind, wp_pop_slist; [|congruence].
    intros fk fks' Efks. rewrite El in Efks.
    apply wp_bind, wp_pop_dlist.
    + intros stop_et stops' Estops. cbn in Estops.
      assert (Hlt' : (stop_ets < length (dheap s))%nat).
      { apply list_at_lt. rewrite Estops. by destruct stops'. }
      apply wp_bind.
      eapply wp_mono; [apply test_ck_frames_spec; apply dict_get_set, String.eqb_refl|].
      intros r s1 (Hs1 & Hd1 & Hc1 & H1). cbn in Hs1, Hd1.
      assert (Hc1' : calm s s1) by exact Hc1.
      rewrite Efks, Estops, windows_snoc.
      destruct r as [dt1|e|]; [| |destruct H1].
      * destruct H1 as (Hk1 & rows & Hrows & ->). cbn in Hk1, Hrows.
        rewrite dict_set_set by apply String.eqb_refl.
        eapply wp_mono; [apply IH|].
        { rewrite Hs1, list_at_insert by assumption.
          rewrite Efks, length_app in Hfuel. simpl in Hfuel. lia. }
        intros r s2 (Hdr2 & Hc2 & H2).
        rewrite Hs1, Hd1, !list_at_insert in H2 by assumption.
        split; [|split; [by eapply calm_trans|]].
        { destruct Hdr2 as (Hl1 & Hl2 & Hn1 & Hn2 & Hfin).
          rewrite Hs1, Hd1 in *. rewrite !length_insert in *.
          split; [assumption|]. split; [assumption|].
          split; [intros r' Hr'; rewrite Hn1 by assumption;
                  by apply list_lookup_insert_ne|].
          split; [intros r' Hr'; rewrite Hn2 by assumption;
                  by apply list_lookup_insert_ne|].
          destruct r; [|exact I|exact I].
          rewrite !list_at_insert in Hfin by assumption.
          destruct Hfin as (Hf1 & Hf2). split; [assumption|].
          rewrite Hf2, El, Efks, Estops, !length_app. simpl.
          replace (length stops' + 1 - (length fks' + 1))%nat
            with (length stops' - length fks')%nat by lia.
          rewrite take_app_le by lia. reflexivity. }
        destruct r as [dt2|e|]; [|exact H2|exact H2].
        destruct H2 as (Hk2 & results & Hres & ->). rewrite Hk1 in Hk2, Hres.
        split; [exact Hk2|]. exists ((fk, rows) :: results).
        split; [|reflexivity]. simpl. by repeat split.
      * split; [|split; [exact Hc1'|exact H1]].
        unfold drained. rewrite Hs1, Hd1. rewrite !length_insert.
        repeat split; auto; intros r' Hr'; by apply list_lookup_insert_ne.
    + intros Estops. cbn in Estops.
      split; [|split; [repeat split; exists []; cbn; by rewrite app_nil_r|by right]].
      unfold drained. cbn. rewrite length_insert.
      repeat split; auto; intros r' Hr'; by apply list_lookup_insert_ne.
Qed.

Lemma same_files_calm s s' evs :
  same_files s s' -> trace s' = (trace s ++ evs)%list -> calm s s'.
Proof. intros (? & ? & ? & ? & ? & ?) Htr. repeat split; try assumption. by exists evs. Qed.

Lemma drained_same {A : Type} fks stop_ets s (r : outcome A) s' :
  sheap s' = sheap s -> dheap s' = dheap s ->
  match r with Ok _ => False | _ => True end ->
  drained fks stop_ets s r s'.
Proof.
  intros Hs Hd Hr. unfold drained. rewrite Hs, Hd.
  repeat split; auto. by destruct r.
Qed.

(** Lines 178-231. *)
Lemma test_ck_plan_spec kernels frames fks stop_ets output_ck s :
  wp (test_ck_plan lib kernels frames fks stop_ets output_ck) s
     (fun r s' =>
        drained fks stop_ets s r s' /\ calm s s' /\
        match r with
        | Ok dt =>
            keeper s' = (keeper s ++ kernels ++ [output_ck])%list
            /\ exists results,
                 plans_ok lib (keeper s ++ kernels ++ [output_ck])%list None
                   (windows (list_at (sheap s) fks) (list_at (dheap s) stop_ets))
                   frames results
                 /\ dt = fold_left set_window results []
        | Raise e => plain_error e
        | OutOfFuel => False
        end).
Proof.
  unfold test_ck_plan. apply wp_bind.
  eapply wp_mono; [apply load_kernels_spec|].
  intros r s0 (Hsame & pre & Htr & Hpre & Hr).
  pose proof (same_files_calm _ _ _ Hsame Htr) as Hc0.
  destruct Hsame as (_ & _ & _ & _ & Hsh & Hdh).
  destruct r as [[]|e|]; [| |destruct Hr].
  - apply wp_bind, wp_read_slist.
    eapply wp_mono; [apply test_ck_loop_spec; lia|].
    intros r s1 (Hdr & Hc1 & H1).
    split; [|split; [by eapply calm_trans|]].
    + unfold drained in *. rewrite Hsh, Hdh in Hdr. exact Hdr.
    + rewrite Hr, Hsh, Hdh in H1. exact H1.
  - split; [by apply drained_same|]. split; [exact Hc0|]. left. tauto.
Qed.

(** Lines 246-251 for one row. *)
Lemma test_ck_fill_spec reffrm relative_reffrm et_test_lo et_test_hi s :
  wp (test_ck_fill lib reffrm (relative_reffrm, et_test_lo, et_test_hi, [])) s
     (fun r s' =>
        sheap s' = sheap s /\ dheap s' = dheap s /\ calm s s' /\ keeper s' = keeper s /\
        match r with
        | Ok plan' =>
            filled lib (keeper s) reffrm (relative_reffrm, et_test_lo, et_test_hi, []) plan'
        | Raise e => e = SpiceyError
        | OutOfFuel => False
        end).
Proof.
  unfold test_ck_fill, plan_keys. cbn [for_fold].
  repeat wp_step.
  all: cbn in *; unfold calm; cbn; rewrite <- ?app_assoc; cbn.
  all: split; [reflexivity|]; split; [reflexivity|].
  all: split; [repeat (split; [reflexivity|]); eexists; reflexivity|].
  all: split; [reflexivity|].
  all: try reflexivity.
  eexists _, _. unfold quat_at. cbn. use_answers. by repeat split.
Qed.

(** A loop that rebuilds a list, under an invariant of the state. *)
Lemma wp_for_map {A B : Type} (body : A -> M B) (Inv : State -> Prop)
    (R : A -> B -> Prop) (E : exn -> Prop) (P : A -> Prop) (l : list A) :
  (forall x s, Inv s -> P x ->
     wp (body x) s (fun r s' =>
                      Inv s' /\ match r with
                                | Ok y => R x y
                                | Raise e => E e
                                | OutOfFuel => False
                                end)) ->
  Forall P l ->
  forall s, Inv s ->
    wp (for_map l body) s (fun r s' =>
                             Inv s' /\ match r with
                                       | Ok ys => Forall2 R l ys
                                       | Raise e => E e
                                       | OutOfFuel => False
                                       end).
Proof.
  intros Hbody. induction 1 as [|x l Hx Hl IH]; intros s Hinv; simpl.
  - apply wp_ret. by split.
  - apply wp_bind. eapply wp_mono; [by apply Hbody|].
    intros r s1 (Hinv1 & H1). destruct r as [y|e|]; [|by split|destruct H1].
    apply wp_bind. eapply wp_mono; [by apply IH|].
    intros r s2 (Hinv2 & H2). destruct r as [ys|e|]; [|by split|destruct H2].
    apply wp_ret. split; [assumption|]. by constructor.
Qed.

(** Lines 241-251. *)
Lemma test_ck_pass1_spec dt s :
  planned dt ->
  wp (test_ck_pass1 lib dt) s
     (fun r s' =>
        (sheap s' = sheap s /\ dheap s' = dheap s /\ calm s s' /\ keeper s' = keeper s) /\
        match r with
        | Ok dt' => filled_table lib (keeper s) dt dt'
        | Raise e => e = SpiceyError
        | OutOfFuel => False
        end).
Proof.
  intros Hdt. unfold test_ck_pass1, filled_table.
  apply (wp_for_map _
           (fun s' => sheap s' = sheap s /\ dheap s' = dheap s /\ calm s s'
                      /\ keeper s' = keeper s)
           _ (fun e => e = SpiceyError)
           (fun entry => Forall (fun row => snd (snd row) = []) (snd entry)));
    [|exact Hdt|by repeat split; try apply calm_refl].
  intros [fk table] s1 Hinv1 Htable. cbn [fst snd] in *.
  apply wp_bind.
  eapply wp_mono.
  { apply (wp_for_map _
             (fun s' => sheap s' = sheap s /\ dheap s' = dheap s /\ calm s s'
                        /\ keeper s' = keeper s)
             (fun row row' => fst row' = fst row
                              /\ filled lib (keeper s) (fst row) (snd row) (snd row'))
             (fun e => e = SpiceyError)
             (fun row => snd (snd row) = [])); [|exact Htable|exact Hinv1].
    intros [reffrm [[[rel lo] hi] dq]] s2 (Hs2 & Hd2 & Hc2 & Hk2) Hdq.
    cbn [fst snd] in *. subst dq.
    apply wp_bind. eapply wp_mono; [apply test_ck_fill_spec|].
    intros r s3 (Hs3 & Hd3 & Hc3 & Hk3 & H3).
    assert (Hinv3 : sheap s3 = sheap s /\ dheap s3 = dheap s /\ calm s s3
                    /\ keeper s3 = keeper s).
    { repeat split; try congruence; try apply (calm_trans _ _ _ Hc2 Hc3). }
    destruct r as [plan'|e|]; [|by split|destruct H3].
    apply wp_ret. split; [exact Hinv3|]. split; [reflexivity|]. by rewrite <- Hk2. }
  intros r s2 (Hinv2 & H2). destruct r as [table'|e|]; [|by split|destruct H2].
  apply wp_ret. split; [exact Hinv2|]. by split.
Qed.

(** Lines 233-251. *)
Lemma test_ck_reload_spec kernels output_ck dt s :
  planned dt ->
  wp (test_ck_reload lib kernels output_ck dt) s
     (fun r s' =>
        sheap s' = sheap s /\ dheap s' = dheap s /\ calm s s' /\
        match r with
        | Ok dt' =>
            keeper s' = (kernels ++ [output_ck])%list
            /\ filled_table lib (kernels ++ [output_ck])%list dt dt'
        | Raise e => e = SpiceyError
        | OutOfFuel => False
        end).
Proof.
  intros Hdt. unfold test_ck_reload.
  apply wp_bind, wp_kclear. apply wp_bind, wp_ktotal. apply wp_bind.
  apply wp_py_assert; [intros _|intros Hf; cbn in Hf; discriminate].
  apply wp_bind. eapply wp_mono; [apply load_kernels_spec|].
  intros r s0 (Hsame & pre & Htr & Hpre & Hr). cbn in Htr, Hr.
  assert (Hc0 : calm s s0).
  { destruct Hsame as (? & ? & ? & ? & ? & ?). cbn in *. repeat split; try assumption.
    eexists. rewrite Htr, <- !app_assoc. reflexivity. }
  destruct Hsame as (_ & _ & _ & _ & Hsh & Hdh). cbn in Hsh, Hdh.
  destruct r as [[]|e|]; [| |destruct Hr].
  - eapply wp_mono; [by apply test_ck_pass1_spec|].
    intros r s1 ((Hs1 & Hd1 & Hc1 & Hk1) & H1).
    split; [congruence|]. split; [congruence|]. split; [by eapply calm_trans|].
    rewrite Hr in *. destruct r; [by split|exact H1|exact H1].
  - split; [assumption|]. split; [assumption|]. split; [exact Hc0|]. tauto.
Qed.

Variable py_round : float -> Z -> float.
Variable py_format_et : float -> string.

Lemma printed_nil loaded_ck (scanned : list Event -> Prop) s :
  scanned [] -> printed lib py_round py_format_et loaded_ck [] scanned s (Ok tt) s.
Proof.
  intros Hsc. split; [by repeat split|]. exists [], [], [].
  rewrite !app_nil_r. split; [reflexivity|]. split; [reflexivity|].
  split; [assumption|]. split; [reflexivity|]. split; [constructor|reflexivity].
Qed.

Lemma printed_seq loaded_ck all1 all2 (sc1 sc2 sc : list Event -> Prop) s s1 s2 r :
  (forall evs1 evs2, sc1 evs1 -> sc2 evs2 -> sc (evs1 ++ evs2)%list) ->
  printed lib py_round py_format_et loaded_ck all1 sc1 s (Ok tt) s1 ->
  printed lib py_round py_format_et loaded_ck all2 sc2 s1 r s2 ->
  printed lib py_round py_format_et loaded_ck (all1 ++ all2) sc s r s2.
Proof.
  intros Hsc ((Hs1 & Hd1 & Hk1 & Ho1 & Hn1) & evs1 & rp1 & done1 & Ht1 & Ho1' & Hsc1 & Hp1 & Hf1 & ->).
  intros ((Hs2 & Hd2 & Hk2 & Ho2 & Hn2) & evs2 & rp2 & done2 & Ht2 & Ho2' & Hsc2 & Hp2 & Hf2 & Hr).
  split; [repeat split; congruence|].
  exists (evs1 ++ evs2)%list, (rp1 ++ rp2)%list, (all1 ++ done2)%list.
  split; [by rewrite Ht2, Ht1, app_assoc|].
  split; [by rewrite Ho2', Ho1', app_assoc|].
  split; [by apply Hsc|]. split; [by apply prefix_app|].
  split; [by apply Forall2_app|].
  destruct r; [by subst|exact Hr|exact Hr].
Qed.

Lemma printed_raise_more loaded_ck all1 all2 (sc1 sc : list Event -> Prop) s s1 e :
  (forall evs1, sc1 evs1 -> sc evs1) ->
  printed lib py_round py_format_et loaded_ck all1 sc1 s (Raise e) s1 ->
  printed lib py_round py_format_et loaded_ck (all1 ++ all2) sc s (Raise e) s1.
Proof.
  intros Hsc (Hsame & evs1 & rp1 & done1 & Ht1 & Ho1' & Hsc1 & Hp1 & Hf1 & Hr).
  split; [exact Hsame|]. exists evs1, rp1, done1.
  split; [assumption|]. split; [assumption|]. split; [by apply Hsc|].
  split; [by apply prefix_app_r|]. split; [exact Hf1|exact Hr].
Qed.

(** Lines 266-280 for one row. *)
Lemma test_ck_compare_spec loaded_ck fk reffrm plan plan' s :
  filled lib loaded_ck reffrm plan plan' ->
  keeper s = [fk] ->
  wp (test_ck_compare lib py_round py_format_et fk reffrm plan') s
     (fun r s' =>
        keeper s' = keeper s /\
        printed lib py_round py_format_et loaded_ck (row_samples fk (reffrm, plan))
          (fun evs => alone_scan (Alone fk) evs = Some (Alone fk)) s r s').
Proof.
  destruct plan as [[[rel lo] hi] dq].
  intros (q_lo & q_hi & Hlo & Hhi & ->) Hk.
  unfold test_ck_compare, plan_keys. cbn [for_each].
  unfold same_et_key. cbn [dict_set dict_get fst snd slot_eqb orb].
  destruct (PrimFloat.eqb lo hi) eqn:Eeq; cbn [dict_get fst snd slot_eqb orb];
    rewrite ?Eeq; cbn [dict_get fst snd slot_eqb orb].
  all: repeat wp_step.
  all: repeat match goal with q : Quat |- _ => destruct q as [[[? ?] ?] ?] end.
  all: cbn in *; unfold printed, row_samples; cbn; rewrite <- ?app_assoc; cbn.
  all: rewrite ?Hk in *.
  all: split; [reflexivity|]; split; [by repeat split|].
  all: repeat match goal with H : Some _ = Some _ |- _ => injection H as <- end.
  all: try discriminate.
  all: eexists; eexists.
  all: match goal with
       | |- _ =>
           first
             [ exists [(fk, reffrm, rel, lo); (fk, reffrm, rel, hi)]; solve_printed
             | exists [(fk, reffrm, rel, lo)]; solve_printed
             | exists []; solve_printed ]
       end.
Qed.

(** The rows of one historical file (lines 264-280). *)
Lemma test_ck_rows_spec loaded_ck fk rows :
  forall rows' s,
    Forall2 (fun row row' => fst row' = fst row
                             /\ filled lib loaded_ck (fst row) (snd row) (snd row'))
            rows rows' ->
    keeper s = [fk] ->
    wp (for_each rows' (fun row => test_ck_compare lib py_round py_format_et fk
                                     (fst row) (snd row))) s
       (fun r s' =>
          keeper s' = keeper s /\
          printed lib py_round py_format_et loaded_ck (flat_map (row_samples fk) rows)
            (fun evs => alone_scan (Alone fk) evs = Some (Alone fk)) s r s').
Proof.
  induction rows as [|[reffrm plan] rows IH]; intros rows' s Hrows Hk;
    inversion Hrows as [|? [reffrm' plan'] ? rows0 [Hfst Hfill] Hrest]; subst; simpl.
  - apply wp_ret. split; [reflexivity|]. by apply printed_nil.
  - cbn [fst snd] in *. subst reffrm'. apply wp_bind.
    eapply wp_mono; [by eapply test_ck_compare_spec|].
    intros r s1 (Hk1 & Hp1). destruct r as [[]|e|].
    + eapply wp_mono; [apply IH; [exact Hrest|congruence]|].
      intros r s2 (Hk2 & Hp2). split; [congruence|].
      eapply printed_seq; [|exact Hp1|exact Hp2].
      intros evs1 evs2 H1 H2. by rewrite alone_scan_app, H1.
    + split; [assumption|]. eapply printed_raise_more; [|exact Hp1]. auto.
    + by destruct Hp1 as (_ & ? & ? & ? & _ & _ & _ & _ & _ & ?).
Qed.

(** The second pass (lines 254-280). *)
Lemma test_ck_pass2_spec loaded_ck dt :
  forall dt' s,
    filled_table lib loaded_ck dt dt' ->
    wp (test_ck_pass2 lib py_round py_format_et dt') s
       (printed lib py_round py_format_et loaded_ck (samples dt)
          (fun evs => forall m, is_Some (alone_scan m evs)) s).
Proof.
  induction dt as [|[fk rows] dt IH]; intros dt' s Hdt;
    inversion Hdt as [|? [fk' rows'] ? dt0 [Hfst Hrows] Hrest]; subst;
    unfold test_ck_pass2; cbn [for_each].
  - apply wp_ret. apply printed_nil. intros m. by eexists.
  - cbn [fst snd] in *. subst fk'. apply wp_bind. cbv beta. cbn [fst snd].
    apply wp_bind, wp_kclear. apply wp_bind, wp_ktotal. apply wp_bind.
    apply wp_py_assert; [intros _|intros Hf; cbn in Hf; discriminate].
    apply wp_bind.
    set (pre_ok := fun ok => [mkEvent Kclear (keeper s) true; mkEvent Ktotal [] true;
                              mkEvent (Furnsh fk) [] ok]).
    assert (Hpre : forall ok m,
              alone_scan m (pre_ok ok) = Some (if ok then Alone fk else Unknown)).
    { intros ok m. unfold pre_ok. cbn. by destruct m, ok. }
    apply wp_furnsh.
    + intros _ _.
      eapply wp_mono; [by eapply test_ck_rows_spec|].
      intros r s1 (Hk1 & Hp1).
      assert (Hp1' : printed lib py_round py_format_et loaded_ck (flat_map (row_samples fk) rows)
                       (fun evs => exists evs', evs = (pre_ok true ++ evs')%list
                                   /\ alone_scan (Alone fk) evs' = Some (Alone fk))
                       s r s1).
      { destruct Hp1 as (Hsame & evs & rp & done & Ht & Ho & Hsc & Hrest1).
        split; [exact Hsame|]. exists (pre_ok true ++ evs)%list, rp, done.
        cbn in Ht, Ho. rewrite <- !app_assoc in Ht.
        split; [exact Ht|]. split; [exact Ho|]. split; [|exact Hrest1].
        by exists evs. }
      destruct r as [[]|e|].
      * eapply wp_mono; [by apply IH|].
        intros r s2 Hp2. unfold samples. cbn [flat_map].
        eapply printed_seq; [|exact Hp1'|exact Hp2].
        intros evs1 evs2 H1 H2 m. destruct H1 as (evs' & -> & Hsc).
        rewrite !alone_scan_app, Hpre, Hsc. apply H2.
      * unfold samples. cbn [flat_map].
        eapply printed_raise_more; [|exact Hp1'].
        intros evs1 H1 m. destruct H1 as (evs' & -> & Hsc).
        rewrite alone_scan_app, Hpre, Hsc. by eexists.
      * by destruct Hp1 as (_ & ? & ? & ? & _ & _ & _ & _ & _ & ?).
    + split; [by repeat split|]. exists (pre_ok false), [], [].
      split; [cbn; by rewrite <- !app_assoc|].
      split; [cbn; by rewrite app_nil_r|].
      split; [intros m; rewrite (Hpre false); by eexists|].
      split; [apply prefix_nil|]. split; [constructor|left; reflexivity].
Qed.
End TestCk.

(** ** [test_ck]: the whole run *)

Section TestCkRun.
Context (lib : SpiceLib).
Variable py_round : float -> Z -> float.
Variable py_format_et : float -> string.

Lemma table_of_planned rows table :
  Forall (fun row : string * Plan => snd (snd row) = []) rows ->
  Forall (fun row : string * Plan => snd (snd row) = []) table ->
  Forall (fun row : string * Plan => snd (snd row) = []) (table_of rows table).
Proof.
  revert table. induction rows as [|[reffrm plan] rows IH]; intros table Hrows Htable;
    simpl; [assumption|].
  inversion Hrows; subst. apply IH; [assumption|].
  apply dict_set_Forall; [|assumption]. intros k'. assumption.
Qed.

Lemma plans_ok_planned loaded frames :
  forall ws last_et results dt,
    plans_ok lib loaded last_et ws frames results ->
    planned dt -> planned (fold_left set_window results dt).
Proof.
  induction ws as [|[fk stop_et] ws IH]; intros last_et [|[fk' rows] results] dt H Hdt;
    simpl in *; try contradiction; [assumption|].
  destruct H as (-> & Hrows & Hrest).
  eapply IH; [exact Hrest|].
  unfold set_window, planned. apply dict_set_Forall; [|exact Hdt].
  intros k'. simpl. apply table_of_planned; [|constructor].
  clear -Hrows. induction Hrows as [|reffrm [r [[[rel lo] hi] dq]] frames rows [_ (Hdq & _)] _ IH];
    constructor; assumption.
Qed.

(** A run of [test_ck]: it raises before the second pass, having printed
    nothing, or it reaches the second pass with the table [dt] of the
    first loop, filled from the CK. *)
Lemma test_ck_run kernels frames fks stop_ets output_ck s r s' :
  test_ck lib py_round py_format_et kernels frames fks stop_ets output_ck s = (r, s') ->
  drained fks stop_ets s r s' /\ disk s' = disk s /\ ck_open s' = ck_open s
  /\ (forall e, r = Raise e ->
                plain_error e \/ (e = ArgumentError /\ lib_vnorm_sized lib = true))
  /\ r <> OutOfFuel
  /\ ((exists e, r = Raise e /\ stdout s' = stdout s
         /\ (exists evs, trace s' = (trace s ++ evs)%list)
         /\ (test_ck_plan lib kernels frames fks stop_ets output_ck s = (Raise e, s')
             \/ exists dt s1,
                  test_ck_plan lib kernels frames fks stop_ets output_ck s = (Ok dt, s1)
                  /\ test_ck_reload lib kernels output_ck dt s1 = (Raise e, s')))
      \/ exists dt s1 dt' s2 results,
           test_ck_plan lib kernels frames fks stop_ets output_ck s = (Ok dt, s1)
           /\ test_ck_reload lib kernels output_ck dt s1 = (Ok dt', s2)
           /\ test_ck_pass2 lib py_round py_format_et dt' s2 = (r, s')
           /\ plans_ok lib (keeper s ++ kernels ++ [output_ck])%list None
                (windows (list_at (sheap s) fks) (list_at (dheap s) stop_ets))
                frames results
           /\ dt = fold_left set_window results []
           /\ (exists evs1, trace s2 = (trace s ++ evs1)%list)
           /\ stdout s2 = stdout s
           /\ printed lib py_round py_format_et (kernels ++ [output_ck])%list (samples dt)
                (fun evs => forall m, is_Some (alone_scan m evs)) s2 r s').
Proof.
  intros Hrun. unfold test_ck in Hrun.
  apply bind_run in Hrun.
  pose proof (test_ck_plan_spec lib kernels frames fks stop_ets output_ck s) as Hplan.
  destruct Hrun as [(dt & s1 & Hp & Hrun)|[(e & Hp & ->)|(Hp & ->)]].
  2:{ pose proof (wp_run _ _ _ _ _ Hplan Hp) as (Hdr & (Hd & Ho & _ & Hout & Htr) & Herr).
      split; [exact Hdr|]. split; [exact Hd|]. split; [exact Ho|].
      split; [intros ? [= <-]; by left|]. split; [discriminate|]. left.
      exists e. split; [reflexivity|]. split; [exact Hout|]. split; [exact Htr|]. by left. }
  2:{ by pose proof (wp_run _ _ _ _ _ Hplan Hp) as (_ & _ & []). }
  pose proof (wp_run _ _ _ _ _ Hplan Hp)
    as (Hdr & (Hd1 & Ho1 & _ & Hout1 & evs1 & Htr1) & Hk1 & results & Hres & Hdt).
  assert (Hpl : planned dt).
  { subst dt. eapply plans_ok_planned; [exact Hres|constructor]. }
  apply bind_run in Hrun.
  pose proof (test_ck_reload_spec lib kernels output_ck dt s1 Hpl) as Hreload.
  assert (Hdr' : forall (r0 : outcome unit) s0,
             sheap s0 = sheap s1 -> dheap s0 = dheap s1 -> drained fks stop_ets s r0 s0).
  { intros r0 s0 Hs Hd. destruct Hdr as (? & ? & ? & ? & ? & ?).
    unfold drained. rewrite Hs, Hd. repeat split; try assumption.
    destruct r0; [by split|exact I|exact I]. }
  destruct Hrun as [(dt' & s2 & Hr & Hrun)|[(e & Hr & ->)|(Hr & ->)]].
  2:{ pose proof (wp_run _ _ _ _ _ Hreload Hr)
        as (Hs2 & Hd2 & (Hdk2 & Ho2 & _ & Hout2 & evs2 & Htr2) & Herr).
      split; [by apply Hdr'|]. split; [congruence|]. split; [congruence|].
      split; [intros ? [= <-]; left; by left|]. split; [discriminate|]. left.
      exists e. split; [reflexivity|]. split; [congruence|].
      split; [exists (evs1 ++ evs2)%list; by rewrite Htr2, Htr1, app_assoc|].
      right. by exists dt, s1. }
  2:{ by pose proof (wp_run _ _ _ _ _ Hreload Hr) as (_ & _ & _ & []). }
  pose proof (wp_run _ _ _ _ _ Hreload Hr)
    as (Hs2 & Hd2 & (Hdk2 & Ho2 & _ & Hout2 & evs2 & Htr2) & Hk2 & Hfill).
  pose proof (wp_run _ _ _ _ _
                (test_ck_pass2_spec lib py_round py_format_et _ dt dt' s2 Hfill) Hrun)
    as Hprinted.
  pose proof Hprinted as ((Hs3 & Hd3 & Hdk3 & Ho3 & _) & evs3 & rp & done & _ & _ & _ & _ & _ & Hr3).
  split; [apply Hdr'; congruence|]. split; [congruence|]. split; [congruence|].
  split; [intros e ->; destruct Hr3 as [->|Hr3]; [left; by left|by right]|].
  split; [intros ->; contradiction|].
  right. exists dt, s1, dt', s2, results.
  do 5 (split; [assumption|]).
  split; [exists (evs1 ++ evs2)%list; by rewrite Htr2, Htr1, app_assoc|].
  split; [congruence|exact Hprinted].
Qed.

End TestCkRun.

(** ** [main]: the checks of the configuration *)

Lemma wp_fks_fuel lib s (Q : outcome nat -> State -> Prop) :
  Q (Ok (length (lib_stpool lib (keeper s) "FKS"))) s -> wp (fks_fuel lib) s Q.
Proof. exact (fun H => H). Qed.

Lemma wp_try_except {A : Type} (c handler : M A) s (Q : outcome A -> State -> Prop) :
  wp c s (fun r s1 => match r with
                      | Raise _ => wp handler s1 Q
                      | _ => Q r s1
                      end) ->
  wp (try_except c handler) s Q.
Proof. unfold wp, try_except. destruct (c s) as [[a|e|] s1]; simpl; auto. Qed.

Lemma wp_new_slist l s (Q : outcome nat -> State -> Prop) :
  Q (Ok (length (sheap s))) (set_sheap (sheap s ++ [l])%list s) -> wp (new_slist l) s Q.
Proof. exact (fun H => H). Qed.

Lemma wp_new_dlist l s (Q : outcome nat -> State -> Prop) :
  Q (Ok (length (dheap s))) (set_dheap (dheap s ++ [l])%list s) -> wp (new_dlist l) s Q.
Proof. exact (fun H => H). Qed.

Lemma wp_append_slist r x s (Q : outcome unit -> State -> Prop) :
  Q (Ok tt) (set_sheap (<[r := (list_at (sheap s) r ++ [x])%list]> (sheap s)) s) ->
  wp (append_slist r x) s Q.
Proof. exact (fun H => H). Qed.

Lemma wp_reverse_slist r s (Q : outcome unit -> State -> Prop) :
  Q (Ok tt) (set_sheap (<[r := rev (list_at (sheap s) r)]> (sheap s)) s) ->
  wp (reverse_slist r) s Q.
Proof. exact (fun H => H). Qed.

Lemma wp_reverse_dlist r s (Q : outcome unit -> State -> Prop) :
  Q (Ok tt) (set_dheap (<[r := rev (list_at (dheap s) r)]> (dheap s)) s) ->
  wp (reverse_dlist r) s Q.
Proof. exact (fun H => H). Qed.

Lemma list_at_lookup_snoc {A : Type} (h : list (list A)) (l : list A) :
  list_at (h ++ [l])%list (length h) = l.
Proof. unfold list_at. by rewrite lookup_app_r, Nat.sub_diag by lia. Qed.

Section Main.
Context (lib : SpiceLib).

(** Lines 312-321: the loop stops at the end of the FKS strings. *)
Lemma read_fks_spec fks :
  forall fuel (n : nat) s,
    (fks < length (sheap s))%nat ->
    (length (lib_stpool lib (keeper s) "FKS") - n <= fuel)%nat ->
    wp (read_fks lib fuel fks (Z.of_nat n)) s
       (fun r s' =>
          r = Ok tt
          /\ keeper s' = keeper s /\ dheap s' = dheap s /\ calm s s'
          /\ length (sheap s') = length (sheap s)
          /\ (forall r', r' <> fks -> sheap s' !! r' = sheap s !! r')
          /\ list_at (sheap s') fks
             = (list_at (sheap s) fks ++ drop n (lib_stpool lib (keeper s) "FKS"))%list
          /\ exists evs, trace s' = (trace s ++ evs)%list
                         /\ Forall (fun e => is_setup_call e = true) evs).
Proof.
  induction fuel as [|fuel IH]; intros n s Hlt Hfuel.
  - cbn [read_fks]. apply wp_bind, wp_try_except, wp_bind. unfold stpool.
    apply wp_query.
    + intros fk Hfk. exfalso.
      destruct (Z.ltb_spec (Z.of_nat n) 0); [discriminate|].
      rewrite Nat2Z.id in Hfk. apply lookup_lt_Some in Hfk. lia.
    + intros Hnone. apply wp_ret. apply wp_ret.
      destruct (Z.ltb_spec (Z.of_nat n) 0); [lia|].
      rewrite Nat2Z.id in Hnone. apply lookup_ge_None in Hnone.
      rewrite drop_ge, app_nil_r by lia. cbn.
      do 3 (split; [reflexivity|]).
      split; [repeat split; eexists; reflexivity|].
      do 3 (split; [reflexivity|]).
      eexists. split; [reflexivity|]. by repeat constructor.
  - cbn [read_fks]. apply wp_bind, wp_try_except, wp_bind. unfold stpool.
    apply wp_query.
    + intros fk Hfk.
      destruct (Z.ltb_spec (Z.of_nat n) 0); [discriminate|].
      rewrite Nat2Z.id in Hfk.
      apply wp_bind, wp_append_slist. apply wp_ret.
      replace (Z.of_nat n + 1) with (Z.of_nat (S n)) by lia.
      eapply wp_mono; [apply IH; cbn; [by rewrite length_insert|lia]|].
      cbn. intros r s' (-> & Hk & Hd & Hc & Hl & Hne & Hat & evs & Htr & Hev).
      rewrite length_insert in Hl. rewrite list_at_insert in Hat by assumption.
      split; [reflexivity|]. do 2 (split; [assumption|]).
      split.
      { destruct Hc as (? & ? & ? & ? & evs' & Htr'). cbn in *.
        repeat split; try assumption. eexists. rewrite Htr', <- app_assoc. reflexivity. }
      split; [assumption|].
      split; [intros r' Hr'; rewrite Hne by assumption; by apply list_lookup_insert_ne|].
      split.
      { rewrite Hat, <- app_assoc. f_equal. by rewrite (drop_S _ _ _ Hfk). }
      eexists. rewrite Htr, <- app_assoc. split; [reflexivity|].
      constructor; [reflexivity|exact Hev].
    + intros Hnone. apply wp_ret. apply wp_ret.
      destruct (Z.ltb_spec (Z.of_nat n) 0); [lia|].
      rewrite Nat2Z.id in Hnone. apply lookup_ge_None in Hnone.
      rewrite drop_ge, app_nil_r by lia. cbn.
      do 3 (split; [reflexivity|]).
      split; [repeat split; eexists; reflexivity|].
      do 3 (split; [reflexivity|]).
      eexists. split; [reflexivity|]. by repeat constructor.
Qed.

Lemma load_kernels_loadable kernels :
  forall s,
    wp (for_each kernels (furnsh lib)) s
       (fun r _ => match r with Ok _ => loadable lib s kernels | _ => True end).
Proof.
  induction kernels as [|k kernels IH]; intros s; simpl.
  - apply wp_ret. constructor.
  - apply wp_bind, wp_furnsh; [|exact I].
    intros Hin Hrd. eapply wp_mono; [apply IH|].
    intros [[]| |] s' H; try exact I. by constructor.
Qed.

Variable script_file : string.

(** Lines 291-340. *)
Lemma main_setup_spec argv_arg s :
  wp (main_setup lib script_file argv_arg) s
     (fun r s' =>
        exists evs, trace s' = (trace s ++ evs)%list /\
          match r with
          | Ok cfg =>
              setup_ok lib script_file argv_arg s cfg s'
              /\ exists evs0, evs = (evs0 ++ [mkEvent Kclear
                                               (keeper s ++ main_kernels script_file argv_arg)
                                               true])%list
                              /\ Forall (fun e => is_setup_call e = true) evs0
          | Raise e =>
              setup_failed lib script_file argv_arg s e
              /\ Forall (fun e => is_setup_call e = true) evs
              /\ disk s' = disk s /\ ck_open s' = ck_open s /\ stdout s' = stdout s
          | OutOfFuel => False
          end).
Proof.
  unfold main_setup, setup_ok, setup_failed.
  set (kernels := main_kernels script_file argv_arg).
  apply wp_bind.
  eapply wp_mono; [apply wp_conj; [apply load_kernels_spec|apply load_kernels_loadable]|].
  intros r s0 ((Hsame & pre & Htr & Hpre & Hr) & Hload).
  destruct Hsame as (Hd0 & Ho0 & Hn0 & Hout0 & Hsh0 & Hdh0).
  assert (Hpre' : Forall (fun e => is_setup_call e = true) pre).
  { eapply Forall_impl; [exact Hpre|]. intros [[] ? ?] He; try discriminate He; reflexivity. }
  destruct r as [[]|e|]; [| |destruct Hr].
  2:{ destruct Hr as (-> & Hnl). exists pre. split; [exact Htr|].
      split; [by left|]. by repeat split. }
  apply wp_bind. wp_step.
  2:{ eexists. split; [cbn; rewrite Htr, <- app_assoc; reflexivity|].
      rewrite Hr in *. cbn.
      split; [right; split; [exact Hload|]; by left|].
      split; [apply Forall_app; split; [exact Hpre'|by repeat constructor]|].
      by repeat split. }
  rename a into frames. rename H into Hframes. rewrite Hr in Hframes.
  apply wp_bind, wp_py_assert; intros Hne.
  2:{ eexists. split; [cbn; rewrite Htr, <- app_assoc; reflexivity|]. cbn.
      split; [right; split; [exact Hload|]; right; exists frames; split; [exact Hframes|];
              left; split; [reflexivity|]; by destruct frames|].
      split; [apply Forall_app; split; [exact Hpre'|by repeat constructor]|].
      by repeat split. }
  assert (Hframes_ne : frames <> []) by (intros ->; discriminate).
  apply wp_bind, wp_new_slist. apply wp_bind, wp_fks_fuel. apply wp_bind.
  eapply wp_mono.
  { apply (read_fks_spec (length (sheap s0)) _ 0%nat); cbn.
    - rewrite length_app. simpl. lia.
    - lia. }
  cbn. intros r s1 (-> & Hk1 & Hdh1 & Hc1 & Hl1 & Hne1 & Hat1 & evs1 & Htr1 & Hev1).
  rewrite Hr in *. rewrite list_at_lookup_snoc in Hat1. simpl in Hat1.
  rewrite drop_0 in Hat1.
  destruct Hc1 as (Hd1 & Ho1 & Hn1 & Hout1 & _). cbn in Hd1, Ho1, Hn1, Hout1.
  assert (Hsh1 : sheap s1 = (sheap s0 ++ [lib_stpool lib (keeper s ++ kernels) "FKS"])%list).
  { apply list_eq. intros i. destruct (decide (i = length (sheap s0))) as [->|Hi].
    - rewrite lookup_app_r, Nat.sub_diag by lia. simpl.
      unfold list_at in Hat1. destruct (sheap s1 !! length (sheap s0)) as [l|] eqn:El.
      + simpl in Hat1. by rewrite Hat1.
      + apply lookup_ge_None in El. rewrite Hl1, length_app in El. simpl in El. lia.
    - rewrite Hne1 by assumption.
      destruct (decide (i < length (sheap s0))%nat).
      + by rewrite !lookup_app_l by assumption.
      + rewrite !lookup_app_r by lia.
        destruct (i - length (sheap s0))%nat as [|k] eqn:Ek; [lia|]. reflexivity. }
  set (FKS := lib_stpool lib (keeper s ++ kernels) "FKS") in *.
  apply wp_bind, wp_read_slist. rewrite Hat1.
  apply wp_bind, wp_py_assert; intros Hfks.
  2:{ eexists. split; [rewrite Htr1, Htr, <- !app_assoc; reflexivity|]. cbn.
      split; [right; split; [exact Hload|]; right; exists frames; split; [exact Hframes|];
              right; split; [exact Hframes_ne|]; left; split; [reflexivity|];
              by destruct FKS|].
      split; [apply Forall_app; split; [exact Hpre'|by constructor]|].
      rewrite Hd1, Ho1, Hout1. by repeat split. }
  assert (HFKS_ne : FKS <> []) by (intros E; rewrite E in Hfks; discriminate).
  apply wp_bind. wp_step.
  2:{ rewrite Hk1 in *. eexists. split; [cbn; rewrite Htr1, Htr, <- !app_assoc; reflexivity|]. cbn.
      split; [right; split; [exact Hload|]; right; exists frames; split; [exact Hframes|];
              right; split; [exact Hframes_ne|]; right; split; [exact HFKS_ne|];
              by left|].
      split; [apply Forall_app; split; [exact Hpre'|]; constructor; [reflexivity|];
              apply Forall_app; split; [exact Hev1|by repeat constructor]|].
      rewrite Hd1, Ho1, Hout1. by repeat split. }
  rename a into stops. rename H into Hstops. rewrite Hk1 in Hstops.
  apply wp_bind, wp_new_dlist. cbn [dheap log_call set_trace set_dheap].
  apply wp_bind, wp_read_slist. cbn [sheap log_call set_trace set_dheap]. rewrite Hat1.
  apply wp_bind, wp_read_dlist. cbn [dheap log_call set_trace set_dheap].
  rewrite Hdh1. cbn [dheap log_call set_trace set_sheap]. rewrite list_at_lookup_snoc.
  apply wp_bind, wp_py_assert; intros Hlen.
  2:{ eexists. split; [cbn; rewrite Htr1, Htr, <- !app_assoc; reflexivity|]. cbn.
      split; [right; split; [exact Hload|]; right; exists frames; split; [exact Hframes|];
              right; split; [exact Hframes_ne|]; right; split; [exact HFKS_ne|];
              right; exists stops; split; [exact Hstops|]; left; split; [reflexivity|];
              by apply Nat.eqb_neq|].
      split; [apply Forall_app; split; [exact Hpre'|]; constructor; [reflexivity|];
              apply Forall_app; split; [exact Hev1|by repeat constructor]|].
      rewrite Hd1, Ho1, Hout1. by repeat split. }
  apply Nat.eqb_eq in Hlen.
  apply wp_bind, wp_reverse_slist. apply wp_bind, wp_reverse_dlist.
  apply wp_bind. wp_step.
  2:{ eexists. split; [cbn; rewrite Htr1, Htr, <- !app_assoc; reflexivity|]. cbn.
      cbn in H. rewrite Hk1 in H.
      split; [right; split; [exact Hload|]; right; exists frames; split; [exact Hframes|];
              right; split; [exact Hframes_ne|]; right; split; [exact HFKS_ne|];
              right; exists stops; split; [exact Hstops|]; right;
              split; [exact Hlen|]; split; [reflexivity|exact H]|].
      split; [apply Forall_app; split; [exact Hpre'|]; constructor; [reflexivity|];
              apply Forall_app; split; [exact Hev1|by repeat constructor]|].
      rewrite Hd1, Ho1, Hout1. by repeat split. }
  rename a into output_ck. rename H into Hout. cbn in Hout. rewrite Hk1 in Hout.
  apply wp_bind, wp_kclear. apply wp_ret. cbn.
  rewrite Hat1, list_at_lookup_snoc, Hk1, Hd1, Ho1, Hn1, Hout1, Hsh1.
  rewrite !insert_app_r_alt, !Nat.sub_diag by lia. cbn.
  eexists. split; [rewrite Htr1, Htr, <- !app_assoc; cbn; reflexivity|].
  split.
  - split; [reflexivity|]. do 4 (split; [assumption|]).
    split; [exists stops; by rewrite Hdh0|].
    split; [exact Hout|]. rewrite Hsh0, Hdh0. by repeat split.
  - exists (pre ++ mkEvent (Gcpool "FRAMES_TO_CONVERT" 0 999 99) (keeper s ++ kernels) true
               :: evs1 ++ [mkEvent (Gdpool "STOP_ETS" 0 999) (keeper s ++ kernels) true;
                           mkEvent (Stpool "OUTPUT_CK" 0 "+" 2048) (keeper s ++ kernels) true])%list.
    split.
    + rewrite <- !app_assoc. cbn. rewrite <- !app_assoc. reflexivity.
    + apply Forall_app; split; [exact Hpre'|].
      constructor; [reflexivity|]. apply Forall_app; split; [exact Hev1|].
      by repeat constructor.
Qed.

End Main.

(** ** The historical files are read in isolation *)






Section CreateCkLoads.
Context (lib : SpiceLib).
Variable doVerbose : bool.





End CreateCkLoads.

Section Isolation.
Context (lib : SpiceLib).
Variable doVerbose : bool.
Variable py_round : float -> Z -> float.
Variable py_format_et : float -> string.


End Isolation.

(** ** What [test_ck] reports *)

Section Reports.
Context (lib : SpiceLib).
Variable py_round : float -> Z -> float.
Variable py_format_et : float -> string.

(** The lines of a run: every line that [test_ck] prints is for a sample
    (file, frame, epoch) of its table, in order, and gives what
    [sp.vnorm] returns, rounded to 16 places, for the difference of the
    quaternion from the CK and the quaternion from the historical file
    alone: the norm of its first three components.  A run raises only
    where a toolkit call or a pop from an empty list raises, or where a
    binding that checks sizes refuses the four items handed to
    [sp.vnorm]; a run that returns has printed a line for every sample. *)
Lemma test_ck_report_lines kernels frames fks stop_ets output_ck s r s' :
  test_ck lib py_round py_format_et kernels frames fks stop_ets output_ck s = (r, s') ->
  (forall e, r = Raise e ->
             plain_error e \/ (e = ArgumentError /\ lib_vnorm_sized lib = true))
  /\ r <> OutOfFuel
  /\ reports_samples lib py_round py_format_et kernels frames fks stop_ets output_ck s r s'.
Proof.
  intros Hrun.
  destruct (test_ck_run lib py_round py_format_et _ _ _ _ _ _ _ _ Hrun)
    as (_ & _ & _ & Herr & Hfuel & [(e & -> & Hout & _ & H)|H]).
  - split; [exact Herr|]. split; [exact Hfuel|].
    exists []. rewrite app_nil_r. split; [exact Hout|]. left.
    split; [reflexivity|]. by exists e.
  - destruct H as (dt & s1 & dt' & s2 & results & Hp & Hr & Hp2 & _ & _ & _ & Hout2 & Hprinted).
    destruct Hprinted as (_ & evs & reports & done & _ & Hout & _ & Hpre & Hrep & Hall).
    split; [exact Herr|]. split; [exact Hfuel|].
    exists reports. split; [by rewrite Hout, Hout2|]. right.
    exists dt, s1, done. split; [exact Hp|]. split; [exact Hpre|]. split; [|exact Hrep].
    by intros ->.
Qed.

End Reports.

(** ** The epochs that [test_ck] samples *)

(** *** Comparing floats *)












Section Sampling.
Context (lib : SpiceLib).




End Sampling.

Section SamplingRun.
Context (lib : SpiceLib).
Variable py_round : float -> Z -> float.
Variable py_format_et : float -> string.


End SamplingRun.

(** ** The lists of [main] and the copies it passes *)

Lemma list_at_app_l {A : Type} (h : list (list A)) (l : list A) (r : nat) :
  (r < length h)%nat -> list_at (h ++ [l])%list r = list_at h r.
Proof. intros H. unfold list_at. by rewrite lookup_app_l. Qed.

Lemma run_on_copies (run : nat -> nat -> M unit) fks stop_ets s r s' :
  (forall a b t r t', run a b t = (r, t') -> drained a b t r t') ->
  list_at (sheap s) fks <> [] -> list_at (dheap s) stop_ets <> [] ->
  length (list_at (sheap s) fks) = length (list_at (dheap s) stop_ets) ->
  (fks_copy <- copy_slist fks ;; stop_ets_copy <- copy_dlist stop_ets ;;
   run fks_copy stop_ets_copy)%py s = (r, s') ->
  runs_on_copies run fks stop_ets (list_at (sheap s) fks) (list_at (dheap s) stop_ets)
    s r s'.
Proof.
  intros Hrun HF HS Hlen Hcall.
  apply list_at_lt in HF as Hlt. apply list_at_lt in HS as Hlt'.
  change (run (length (sheap s)) (length (dheap s))
            (set_dheap (dheap s ++ [list_at (dheap s) stop_ets])%list
               (set_sheap (sheap s ++ [list_at (sheap s) fks])%list s)) = (r, s')) in Hcall.
  pose proof (Hrun _ _ _ _ _ Hcall) as (Hl1 & Hl2 & Hn1 & Hn2 & Hfin). cbn in *.
  split; [reflexivity|]. split; [reflexivity|]. split; [exact Hcall|].
  split; [unfold list_at at 1; rewrite Hn1 by lia; by rewrite lookup_app_l|].
  split; [unfold list_at at 1; rewrite Hn2 by lia; by rewrite lookup_app_l|].
  intros ->. rewrite !list_at_lookup_snoc in Hfin. destruct Hfin as [-> ->].
  split; [reflexivity|]. rewrite Hlen, Nat.sub_diag. apply take_0.
Qed.

Section Drains.
Context (lib : SpiceLib).
Variable doVerbose : bool.

Lemma create_ck_drained kernels frames fks stop_ets output_ck s r s' :
  create_ck lib doVerbose kernels frames fks stop_ets output_ck s = (r, s') ->
  drained fks stop_ets s r s'.
Proof.
  intros Hrun. pose proof (wp_run _ _ _ _ _ (create_ck_spec lib doVerbose _ _ _ _ _ _) Hrun) as H.
  destruct H as (pre & _ & [(-> & _ & Hsame & _)|[(_ & -> & _ & Hsame)|(_ & H)]]).
  - destruct Hsame as (_ & _ & _ & _ & Hs & Hd). unfold drained. rewrite Hs, Hd. by repeat split.
  - destruct Hsame as (_ & _ & _ & _ & Hs & Hd). unfold drained. rewrite Hs, Hd. by repeat split.
  - destruct H as (s0 & r1 & s1 & post & Hsame & _ & _ & _ & Hdr & _ & _ & _ & _ & _ & Hs & Hd & Hclose).
    destruct Hsame as (_ & _ & _ & _ & Hs0 & Hd0).
    destruct Hdr as (Hl1 & Hl2 & Hn1 & Hn2 & Hfin).
    unfold drained. rewrite Hs, Hd, <- Hs0, <- Hd0.
    do 4 (split; [assumption|]).
    destruct r as [[]| |]; [|exact I|exact I].
    destruct r1 as [[h|]|e|]; [exact Hfin|exact Hfin| |destruct Hclose].
    by destruct Hclose as (? & _).
Qed.

End Drains.

Section Copies.
Context (lib : SpiceLib).
Variable doVerbose : bool.
Variable py_round : float -> Z -> float.
Variable py_format_et : float -> string.
Variable script_file : string.

(** The lists that [main] leaves for the two phases. *)
Lemma main_setup_lists argv_arg s kernels frames fks stop_ets output_ck s1 :
  main_setup lib script_file argv_arg s = (Ok (kernels, frames, fks, stop_ets, output_ck), s1) ->
  list_at (sheap s1) fks <> [] /\ list_at (dheap s1) stop_ets <> []
  /\ length (list_at (sheap s1) fks) = length (list_at (dheap s1) stop_ets).
Proof.
  intros Hsetup.
  pose proof (wp_run _ _ _ _ _ (main_setup_spec lib script_file argv_arg s) Hsetup)
    as (evs & _ & Hok & _).
  destruct Hok as (_ & _ & _ & _ & Hfks & (stops & _ & Hlen & Hdh) & _ & -> & -> & Hsh & _).
  rewrite Hsh, Hdh, !list_at_lookup_snoc, !length_rev.
  split; [|split; [|exact Hlen]].
  - intros E. apply (f_equal (@length _)) in E. rewrite length_rev in E.
    destruct (lib_stpool _ _ _); [congruence|discriminate].
  - intros E. apply (f_equal (@length _)) in E. rewrite length_rev, <- Hlen in E.
    destruct (lib_stpool _ _ _); [congruence|discriminate].
Qed.

(** C10: [create_ck] and [test_ck] pop from the two lists they are given
    and touch no other list; when either returns, [fks] is empty and
    [stop_ets] has lost as many items, so both are empty for lists of
    equal length.  [main] calls each of them on new copies of its lists:
    in a run with --create and --test, [create_ck] and then [test_ck]
    start from the same items [F] and [S], the lists of [main] still hold
    them after each call, and the copies are empty when a call returns. *)
Theorem main_runs_each_phase_on_copies argv_arg s kernels frames fks stop_ets output_ck
    s1 s2 r3 s3 :
  main_setup lib script_file argv_arg s
  = (Ok (kernels, frames, fks, stop_ets, output_ck), s1) ->
  main_create lib doVerbose (kernels, frames, fks, stop_ets, output_ck) s1 = (Ok tt, s2) ->
  main_test lib py_round py_format_et (kernels, frames, fks, stop_ets, output_ck) s2
  = (r3, s3) ->
  let F := list_at (sheap s1) fks in
  let S := list_at (dheap s1) stop_ets in
  (forall a b t r t',
     create_ck lib doVerbose kernels frames a b output_ck t = (r, t') -> drained a b t r t')
  /\ (forall a b t r t',
        test_ck lib py_round py_format_et kernels frames a b output_ck t = (r, t') ->
        drained a b t r t')
  /\ length F = length S
  /\ runs_on_copies (fun a b => create_ck lib doVerbose kernels frames a b output_ck)
       fks stop_ets F S s1 (Ok tt) s2
  /\ runs_on_copies (fun a b => test_ck lib py_round py_format_et kernels frames a b output_ck)
       fks stop_ets F S s2 r3 s3
  /\ ("--create" ∈ argv_arg -> "--test" ∈ argv_arg ->
      main lib doVerbose py_round py_format_et script_file argv_arg s = (r3, s3)).
Proof.
  intros Hsetup Hcreate Htest. cbv zeta.
  set (F := list_at (sheap s1) fks). set (S := list_at (dheap s1) stop_ets).
  destruct (main_setup_lists _ _ _ _ _ _ _ _ Hsetup) as (HF & HS & Hlen).
  assert (Hc : forall a b t r t',
             create_ck lib doVerbose kernels frames a b output_ck t = (r, t') ->
             drained a b t r t').
  { intros a b t r t'. apply create_ck_drained. }
  assert (Ht : forall a b t r t',
             test_ck lib py_round py_format_et kernels frames a b output_ck t = (r, t') ->
             drained a b t r t').
  { intros a b t r t' H. by destruct (test_ck_run lib py_round py_format_et _ _ _ _ _ _ _ _ H). }
  pose proof (run_on_copies _ fks stop_ets s1 (Ok tt) s2 Hc HF HS Hlen Hcreate) as Hrc.
  pose proof Hrc as (_ & _ & _ & HF2 & HS2 & _).
  assert (Hrt : runs_on_copies
                  (fun a b => test_ck lib py_round py_format_et kernels frames a b output_ck)
                  fks stop_ets F S s2 r3 s3).
  { subst F S. rewrite <- HF2, <- HS2.
    apply (run_on_copies _ fks stop_ets s2 r3 s3 Ht); [congruence|congruence|congruence|].
    exact Htest. }
  split; [exact Hc|]. split; [exact Ht|]. split; [exact Hlen|].
  split; [exact Hrc|]. split; [exact Hrt|].
  intros Hcr Hte. unfold main, bind at 1. rewrite Hsetup.
  rewrite !bool_decide_eq_true_2 by assumption.
  unfold bind at 1. rewrite Hcreate. exact Htest.
Qed.

End Copies.

(** ** The checks of [main] on its lists *)

Section Checks.
Context (lib : SpiceLib).
Variable doVerbose : bool.
Variable py_round : float -> Z -> float.
Variable py_format_et : float -> string.
Variable script_file : string.

(** C9: in a run of [main] that loads its kernels and finds frames to
    convert, an empty list of historical files, an empty list of stop
    times, or lists of different lengths make the run raise
    [AssertionError] before [create_ck] or [test_ck] is called; and
    [main] gets to the calls only with two lists that are not empty and
    have the same length. *)
Theorem main_checks_the_lists argv_arg s r s' frames :
  main lib doVerbose py_round py_format_et script_file argv_arg s = (r, s') ->
  loadable lib s (main_kernels script_file argv_arg) ->
  lib_gcpool lib (keeper s ++ main_kernels script_file argv_arg)%list
    "FRAMES_TO_CONVERT" 0 999 99 = Some frames ->
  frames <> [] ->
  checks_lists lib script_file argv_arg s r s'.
Proof.
  intros Hrun Hload Hframes Hne.
  unfold main in Hrun. apply bind_run in Hrun.
  pose proof (main_setup_spec lib script_file argv_arg s) as Hspec.
  assert (Hgood : forall cfg s1,
             main_setup lib script_file argv_arg s = (Ok cfg, s1) ->
             lib_stpool lib (keeper s ++ main_kernels script_file argv_arg)%list "FKS" <> []
             /\ exists stops,
                  lib_gdpool lib (keeper s ++ main_kernels script_file argv_arg)%list
                    "STOP_ETS" 0 999 = Some stops
                  /\ stops <> []
                  /\ length (lib_stpool lib (keeper s ++ main_kernels script_file argv_arg)%list
                               "FKS") = length stops
                  /\ list_at (sheap s1) (snd (fst (fst cfg)))
                     = rev (lib_stpool lib (keeper s ++ main_kernels script_file argv_arg)%list
                              "FKS")
                  /\ list_at (dheap s1) (snd (fst cfg)) = rev stops).
  { intros [[[[kernels frames'] fks] stop_ets] output_ck] s1 Hsetup.
    pose proof (wp_run _ _ _ _ _ Hspec Hsetup) as (evs & _ & Hok & _).
    destruct Hok as (_ & _ & _ & _ & Hfks & (stops & Hst & Hlen & Hdh) & _ & -> & -> & Hsh & _).
    split; [exact Hfks|]. exists stops. split; [exact Hst|].
    split; [intros ->; simpl in Hlen; by destruct (lib_stpool _ _ _)|].
    split; [exact Hlen|]. simpl. rewrite Hsh, Hdh, !list_at_lookup_snoc. by split. }
  assert (Hbad : forall e,
             main_setup lib script_file argv_arg s = (Raise e, s') ->
             stops_in_setup s s'
             /\ (lib_stpool lib (keeper s ++ main_kernels script_file argv_arg)%list "FKS" = [] ->
                 e = AssertionError)
             /\ (forall stops,
                   lib_gdpool lib (keeper s ++ main_kernels script_file argv_arg)%list
                     "STOP_ETS" 0 999 = Some stops ->
                   stops = [] \/
                   length (lib_stpool lib (keeper s ++ main_kernels script_file argv_arg)%list
                             "FKS") <> length stops ->
                   e = AssertionError)).
  { intros e Hsetup.
    pose proof (wp_run _ _ _ _ _ Hspec Hsetup) as (evs & Htr & Hfail & Hev & Hd & Ho & Hout).
    split; [split; [by exists evs|by repeat split]|].
    destruct Hfail as [(_ & Hnl)|(_ & [(_ & Hnone)|(frames' & Hf' & H)])];
      [contradiction|congruence|].
    rewrite Hframes in Hf'. injection Hf' as <-.
    destruct H as [(_ & Hnil)|(_ & H)]; [contradiction|].
    destruct H as [(-> & Hf)|(Hf & H)]; [by split|].
    split; [contradiction|]. intros stops Hst Hb.
    destruct H as [(_ & Hnone)|(stops' & Hst' & [(-> & _)|(Hlen & _ & _)])];
      [congruence|reflexivity|].
    rewrite Hst in Hst'. injection Hst' as <-.
    destruct Hb as [->|Hb]; [|contradiction].
    simpl in Hlen. by destruct (lib_stpool _ _ _). }
  split; [|split; [|exact Hgood]].
  - intros Hfks. destruct Hrun as [(cfg & s1 & Hs & _)|[(e & Hs & ->)|(Hs & ->)]].
    + by destruct (Hgood _ _ Hs).
    + destruct (Hbad _ Hs) as (Hstop & He & _). by rewrite He.
    + by pose proof (wp_run _ _ _ _ _ Hspec Hs) as (evs & _ & []).
  - intros stops Hst Hb. destruct Hrun as [(cfg & s1 & Hs & _)|[(e & Hs & ->)|(Hs & ->)]].
    + destruct (Hgood _ _ Hs) as (_ & stops' & Hst' & Hne' & Hlen & _).
      rewrite Hst in Hst'. injection Hst' as <-. by destruct Hb.
    + destruct (Hbad _ Hs) as (Hstop & _ & He). by rewrite (He _ Hst Hb).
    + by pose proof (wp_run _ _ _ _ _ Hspec Hs) as (evs & _ & []).
Qed.

End Checks.

(** ** The runs on the small toolkit *)

Lemma create_ck_begin_ticks_witness :
  create_ck (toy_lib true) false ["base.tm"] ["A"; "B"] 0 0 "out.bc" toy_start
  = (Ok tt, toy_created)
  /\ exists evs done,
       trace toy_created = (trace toy_start ++ evs)%list
       /\ done `prefix_of`
            schedule None
              (windows (list_at (sheap toy_start) 0) (list_at (dheap toy_start) 0)) ["A"; "B"]
       /\ (Ok tt = Ok tt ->
           done = schedule None
                    (windows (list_at (sheap toy_start) 0) (list_at (dheap toy_start) 0))
                    ["A"; "B"])
       /\ Forall2 (begins_at (toy_lib true) (keeper toy_start ++ ["base.tm"])) done
            (segments_written evs).
Proof.
  assert (H : create_ck (toy_lib true) false ["base.tm"] ["A"; "B"] 0 0 "out.bc" toy_start
              = (Ok tt, toy_created)) by (vm_compute; reflexivity).
  split; [exact H|].
  exact (create_ck_begin_ticks (toy_lib true) false _ _ _ _ _ _ _ _ H).
Defined.

Lemma create_ck_stop_ticks_witness :
  create_ck (toy_lib true) false ["base.tm"] ["A"; "B"] 0 0 "out.bc" toy_start
  = (Ok tt, toy_created)
  /\ (exists evs done,
        trace toy_created = (trace toy_start ++ evs)%list
        /\ done `prefix_of`
             schedule None
               (windows (list_at (sheap toy_start) 0) (list_at (dheap toy_start) 0)) ["A"; "B"]
        /\ (Ok tt = Ok tt ->
            done = schedule None
                     (windows (list_at (sheap toy_start) 0) (list_at (dheap toy_start) 0))
                     ["A"; "B"])
        /\ Forall2 (stops_at (toy_lib true) (keeper toy_start ++ ["base.tm"])) done
             (segments_written evs))
  /\ (forall fk last_et ck_handle reffrm,
        create_ck_frame (toy_lib true) false fk (PrimFloat.opp 1e31%float) last_et "out.bc"
          ck_handle reffrm
        = create_ck_frame (toy_lib true) false fk (PrimFloat.opp 1e40%float) last_et "out.bc"
            ck_handle reffrm)
  /\ (forall n, negated_in_32_bits (-64) n -> n = 64)
  /\ map seg_endtim (segments_written (trace toy_created))
     = [200%float; 200%float; 500000%float; 500000%float].
Proof.
  assert (H : create_ck (toy_lib true) false ["base.tm"] ["A"; "B"] 0 0 "out.bc" toy_start
              = (Ok tt, toy_created)) by (vm_compute; reflexivity).
  split; [exact H|].
  destruct (create_ck_stop_ticks (toy_lib true) false _ _ _ _ _ _ _ _ H) as (H1 & H2 & H3).
  split; [exact H1|]. split; [|split].
  - intros fk last_et ck_handle reffrm. apply H2; reflexivity.
  - intros n Hn. apply (H3 (-64) n Hn). lia.
  - vm_compute. reflexivity.
Defined.

Lemma create_ck_refuses_existing_output_witness :
  create_ck (toy_lib true) false ["base.tm"] ["A"; "B"] 0 0 "out.bc" toy_start
  = (Ok tt, toy_created)
  /\ forall kernels2 frames2 fks2 stop_ets2 r2 s2,
       create_ck (toy_lib true) false kernels2 frames2 fks2 stop_ets2 "out.bc" toy_created
       = (r2, s2) ->
       (exists e, r2 = Raise e) /\ same_files toy_created s2.
Proof.
  assert (H : create_ck (toy_lib true) false ["base.tm"] ["A"; "B"] 0 0 "out.bc" toy_start
              = (Ok tt, toy_created)) by (vm_compute; reflexivity).
  split; [exact H|].
  destruct (create_ck_refuses_existing_output (toy_lib true) false _ _ _ _ _ _ _ _ H)
    as (_ & _ & H3).
  apply (H3 (trace toy_created)); [reflexivity|vm_compute; discriminate].
Defined.

Lemma create_ck_closes_on_return_witness :
  create_ck (toy_lib false) false ["base.tm"] ["A"; "B"] 0 0 "out.bc" toy_start
  = (Raise SpiceyError, toy_failed)
  /\ exists evs,
       trace toy_failed = (trace toy_start ++ evs)%list
       /\ ((Raise SpiceyError : outcome unit) = Ok tt -> ck_open toy_failed = ck_open toy_start)
       /\ (forall e, (Raise SpiceyError : outcome unit) = Raise e -> opened evs = true ->
                     ck_open toy_failed = (ck_open toy_start ++ [ck_next toy_start])%list).
Proof.
  assert (H : create_ck (toy_lib false) false ["base.tm"] ["A"; "B"] 0 0 "out.bc" toy_start
              = (Raise SpiceyError, toy_failed)) by (vm_compute; reflexivity).
  split; [exact H|].
  exact (create_ck_closes_on_return (toy_lib false) false _ _ _ _ _ _ _ _ H).
Defined.

(** C4, as the claim states it, fails: when [ckw02] raises on the first
    segment, the handle that [ckopn] returned stays open. *)
Lemma create_ck_leaves_handle_open :
  ~ closes_on_every_exit (toy_lib false) false ["base.tm"] ["A"; "B"] 0 0 "out.bc" toy_start.
Proof.
  intros H.
  assert (Hrun : create_ck (toy_lib false) false ["base.tm"] ["A"; "B"] 0 0 "out.bc" toy_start
                 = (Raise SpiceyError, toy_failed)) by (vm_compute; reflexivity).
  apply H in Hrun. vm_compute in Hrun. discriminate Hrun.
Qed.

Lemma create_ck_empty_is_noop_witness :
  create_ck (toy_lib true) false ["base.tm"] [] 0 0 "out.bc" toy_start = (Ok tt, toy_noop)
  /\ exists evs,
       trace toy_noop = (trace toy_start ++ evs)%list
       /\ (Ok tt = Ok tt -> segments_written evs = [] ->
           Forall (fun e => is_call_ckopn e = false /\ is_call_ckcls e = false) evs
           /\ disk toy_noop = disk toy_start /\ ck_open toy_noop = ck_open toy_start)
       /\ (([] : list string) = [] \/ list_at (sheap toy_start) 0 = [] ->
           loadable (toy_lib true) toy_start ["base.tm"] -> "out.bc" ∉ disk toy_start ->
           (length (list_at (sheap toy_start) 0) <= length (list_at (dheap toy_start) 0))%nat ->
           Ok tt = Ok tt /\ segments_written evs = []).
Proof.
  assert (H : create_ck (toy_lib true) false ["base.tm"] [] 0 0 "out.bc" toy_start
              = (Ok tt, toy_noop)) by (vm_compute; reflexivity).
  split; [exact H|].
  exact (create_ck_empty_is_noop (toy_lib true) false _ _ _ _ _ _ _ _ H).
Defined.



(** The same statement holds of the run over three files, none of which
    is listed twice. *)
Lemma three_windows_sampled :
  samples_every_window (toy_lib true) toy_round toy_format_et ["base.tm"] ["A"] 0 0
    "out.bc" toy_three_start.
Proof.
  intros s' evs Hrun Htr last_et fk stop_et reffrm start lo hi Hin Hstart Hpol.
  assert (Hrun' : test_ck (toy_lib true) toy_round toy_format_et ["base.tm"] ["A"] 0 0
                    "out.bc" toy_three_start = (Ok tt, toy_three_tested))
    by (vm_compute; reflexivity).
  rewrite Hrun' in Hrun. injection Hrun as <-. clear Hrun'.
  change (trace toy_three_start) with ([] : list Event) in Htr.
  rewrite app_nil_l in Htr. subst evs.
  apply list_elem_of_In in Hin. vm_compute in Hin.
  destruct Hin as [E|[E|[E|[]]]]; injection E as <- <- <- <-.
  all: vm_compute in Hstart; injection Hstart as <-.
  all: unfold policy_epochs in Hpol;
    match type of Hpol with
    | if ?b then _ else _ => let v := eval vm_compute in b in change b with v in Hpol
    end; cbv iota in Hpol.
  1, 2: destruct Hpol as (delta & (Hd & Hle1 & Hle2) & -> & ->);
    destruct Hd as [-> | ->];
    first [ split; vm_compute; reflexivity
          | exfalso; vm_compute in Hle1, Hle2;
            first [discriminate Hle1|destruct Hle2 as [Hle2|Hle2]; discriminate Hle2] ].
  destruct Hpol as [-> ->]. split; vm_compute; reflexivity.
Qed.

(** C6: the norm that [test_ck] reports is not that of the difference
    of the quaternions.  On a CK and historical files that disagree in the
    fourth component only, the difference has norm 1 and the run prints
    the error 0.0 for all eight samples, since [sp.vnorm] reads three
    items; and with a binding of [sp.vnorm] that checks the size of its
    argument the same run raises at its first sample and prints
    nothing. *)
Theorem test_ck_norm_leaves_out_a_component :
  (forall relative_reffrm reffrm et,
     quat_at toy_lib_turned ["base.tm"; "out.bc"] relative_reffrm reffrm et
     = Some (0.5%float, 0.5%float, 0.5%float, 0.5%float)
     /\ quat_at toy_lib_turned ["old1.tf"] relative_reffrm reffrm et
        = Some (0.5%float, 0.5%float, 0.5%float, PrimFloat.opp 0.5%float)
     /\ quat_at toy_lib_turned ["old2.tf"] relative_reffrm reffrm et
        = Some (0.5%float, 0.5%float, 0.5%float, PrimFloat.opp 0.5%float))
  /\ toy_round
       (quat_norm (quat_sub (0.5%float, 0.5%float, 0.5%float, 0.5%float)
                     (0.5%float, 0.5%float, 0.5%float, PrimFloat.opp 0.5%float))) 16
     = 1%float
  /\ test_ck toy_lib_turned toy_round toy_format_et ["base.tm"] ["A"; "B"] 0 0 "out.bc"
       toy_test_start = (Ok tt, toy_turned_tested)
  /\ map rp_quat_error (stdout toy_turned_tested)
     = [0%float; 0%float; 0%float; 0%float; 0%float; 0%float; 0%float; 0%float]
  /\ test_ck (with_vnorm_sized true toy_lib_turned) toy_round toy_format_et
       ["base.tm"] ["A"; "B"] 0 0 "out.bc" toy_test_start
     = (Raise ArgumentError, toy_sized_tested)
  /\ stdout toy_sized_tested = [].
Proof.
  split; [intros relative_reffrm reffrm et; repeat split; reflexivity|].
  repeat split; vm_compute; reflexivity.
Qed.


Lemma main_checks_the_lists_witness :
  main (toy_lib true) false toy_round toy_format_et toy_script toy_argv toy_main_start
  = (Ok tt, toy_main_tested)
  /\ checks_lists (toy_lib true) toy_script toy_argv toy_main_start (Ok tt) toy_main_tested.
Proof.
  assert (H : main (toy_lib true) false toy_round toy_format_et toy_script toy_argv
                toy_main_start = (Ok tt, toy_main_tested)) by (vm_compute; reflexivity).
  split; [exact H|].
  apply (main_checks_the_lists (toy_lib true) false toy_round toy_format_et toy_script
           toy_argv toy_main_start (Ok tt) toy_main_tested ["A"; "B"] H).
  - repeat constructor.
  - reflexivity.
  - discriminate.
Defined.

Lemma main_runs_each_phase_on_copies_witness :
  runs_on_copies (fun a b => create_ck (toy_lib true) false ["base.tm"] ["A"; "B"] a b "out.bc")
    0 0 ["old2.tf"; "old1.tf"] [PrimFloat.opp 1e32%float; 100%float]
    toy_main_ready (Ok tt) toy_main_created
  /\ runs_on_copies
       (fun a b => test_ck (toy_lib true) toy_round toy_format_et ["base.tm"] ["A"; "B"] a b
                     "out.bc")
       0 0 ["old2.tf"; "old1.tf"] [PrimFloat.opp 1e32%float; 100%float]
       toy_main_created (Ok tt) toy_main_tested
  /\ main (toy_lib true) false toy_round toy_format_et toy_script toy_argv toy_main_start
     = (Ok tt, toy_main_tested).
Proof.
  assert (H1 : main_setup (toy_lib true) toy_script toy_argv toy_main_start
               = (Ok (["base.tm"], ["A"; "B"], 0%nat, 0%nat, "out.bc"), toy_main_ready))
    by (vm_compute; reflexivity).
  assert (H2 : main_create (toy_lib true) false
                 (["base.tm"], ["A"; "B"], 0%nat, 0%nat, "out.bc") toy_main_ready
               = (Ok tt, toy_main_created)) by (vm_compute; reflexivity).
  assert (H3 : main_test (toy_lib true) toy_round toy_format_et
                 (["base.tm"], ["A"; "B"], 0%nat, 0%nat, "out.bc") toy_main_created
               = (Ok tt, toy_main_tested)) by (vm_compute; reflexivity).
  destruct (main_runs_each_phase_on_copies (toy_lib true) false toy_round toy_format_et
              toy_script _ _ _ _ _ _ _ _ _ _ _ H1 H2 H3) as (_ & _ & _ & Hc & Ht & Hm).
  split; [exact Hc|]. split; [exact Ht|].
  apply Hm; vm_compute; repeat constructor.
Defined.

(** ** The window loop, for any property of its jobs

    A property [P jobs ck s r s'] of a run over [jobs] that starts with
    the handle variable at [ck]: when it holds of one frame, of no job,
    and of runs put end to end, it holds of the window loop. *)
Section JobLoop.
Context (lib : SpiceLib).
Variable doVerbose : bool.
Variable output_ck : string.
Variable P : list Job -> option Z -> State -> outcome (option Z) -> State -> Prop.

Hypothesis P_nil : forall ck s, P [] ck s (Ok ck) s.
Hypothesis P_seq : forall jobs1 jobs2 ck res1 r s s1 s2,
  P jobs1 ck s (Ok res1) s1 -> P jobs2 res1 s1 r s2 -> P (jobs1 ++ jobs2) ck s r s2.
Hypothesis P_raise_more : forall jobs1 jobs2 ck e s s',
  P jobs1 ck s (Raise e) s' -> P (jobs1 ++ jobs2) ck s (Raise e) s'.
Hypothesis P_fuel : forall jobs ck s s', ~ P jobs ck s OutOfFuel s'.
Hypothesis P_popped : forall jobs ck s r s' sh dh,
  P jobs ck (set_dheap dh (set_sheap sh s)) r s' -> P jobs ck s r s'.
Hypothesis P_pop_failed : forall jobs ck s sh,
  P jobs ck s (Raise IndexError) (set_sheap sh s).
Hypothesis P_frame : forall fk stop_et last_et ck reffrm s,
  wp (create_ck_frame lib doVerbose fk stop_et last_et output_ck ck reffrm) s
     (P [(last_et, fk, stop_et, reffrm)] ck s).

Lemma frames_have fk stop_et last_et frames :
  forall ck s,
    wp (for_fold frames ck (create_ck_frame lib doVerbose fk stop_et last_et output_ck)) s
       (P (map (fun reffrm => (last_et, fk, stop_et, reffrm)) frames) ck s).
Proof.
  induction frames as [|reffrm frames IH]; intros ck s; simpl.
  - apply wp_ret, P_nil.
  - apply wp_bind. eapply wp_mono; [apply P_frame|].
    intros r s1 H1. change (?j :: ?js) with ([j] ++ js)%list.
    destruct r as [res1|e|].
    + eapply wp_mono; [apply IH|]. intros r s2 H2. eapply P_seq; eassumption.
    + by apply P_raise_more.
    + by apply P_fuel in H1.
Qed.

Lemma loop_has frames fks stop_ets :
  forall fuel last_et ck s,
    (length (list_at (sheap s) fks) <= fuel)%nat ->
    wp (create_ck_loop lib doVerbose fuel frames fks stop_ets output_ck last_et ck) s
       (P (schedule last_et
             (windows (list_at (sheap s) fks) (list_at (dheap s) stop_ets)) frames) ck s).
Proof.
  induction fuel as [|fuel IH]; intros last_et ck s Hfuel.
  - destruct (list_at (sheap s) fks) as [|x l] eqn:El; [|simpl in Hfuel; lia].
    unfold create_ck_loop. apply wp_bind, wp_read_slist. rewrite El.
    apply wp_ret. rewrite windows_nil_l. apply P_nil.
  - cbn [create_ck_loop]. apply wp_bind, wp_read_slist.
    destruct (list_at (sheap s) fks) as [|x0 l0] eqn:El.
    { apply wp_ret. rewrite windows_nil_l. apply P_nil. }
    assert (Hlt : (fks < length (sheap s))%nat) by (apply list_at_lt; congruence).
    apply wp_bind, wp_pop_slist; [|congruence].
    intros fk fks' Efks. rewrite El in Efks.
    apply wp_bind, wp_pop_dlist.
    + intros stop_et stops' Estops. cbn in Estops.
      assert (Hlt' : (stop_ets < length (dheap s))%nat).
      { apply list_at_lt. rewrite Estops. by destruct stops'. }
      apply wp_bind.
      eapply wp_mono;
        [apply wp_conj; [apply create_ck_frames_spec|apply frames_have]|].
      intros r s1 ((Hs1 & Hd1 & _) & H1). cbn in Hs1, Hd1.
      rewrite Efks, Estops, windows_snoc. cbn [schedule].
      destruct r as [res1|e|].
      * eapply wp_mono; [apply IH|].
        { rewrite Hs1, list_at_insert by assumption.
          rewrite Efks, length_app in Hfuel. simpl in Hfuel. lia. }
        intros r s2 H2.
        rewrite Hs1, Hd1, !list_at_insert in H2 by assumption.
        eapply P_popped, P_seq; [exact H1|exact H2].
      * eapply P_popped, P_raise_more. exact H1.
      * by apply P_fuel in H1.
    + intros Estops. apply P_pop_failed.
Qed.

End JobLoop.

(** A run of [create_ck], cut at its window loop. *)
Lemma create_ck_run lib doVerbose kernels frames fks stop_ets output_ck s r s' :
  create_ck lib doVerbose kernels frames fks stop_ets output_ck s = (r, s') ->
  (exists e, for_each kernels (furnsh lib) s = (Raise e, s') /\ r = Raise e)
  \/ exists s0,
       for_each kernels (furnsh lib) s = (Ok tt, s0)
       /\ ((output_ck ∈ disk s0
            /\ r = Raise (KeyError (KStr (overwrite_message output_ck)))
            /\ s' = log_call (Exists output_ck) true s0)
           \/ ((output_ck ∉ disk s0) /\
               exists r1 s1,
                 create_ck_loop lib doVerbose (length (list_at (sheap s0) fks)) frames
                   fks stop_ets output_ck None None (log_call (Exists output_ck) true s0)
                 = (r1, s1)
                 /\ match r1 with
                    | Ok (Some h) => ckcls lib h s1 = (r, s')
                    | Ok None => r = Ok tt /\ s' = s1
                    | Raise e => r = Raise e /\ s' = s1
                    | OutOfFuel => r = OutOfFuel /\ s' = s1
                    end)).
Proof.
  intros Hrun. unfold create_ck in Hrun.
  apply bind_run in Hrun as [([] & s0 & Hl & Hrun)|[(e & Hl & ->)|(Hl & ->)]].
  - right. exists s0. split; [exact Hl|].
    apply bind_run in Hrun as [(there & s0' & He & Hrun)|[(e & He & _)|(He & _)]];
      [|discriminate He|discriminate He].
    injection He as <- <-.
    destruct (decide (output_ck ∈ disk s0)) as [Hin|Hout].
    + left. rewrite bool_decide_eq_true_2 in Hrun by assumption. simpl in Hrun.
      injection Hrun as <- <-. by repeat split.
    + right. split; [exact Hout|].
      rewrite bool_decide_eq_false_2 in Hrun by assumption. simpl in Hrun.
      change (bind (ret tt) ?k ?s) with (k tt s) in Hrun. cbv beta in Hrun.
      apply bind_run in Hrun as [(l & s0' & Hr & Hrun)|[(e & Hr & _)|(Hr & _)]];
        [|discriminate Hr|discriminate Hr].
      injection Hr as <- <-.
      apply bind_run in Hrun as [(res & s1 & Hloop & Hrun)|[(e & Hloop & ->)|(Hloop & ->)]].
      * exists (Ok res), s1. split; [exact Hloop|].
        destruct res as [h|]; [exact Hrun|]. injection Hrun as <- <-. by split.
      * exists (Raise e), s'. by repeat split.
      * exists OutOfFuel, s'. by repeat split.
  - left. by exists e.
  - exfalso. pose proof (wp_run _ _ _ _ _ (load_kernels_spec lib kernels s) Hl) as (_ & ? & _ & _ & []).
Qed.

(** ** What a segment holds *)

Section SegmentContents.
Context (lib : SpiceLib).
Variable doVerbose : bool.
Variable output_ck : string.

Lemma segments_post_nil ck s : segments_post lib output_ck [] ck s (Ok ck) s.
Proof.
  split; [apply jobs_post_nil|]. exists [], []. rewrite app_nil_r.
  split; [reflexivity|]. split; [reflexivity|]. split; [reflexivity|constructor].
Qed.

Lemma segments_post_seq jobs1 jobs2 ck res1 r s s1 s2 :
  segments_post lib output_ck jobs1 ck s (Ok res1) s1 ->
  segments_post lib output_ck jobs2 res1 s1 r s2 ->
  segments_post lib output_ck (jobs1 ++ jobs2) ck s r s2.
Proof.
  intros (Hj1 & evs1 & done1 & Htr1 & _ & -> & Hs1) (Hj2 & evs2 & done2 & Htr2 & Hp2 & Hd2 & Hs2).
  split; [by eapply jobs_post_seq|].
  assert (Hk : keeper s1 = keeper s) by (by destruct Hj1 as (_ & ? & _ & _ & ? & _)).
  exists (evs1 ++ evs2)%list, (jobs1 ++ done2)%list.
  split; [by rewrite Htr2, Htr1, app_assoc|].
  split; [by apply prefix_app|].
  split; [destruct r; [by rewrite Hd2|exact I|exact I]|].
  rewrite segments_written_app. apply Forall2_app; [exact Hs1|]. by rewrite <- Hk.
Qed.

Lemma segments_post_raise_more jobs1 jobs2 ck e s s' :
  segments_post lib output_ck jobs1 ck s (Raise e) s' ->
  segments_post lib output_ck (jobs1 ++ jobs2) ck s (Raise e) s'.
Proof.
  intros (Hj & evs & done & Htr & Hp & _ & Hs).
  split; [by apply jobs_post_raise_more|].
  exists evs, done. split; [exact Htr|]. split; [by apply prefix_app_r|]. by split.
Qed.

Lemma segments_post_frame fk stop_et last_et ck reffrm s :
  wp (create_ck_frame lib doVerbose fk stop_et last_et output_ck ck reffrm) s
     (segments_post lib output_ck [(last_et, fk, stop_et, reffrm)] ck s).
Proof.
  apply wp_conj.
  { eapply wp_mono; [apply create_ck_frame_spec|]. by intros r s' (_ & _ & H). }
  unfold create_ck_frame.
  repeat wp_step.
  all: cbn in *; rewrite ?remove_last_snoc in *.
  all: rewrite <- ?app_assoc; cbn.
  all: eexists; try (exists []; split; [reflexivity|]; cbn;
                     split; [apply prefix_nil|]; split; [exact I|constructor]).
  all: exists [(last_et, fk, stop_et, reffrm)]; subst.
  all: split; [reflexivity|]; split; [reflexivity|]; split; [reflexivity|].
  all: unfold segments_written; cbn; constructor; [|constructor].
  all: unfold segment_of, resolve_clock; cbn.
  all: do 7 eexists.
  all: repeat match goal with
              | |- _ /\ _ => split
              | H : ?x = Some _ |- context [?x] => rewrite H; cbn
              end; try eassumption; try reflexivity.
Qed.

Lemma segments_post_loop frames fks stop_ets :
  forall fuel last_et ck s,
    (length (list_at (sheap s) fks) <= fuel)%nat ->
    wp (create_ck_loop lib doVerbose fuel frames fks stop_ets output_ck last_et ck) s
       (segments_post lib output_ck
          (schedule last_et
             (windows (list_at (sheap s) fks) (list_at (dheap s) stop_ets)) frames) ck s).
Proof.
  apply (loop_has lib doVerbose output_ck (segments_post lib output_ck)).
  - apply segments_post_nil.
  - apply segments_post_seq.
  - apply segments_post_raise_more.
  - intros jobs ck s s' ((_ & evs & _ & _ & []) & _).
  - intros jobs ck s r s' sh dh H. exact H.
  - intros jobs ck s sh. split; [by apply jobs_post_raise_now|].
    exists [], []. rewrite app_nil_r.
    split; [reflexivity|]. split; [apply prefix_nil|]. split; [exact I|constructor].
  - apply segments_post_frame.
Qed.

(** The events of loading kernels. *)
Lemma load_kernels_run kernels s r s0 :
  for_each kernels (furnsh lib) s = (r, s0) ->
  same_files s s0
  /\ exists pre, trace s0 = (trace s ++ pre)%list
        /\ Forall (fun e => is_call_furnsh e = true) pre
        /\ (r = Ok tt -> keeper s0 = (keeper s ++ kernels)%list).
Proof.
  intros Hl. pose proof (wp_run _ _ _ _ _ (load_kernels_spec lib kernels s) Hl)
    as (Hsame & pre & Htr & Hpre & Hr).
  split; [exact Hsame|]. exists pre. split; [exact Htr|]. split; [exact Hpre|].
  by intros ->.
Qed.

(** X1: the segments that [create_ck] writes are those of the windows and
    frames, in order; each names the frame id and the relative frame that
    the pool gives for its frame, carries the quaternion of the rotation
    read with the historical file loaded, and holds one record that
    spans the segment, with zero angular velocity and the tick rate of
    the clock. *)
Theorem create_ck_segment_contents kernels frames fks stop_ets s r s' :
  create_ck lib doVerbose kernels frames fks stop_ets output_ck s = (r, s') ->
  exists evs done,
    trace s' = (trace s ++ evs)%list
    /\ done `prefix_of`
         schedule None (windows (list_at (sheap s) fks) (list_at (dheap s) stop_ets)) frames
    /\ (r = Ok tt ->
        done = schedule None
                 (windows (list_at (sheap s) fks) (list_at (dheap s) stop_ets)) frames)
    /\ Forall2 (segment_of lib (keeper s ++ kernels)) done (segments_written evs).
Proof.
  intros Hrun.
  destruct (create_ck_run _ _ _ _ _ _ _ _ _ _ Hrun)
    as [(e & Hl & ->)|(s0 & Hl & H)];
    destruct (load_kernels_run _ _ _ _ Hl) as (Hsame & pre & Htr & Hpre & Hk);
    destruct (furnsh_events_write_nothing _ Hpre) as (Hw & _ & _).
  - exists pre, []. rewrite Hw. split; [exact Htr|]. split; [apply prefix_nil|].
    split; [discriminate|constructor].
  - specialize (Hk eq_refl). destruct Hsame as (_ & _ & _ & _ & Hsh & Hdh).
    destruct H as [(_ & -> & ->)|(_ & r1 & s1 & Hloop & Hclose)].
    + eexists (pre ++ [_])%list, []. cbn. rewrite Htr, <- app_assoc.
      split; [reflexivity|]. split; [apply prefix_nil|]. split; [discriminate|].
      rewrite segments_written_app, Hw. constructor.
    + pose proof (wp_run _ _ _ _ _
                    (segments_post_loop frames fks stop_ets _ None None
                       (log_call (Exists output_ck) true s0) (Nat.le_refl _)) Hloop)
        as (_ & evs & done & Htr1 & Hp & Hd & Hs).
      cbn in Htr1, Hp, Hd, Hs. rewrite Hsh, Hdh in Hp, Hd. rewrite Hk in Hs.
      assert (Hseg : forall post, segments_written post = [] ->
                 trace s' = (trace s1 ++ post)%list ->
                 (r = Ok tt -> exists res, r1 = Ok res) ->
                 exists evs0 done0,
                   trace s' = (trace s ++ evs0)%list
                   /\ done0 `prefix_of`
                        schedule None
                          (windows (list_at (sheap s) fks) (list_at (dheap s) stop_ets)) frames
                   /\ (r = Ok tt ->
                       done0 = schedule None
                                 (windows (list_at (sheap s) fks)
                                    (list_at (dheap s) stop_ets)) frames)
                   /\ Forall2 (segment_of lib (keeper s ++ kernels)) done0
                        (segments_written evs0)).
      { intros post Hpost Htr' Hres.
        exists (pre ++ [mkEvent (Exists output_ck) (keeper s0) true] ++ evs ++ post)%list, done.
        split; [rewrite Htr', Htr1, Htr; by rewrite <- !app_assoc|].
        split; [exact Hp|]. split.
        - intros Hr. destruct (Hres Hr) as (res & ->). exact Hd.
        - rewrite !segments_written_app, Hw, Hpost, app_nil_r. exact Hs. }
      destruct r1 as [[h|]|e|].
      * unfold ckcls in Hclose.
        destruct (bool_decide (h ∈ ck_open s1) && lib_ckcls_ok lib h)%bool;
          injection Hclose as <- <-; cbn;
          (eapply (Hseg [_]); [|reflexivity|by eexists]; reflexivity).
      * destruct Hclose as (-> & ->). apply (Hseg []); [reflexivity|by rewrite app_nil_r|by eexists].
      * destruct Hclose as (-> & ->). apply (Hseg []); [reflexivity|by rewrite app_nil_r|discriminate].
      * destruct Hclose as (-> & ->). apply (Hseg []); [reflexivity|by rewrite app_nil_r|discriminate].
Qed.

End SegmentContents.

(** ** The output file is opened once *)

Lemma file_scan_app output_ck h m evs1 evs2 :
  file_scan output_ck h m (evs1 ++ evs2)%list
  = match file_scan output_ck h m evs1 with
    | Some m' => file_scan output_ck h m' evs2
    | None => None
    end.
Proof.
  revert m. induction evs1 as [|e evs1 IH]; intros m; simpl; [reflexivity|].
  destruct (file_step output_ck h m e); [apply IH|reflexivity].
Qed.

Lemma file_scan_furnsh output_ck h m evs :
  Forall (fun e => is_call_furnsh e = true) evs -> file_scan output_ck h m evs = Some m.
Proof.
  induction 1 as [|e evs He _ IH]; [reflexivity|].
  destruct e as [[] loaded ok]; try discriminate. simpl. by destruct m.
Qed.

Section OneFile.
Context (lib : SpiceLib).
Variable doVerbose : bool.
Variable output_ck : string.

Lemma file_post_nil ck s : file_post lib output_ck [] ck s (Ok ck) s.
Proof.
  split; [apply jobs_post_nil|]. intros h _. exists []. rewrite app_nil_r.
  split; [reflexivity|]. split; [reflexivity|by left].
Qed.

Lemma file_post_seq jobs1 jobs2 ck res1 r s s1 s2 :
  file_post lib output_ck jobs1 ck s (Ok res1) s1 ->
  file_post lib output_ck jobs2 res1 s1 r s2 ->
  file_post lib output_ck (jobs1 ++ jobs2) ck s r s2.
Proof.
  intros (Hj1 & H1) (Hj2 & H2). split; [by eapply jobs_post_seq|].
  intros h Hh. destruct (H1 h Hh) as (evs1 & Htr1 & Hscan1 & Hres1).
  assert (Hh1 : handle_of res1 s1 h).
  { destruct Hres1 as [->| ->]; [|reflexivity].
    destruct ck as [h0|]; [exact Hh|]. simpl in *.
    destruct Hj1 as (_ & ? & _ & _ & _ & _ & _ & [(_ & _ & Hn & _)|([=] & _)]).
    by rewrite Hn. }
  destruct (H2 h Hh1) as (evs2 & Htr2 & Hr).
  exists (evs1 ++ evs2)%list. split; [by rewrite Htr2, Htr1, app_assoc|].
  rewrite file_scan_app, Hscan1.
  destruct r as [res|e|]; [|exact Hr|exact Hr].
  destruct Hr as (Hscan2 & Hres2). split; [exact Hscan2|].
  destruct Hres2 as [->| ->]; [exact Hres1|by right].
Qed.

Lemma file_post_raise_more jobs1 jobs2 ck e s s' :
  file_post lib output_ck jobs1 ck s (Raise e) s' ->
  file_post lib output_ck (jobs1 ++ jobs2) ck s (Raise e) s'.
Proof. intros (Hj & H). split; [by apply jobs_post_raise_more|exact H]. Qed.

Lemma file_post_frame fk stop_et last_et ck reffrm s :
  wp (create_ck_frame lib doVerbose fk stop_et last_et output_ck ck reffrm) s
     (file_post lib output_ck [(last_et, fk, stop_et, reffrm)] ck s).
Proof.
  apply wp_conj.
  { eapply wp_mono; [apply create_ck_frame_spec|]. by intros r s' (_ & _ & H). }
  unfold create_ck_frame.
  repeat wp_step.
  all: cbn in *; rewrite <- ?app_assoc; cbn.
  all: intros h Hh; eexists; (split; [reflexivity|]).
  all: subst; cbn in *; subst; cbn; rewrite ?String.eqb_refl, ?Z.eqb_refl; cbn.
  all: try (destruct ck; cbn in *; subst; cbn; rewrite ?String.eqb_refl, ?Z.eqb_refl; cbn).
  all: try discriminate.
  all: try (split; [reflexivity|]).
  all: auto.
Qed.

Lemma file_post_loop frames fks stop_ets :
  forall fuel last_et ck s,
    (length (list_at (sheap s) fks) <= fuel)%nat ->
    wp (create_ck_loop lib doVerbose fuel frames fks stop_ets output_ck last_et ck) s
       (file_post lib output_ck
          (schedule last_et
             (windows (list_at (sheap s) fks) (list_at (dheap s) stop_ets)) frames) ck s).
Proof.
  apply (loop_has lib doVerbose output_ck (file_post lib output_ck)).
  - apply file_post_nil.
  - apply file_post_seq.
  - apply file_post_raise_more.
  - intros jobs ck s s' ((_ & evs & _ & _ & []) & _).
  - intros jobs ck s r s' sh dh H. exact H.
  - intros jobs ck s sh. split; [by apply jobs_post_raise_now|].
    intros h _. exists []. rewrite app_nil_r. split; [reflexivity|].
    destruct ck; [by right|by left].
  - apply file_post_frame.
Qed.

(** X2: in a run of [create_ck] the output file is opened at most once,
    at the output path; every segment is written through the handle that
    the open returned, while the file is open; the close is on that
    handle, and nothing is opened, written or closed after it.  A run
    that returns has not opened the file, having written no segment, or
    has closed it, having written some. *)
Theorem create_ck_opens_once kernels frames fks stop_ets s r s' :
  create_ck lib doVerbose kernels frames fks stop_ets output_ck s = (r, s') ->
  exists evs m,
    trace s' = (trace s ++ evs)%list
    /\ file_scan output_ck (ck_next s) NotOpen evs = Some m
    /\ (r = Ok tt ->
        (m = NotOpen /\ segments_written evs = [])
        \/ (m = Closed /\ segments_written evs <> []))
    /\ (m = Closed -> r = Ok tt).
Proof.
  intros Hrun.
  destruct (create_ck_run _ _ _ _ _ _ _ _ _ _ Hrun)
    as [(e & Hl & ->)|(s0 & Hl & H)];
    destruct (load_kernels_run _ _ _ _ _ Hl) as (Hsame & pre & Htr & Hpre & Hk);
    pose proof (file_scan_furnsh output_ck (ck_next s) NotOpen _ Hpre) as Hfpre.
  - exists pre, NotOpen. split; [exact Htr|]. split; [exact Hfpre|].
    split; discriminate.
  - destruct Hsame as (_ & _ & Hn & _ & Hsh & Hdh).
    destruct H as [(_ & -> & ->)|(_ & r1 & s1 & Hloop & Hclose)].
    + eexists (pre ++ [_])%list, NotOpen. cbn. rewrite Htr, <- app_assoc.
      split; [reflexivity|]. rewrite file_scan_app, Hfpre.
      split; [reflexivity|]. split; discriminate.
    + pose proof (wp_run _ _ _ _ _
                    (file_post_loop frames fks stop_ets _ None None
                       (log_call (Exists output_ck) true s0) (Nat.le_refl _)) Hloop)
        as (Hj & Hf).
      destruct (Hf (ck_next s)) as (evs & Htr1 & Hr1); [simpl; by rewrite Hn|].
      cbn in Htr1.
      destruct Hj as (_ & evs' & Htr1' & _ & Hj). cbn in Htr1'.
      rewrite Htr1 in Htr1'. apply app_inv_head in Htr1'. subst evs'.
      destruct (furnsh_events_write_nothing _ Hpre) as (Hw & _ & _).
      set (ex := mkEvent (Exists output_ck) (keeper s0) true) in *.
      assert (Hscan : forall m post,
                 file_scan output_ck (ck_next s) NotOpen evs = Some m ->
                 file_scan output_ck (ck_next s) NotOpen (pre ++ [ex] ++ evs ++ post)%list
                 = file_scan output_ck (ck_next s) m post).
      { intros m post Hm. rewrite file_scan_app, Hfpre. simpl. by rewrite file_scan_app, Hm. }
      assert (Htrace : forall post,
                 trace s' = (trace s1 ++ post)%list ->
                 trace s' = (trace s ++ pre ++ [ex] ++ evs ++ post)%list).
      { intros post ->. rewrite Htr1, Htr. by rewrite <- !app_assoc. }
      assert (Hsegs : forall post, segments_written post = [] ->
                 segments_written (pre ++ [ex] ++ evs ++ post)%list = segments_written evs).
      { intros post Hp. by rewrite !segments_written_app, Hw, Hp, app_nil_r. }
      destruct r1 as [[h|]|e|]; [| | |destruct Hr1].
      * destruct Hr1 as (Hm & [[=]|[= ->]]).
        destruct Hj as (_ & _ & _ & [([=] & _)|(_ & Hne & _)]).
        unfold ckcls in Hclose.
        destruct (bool_decide (ck_next s ∈ ck_open s1) && lib_ckcls_ok lib (ck_next s))%bool;
          injection Hclose as <- <-.
        -- exists (pre ++ [ex] ++ evs ++ [mkEvent (Ckcls (ck_next s)) (keeper s1) true])%list,
             Closed.
           split; [apply Htrace; reflexivity|].
           split; [rewrite (Hscan _ _ Hm); cbn; by rewrite Z.eqb_refl|].
           split; [|reflexivity].
           intros _. right. split; [reflexivity|]. by rewrite Hsegs.
        -- exists (pre ++ [ex] ++ evs ++ [mkEvent (Ckcls (ck_next s)) (keeper s1) false])%list,
             IsOpen.
           split; [apply Htrace; reflexivity|].
           split; [rewrite (Hscan _ _ Hm); cbn; by rewrite Z.eqb_refl|].
           split; discriminate.
      * destruct Hclose as (-> & ->). destruct Hr1 as (Hm & _).
        destruct Hj as (_ & _ & _ & [(_ & -> & _)|([=] & _)]).
        exists (pre ++ [ex] ++ [] ++ [])%list, NotOpen.
        split; [apply Htrace; by rewrite app_nil_r|].
        rewrite (Hscan _ _ Hm). split; [reflexivity|]. split; [|discriminate].
        intros _. left. split; [reflexivity|]. by rewrite (Hsegs []).
      * destruct Hclose as (-> & ->).
        destruct Hr1 as [Hm|Hm].
        -- exists (pre ++ [ex] ++ evs ++ [])%list, NotOpen.
           split; [apply Htrace; by rewrite app_nil_r|].
           rewrite (Hscan _ _ Hm). split; [reflexivity|]. split; discriminate.
        -- exists (pre ++ [ex] ++ evs ++ [])%list, IsOpen.
           split; [apply Htrace; by rewrite app_nil_r|].
           rewrite (Hscan _ _ Hm). split; [reflexivity|]. split; discriminate.
Qed.

End OneFile.

(** ** The exceptions of [create_ck] *)

Section Exceptions.
Context (lib : SpiceLib).
Variable doVerbose : bool.
Variable output_ck : string.

Lemma loop_raises_frame fk stop_et last_et ck reffrm s :
  wp (create_ck_frame lib doVerbose fk stop_et last_et output_ck ck reffrm) s
     (loop_raises doVerbose [(last_et, fk, stop_et, reffrm)] ck s).
Proof.
  unfold create_ck_frame.
  repeat wp_step.
  all: cbn; unfold loop_error; auto.
  all: right; right; split; [reflexivity|].
  all: match goal with H : (doVerbose && _)%bool = true |- _ =>
         by apply andb_true_iff in H as [? _] end.
Qed.

Lemma loop_raises_loop frames fks stop_ets :
  forall fuel last_et ck s,
    (length (list_at (sheap s) fks) <= fuel)%nat ->
    wp (create_ck_loop lib doVerbose fuel frames fks stop_ets output_ck last_et ck) s
       (loop_raises doVerbose
          (schedule last_et
             (windows (list_at (sheap s) fks) (list_at (dheap s) stop_ets)) frames) ck s).
Proof.
  apply (loop_has lib doVerbose output_ck (loop_raises doVerbose)).
  - intros ck s. exact I.
  - intros jobs1 jobs2 ck res1 r s s1 s2 _ H. exact H.
  - intros jobs1 jobs2 ck e s s' H. exact H.
  - intros jobs ck s s' H. exact H.
  - intros jobs ck s r s' sh dh H. exact H.
  - intros jobs ck s sh. right. by left.
  - apply loop_raises_frame.
Qed.

(** X3: a run of [create_ck] ends, and when it raises, it raises the
    error of a toolkit call, an index error (an empty answer from the
    pool, or no stop time left for a file), the [KeyError] of line 88
    when a file exists at the output path, or, with VERBOSE set, a
    division by zero; it never raises an [AssertionError]. *)
Theorem create_ck_exceptions kernels frames fks stop_ets s r s' :
  create_ck lib doVerbose kernels frames fks stop_ets output_ck s = (r, s') ->
  r <> OutOfFuel
  /\ forall e, r = Raise e ->
       e = SpiceyError \/ e = IndexError
       \/ (e = KeyError (KStr (overwrite_message output_ck)) /\ output_ck ∈ disk s)
       \/ (e = ZeroDivisionError /\ doVerbose = true).
Proof.
  intros Hrun.
  destruct (create_ck_run _ _ _ _ _ _ _ _ _ _ Hrun) as [(e & Hl & ->)|(s0 & Hl & H)].
  - pose proof (wp_run _ _ _ _ _ (load_kernels_spec lib kernels s) Hl)
      as (_ & _ & _ & _ & -> & _).
    split; [discriminate|]. intros e [= <-]. by left.
  - destruct (load_kernels_run _ _ _ _ _ Hl) as ((Hd & _) & _).
    destruct H as [(Hin & -> & _)|(_ & r1 & s1 & Hloop & Hclose)].
    + split; [discriminate|]. intros e [= <-]. right. right. left. by rewrite <- Hd.
    + pose proof (wp_run _ _ _ _ _
                    (loop_raises_loop frames fks stop_ets _ None None
                       (log_call (Exists output_ck) true s0) (Nat.le_refl _)) Hloop) as Hr1.
      destruct r1 as [[h|]|e|]; [| | |destruct Hr1].
      * unfold ckcls in Hclose.
        destruct (bool_decide (h ∈ ck_open s1) && lib_ckcls_ok lib h)%bool;
          injection Hclose as <- <-; (split; [discriminate|]); intros e [= <-]. by left.
      * destruct Hclose as (-> & _). split; discriminate.
      * destruct Hclose as (-> & _). split; [discriminate|]. intros e' [= <-].
        destruct Hr1 as [->|[->|H]]; auto.
Qed.

End Exceptions.

(** ** Fewer stop times than files *)

Section ShortStopTimes.
Context (lib : SpiceLib).

Lemma create_ck_loop_short doVerbose frames fks stop_ets output_ck :
  forall fuel last_et ck s,
    (length (list_at (dheap s) stop_ets) < length (list_at (sheap s) fks))%nat ->
    wp (create_ck_loop lib doVerbose fuel frames fks stop_ets output_ck last_et ck) s
       (fun r _ => forall res, r <> Ok res).
Proof.
  induction fuel as [|fuel IH]; intros last_et ck s Hshort.
  - unfold create_ck_loop. apply wp_bind, wp_read_slist.
    destruct (list_at (sheap s) fks) as [|x l] eqn:El; [simpl in Hshort; lia|].
    discriminate.
  - cbn [create_ck_loop]. apply wp_bind, wp_read_slist.
    destruct (list_at (sheap s) fks) as [|x0 l0] eqn:El; [simpl in Hshort; lia|].
    assert (Hlt : (fks < length (sheap s))%nat) by (apply list_at_lt; congruence).
    apply wp_bind, wp_pop_slist; [|congruence].
    intros fk fks' Efks. rewrite El in Efks.
    apply wp_bind, wp_pop_dlist; [|discriminate].
    intros stop_et stops' Estops. cbn in Estops.
    assert (Hlt' : (stop_ets < length (dheap s))%nat).
    { apply list_at_lt. rewrite Estops. by destruct stops'. }
    apply wp_bind.
    eapply wp_mono; [apply create_ck_frames_spec|].
    intros r s1 (Hs1 & Hd1 & _). cbn in Hs1, Hd1.
    destruct r as [res1|e|]; [|discriminate|discriminate].
    apply IH. rewrite Hs1, Hd1, !list_at_insert by assumption.
    rewrite Efks, Estops, !length_app in Hshort. simpl in Hshort. lia.
Qed.

Lemma test_ck_loop_short frames fks stop_ets :
  forall fuel last_et dt s,
    (length (list_at (dheap s) stop_ets) < length (list_at (sheap s) fks))%nat ->
    wp (test_ck_loop lib fuel frames fks stop_ets last_et dt) s
       (fun r _ => forall res, r <> Ok res).
Proof.
  induction fuel as [|fuel IH]; intros last_et dt s Hshort.
  - unfold test_ck_loop. apply wp_bind, wp_read_slist.
    destruct (list_at (sheap s) fks) as [|x l] eqn:El; [simpl in Hshort; lia|].
    discriminate.
  - cbn [test_ck_loop]. apply wp_bind, wp_read_slist.
    destruct (list_at (sheap s) fks) as [|x0 l0] eqn:El; [simpl in Hshort; lia|].
    assert (Hlt : (fks < length (sheap s))%nat) by (apply list_at_lt; congruence).
    apply wp_bind, wp_pop_slist; [|congruence].
    intros fk fks' Efks. rewrite El in Efks.
    apply wp_bind, wp_pop_dlist; [|discriminate].
    intros stop_et stops' Estops. cbn in Estops.
    assert (Hlt' : (stop_ets < length (dheap s))%nat).
    { apply list_at_lt. rewrite Estops. by destruct stops'. }
    apply wp_bind.
    eapply wp_mono.
    { apply (test_ck_frames_spec lib fk stop_et last_et frames _ []).
      apply dict_get_set, String.eqb_refl. }
    intros r s1 (Hs1 & Hd1 & _). cbn in Hs1, Hd1.
    destruct r as [res1|e|]; [|discriminate|discriminate].
    apply IH. rewrite Hs1, Hd1, !list_at_insert by assumption.
    rewrite Efks, Estops, !length_app in Hshort. simpl in Hshort. lia.
Qed.

Variable doVerbose : bool.
Variable py_round : float -> Z -> float.
Variable py_format_et : float -> string.

(** X4: called with fewer stop times than files, neither [create_ck] nor
    [test_ck] returns: each raises, at the latest where [stop_ets.pop()]
    finds its list empty, and [test_ck] prints nothing. *)
Theorem short_stop_times_raise kernels frames fks stop_ets output_ck s r1 s1 r2 s2 :
  (length (list_at (dheap s) stop_ets) < length (list_at (sheap s) fks))%nat ->
  create_ck lib doVerbose kernels frames fks stop_ets output_ck s = (r1, s1) ->
  test_ck lib py_round py_format_et kernels frames fks stop_ets output_ck s = (r2, s2) ->
  (exists e, r1 = Raise e) /\ (exists e, r2 = Raise e) /\ stdout s2 = stdout s.
Proof.
  intros Hshort Hc Ht. split.
  - destruct (create_ck_run _ _ _ _ _ _ _ _ _ _ Hc) as [(e & _ & ->)|(s0 & Hl & H)];
      [by exists e|].
    destruct (load_kernels_run _ _ _ _ _ Hl) as ((_ & _ & _ & _ & Hsh & Hdh) & _).
    destruct H as [(_ & -> & _)|(_ & r & s' & Hloop & Hclose)]; [by eexists|].
    assert (Hne : forall res, r <> Ok res).
    { refine (wp_run _ _ _ _ _ (create_ck_loop_short _ _ _ _ _ _ _ _ _ _) Hloop).
      cbn. by rewrite Hsh, Hdh. }
    destruct r as [res|e|]; [by destruct (Hne res)| |].
    + destruct Hclose as (-> & _). by exists e.
    + exfalso.
      pose proof (wp_run _ _ _ _ _
                    (create_ck_loop_spec lib doVerbose frames fks stop_ets output_ck _ None None
                       (log_call (Exists output_ck) true s0) (Nat.le_refl _)) Hloop)
        as ((_ & ? & _ & _ & []) & _).
  - destruct (test_ck_run lib py_round py_format_et _ _ _ _ _ _ _ _ Ht)
      as (_ & _ & _ & _ & _ & [(e & -> & Hout & _)|H]); [split; [by exists e|exact Hout]|].
    exfalso. destruct H as (dt & s1' & _ & _ & _ & Hplan & _).
    unfold test_ck_plan in Hplan.
    apply bind_run in Hplan as [([] & s0 & Hl & Hrun)|[(e & _ & [=])|(_ & [=])]].
    destruct (load_kernels_run _ _ _ _ _ Hl) as ((_ & _ & _ & _ & Hsh & Hdh) & _).
    change (test_ck_loop lib (length (list_at (sheap s0) fks)) frames fks stop_ets None [] s0
            = (Ok dt, s1')) in Hrun.
    assert (Hne : forall res, Ok dt <> Ok res).
    { refine (wp_run _ _ _ _ _ (test_ck_loop_short _ _ _ _ _ _ _ _) Hrun).
      by rewrite Hsh, Hdh. }
    by destruct (Hne dt).
Qed.

End ShortStopTimes.

(** ** Kernels that do not load *)

Section Unloadable.
Context (lib : SpiceLib).

Lemma load_kernels_fails kernels s r s' :
  for_each kernels (furnsh lib) s = (r, s') ->
  ~ loadable lib s kernels ->
  r = Raise SpiceyError.
Proof.
  intros Hl Hnl.
  pose proof (wp_run _ _ _ _ _ (load_kernels_spec lib kernels s) Hl) as (_ & _ & _ & _ & Hr).
  pose proof (wp_run _ _ _ _ _ (load_kernels_loadable lib kernels s) Hl) as Hok.
  destruct r as [[]|e|]; [contradiction|by destruct Hr as [-> _]|destruct Hr].
Qed.

Variable doVerbose : bool.
Variable py_round : float -> Z -> float.
Variable py_format_et : float -> string.

(** X5: when one of the kernels is missing or unreadable, [create_ck]
    raises the toolkit error of the load and does nothing else: no check
    of the output path, no pop, no file.  [test_ck] loads the output CK
    with the kernels, so without a CK on disk it stops in the same way,
    before it samples anything. *)
Theorem missing_kernels_stop_the_run kernels frames fks stop_ets output_ck s r1 s1 r2 s2 :
  create_ck lib doVerbose kernels frames fks stop_ets output_ck s = (r1, s1) ->
  test_ck lib py_round py_format_et kernels frames fks stop_ets output_ck s = (r2, s2) ->
  (~ loadable lib s kernels -> stops_at_load s r1 s1)
  /\ (~ loadable lib s kernels \/ output_ck ∉ disk s -> stops_at_load s r2 s2).
Proof.
  intros Hc Ht. split.
  - intros Hnl.
    destruct (create_ck_run _ _ _ _ _ _ _ _ _ _ Hc) as [(e & Hl & ->)|(s0 & Hl & _)].
    + destruct (load_kernels_run _ _ _ _ _ Hl) as (Hsame & pre & Htr & Hpre & _).
      rewrite (load_kernels_fails _ _ _ _ Hl Hnl). split; [reflexivity|].
      split; [exact Hsame|]. by exists pre.
    + by pose proof (load_kernels_fails _ _ _ _ Hl Hnl).
  - intros Hbad.
    assert (Hnl : ~ loadable lib s (kernels ++ [output_ck])%list).
    { intros Hl. apply Forall_app in Hl as [Hl1 Hl2]. destruct Hbad as [Hb|Hb].
      - contradiction.
      - inversion Hl2 as [|? ? [Hin _] _]; subst. contradiction. }
    unfold test_ck, test_ck_plan in Ht.
    apply bind_run in Ht as [(dt & s' & Hp & _)|[(e & Hp & ->)|(Hp & ->)]].
    + apply bind_run in Hp as [([] & s0 & Hl & _)|[(e & _ & [=])|(_ & [=])]].
      by pose proof (load_kernels_fails _ _ _ _ Hl Hnl).
    + apply bind_run in Hp as [([] & s0 & Hl & Hrun)|[(e' & Hl & [= <-])|(_ & [=])]].
      * by pose proof (load_kernels_fails _ _ _ _ Hl Hnl).
      * destruct (load_kernels_run _ _ _ _ _ Hl) as (Hsame & pre & Htr & Hpre & _).
        pose proof (load_kernels_fails _ _ _ _ Hl Hnl) as [= ->]. split; [reflexivity|].
        split; [exact Hsame|]. by exists pre.
    + apply bind_run in Hp as [([] & s0 & Hl & _)|[(e & _ & [=])|(Hl & _)]].
      * by pose proof (load_kernels_fails _ _ _ _ Hl Hnl).
      * by pose proof (load_kernels_fails _ _ _ _ Hl Hnl).
Qed.

End Unloadable.

(** ** The configuration that [main] reads *)

Section Configuration.
Context (lib : SpiceLib).
Variable doVerbose : bool.
Variable py_round : float -> Z -> float.
Variable py_format_et : float -> string.
Variable script_file : string.

(** A run of [main] gets through the setup, or ends in it. *)
Lemma main_run_cases argv_arg s r s' :
  main lib doVerbose py_round py_format_et script_file argv_arg s = (r, s') ->
  (exists cfg s1,
     main_setup lib script_file argv_arg s = (Ok cfg, s1)
     /\ setup_ok lib script_file argv_arg s cfg s1)
  \/ (exists e,
        r = Raise e /\ main_setup lib script_file argv_arg s = (Raise e, s')
        /\ setup_failed lib script_file argv_arg s e /\ stops_in_setup s s').
Proof.
  intros Hrun. unfold main in Hrun. apply bind_run in Hrun.
  pose proof (main_setup_spec lib script_file argv_arg s) as Hspec.
  destruct Hrun as [(cfg & s1 & Hs & _)|[(e & Hs & ->)|(Hs & ->)]].
  - left. exists cfg, s1. split; [exact Hs|].
    by pose proof (wp_run _ _ _ _ _ Hspec Hs) as (evs & _ & Hok & _).
  - right. exists e.
    pose proof (wp_run _ _ _ _ _ Hspec Hs) as (evs & Htr & Hfail & Hev & Hd & Ho & Hout).
    split; [reflexivity|]. split; [exact Hs|]. split; [exact Hfail|].
    split; [by exists evs|by repeat split].
  - by pose proof (wp_run _ _ _ _ _ Hspec Hs) as (evs & _ & []).
Qed.

(** X6: [main] ends in its setup, having converted nothing, with the
    error of the toolkit when a kernel does not load or when
    FRAMES_TO_CONVERT, STOP_ETS or OUTPUT_CK is not in the pool, and with
    an [AssertionError] when FRAMES_TO_CONVERT is there and empty. *)
Theorem main_configuration_errors argv_arg s r s' :
  main lib doVerbose py_round py_format_et script_file argv_arg s = (r, s') ->
  configuration_errors lib script_file argv_arg s r s'.
Proof.
  intros Hrun. unfold configuration_errors.
  set (kernels := main_kernels script_file argv_arg).
  set (loaded := (keeper s ++ kernels)%list).
  destruct (main_run_cases _ _ _ _ Hrun) as [(cfg & s1 & _ & Hok)|(e & -> & _ & Hfail & Hstop)].
  - destruct cfg as [[[[kernels' frames'] fks] stop_ets] output_ck].
    destruct Hok as (_ & Hload & Hframes & Hne & Hfks & (stops & Hst & Hlen & _) & Hout & _).
    fold kernels loaded in Hload, Hframes, Hfks, Hst, Hlen, Hout.
    split; [contradiction|]. intros _.
    split; [congruence|]. split; [congruence|].
    intros frame frames Hf _. split; [congruence|].
    intros stops' _ _ Hnone. rewrite Hnone in Hout. discriminate.
  - unfold setup_failed in Hfail. fold kernels loaded in Hfail.
    split.
    { intros Hnl. destruct Hfail as [(-> & _)|(Hl & _)]; [by split|contradiction]. }
    intros Hload. destruct Hfail as [(_ & Hnl)|(_ & Hfail)]; [contradiction|].
    split.
    { intros Hnone. destruct Hfail as [(-> & _)|(frames & Hf & _)]; [by split|congruence]. }
    split.
    { intros Hnil. destruct Hfail as [(_ & Hf)|(frames & Hf & Hfail)]; [congruence|].
      rewrite Hnil in Hf. injection Hf as <-.
      destruct Hfail as [(-> & _)|(Hne & _)]; [by split|contradiction]. }
    intros frame frames Hf Hfks.
    destruct Hfail as [(_ & Hf')|(frames' & Hf' & Hfail)]; [congruence|].
    rewrite Hf in Hf'. injection Hf' as <-.
    destruct Hfail as [(_ & [=])|(_ & [(_ & Hnil)|(_ & Hfail)])]; [contradiction|].
    split.
    { intros Hnone. destruct Hfail as [(-> & _)|(stops & Hst & _)]; [by split|congruence]. }
    intros stops Hst Hlen Hout.
    destruct Hfail as [(_ & Hnone)|(stops' & Hst' & Hfail)]; [congruence|].
    rewrite Hst in Hst'. injection Hst' as <-.
    destruct Hfail as [(_ & Hne)|(_ & -> & _)]; [contradiction|by split].
Qed.

End Configuration.

(** ** What [test_ck] leaves behind *)

Section TestSideEffects.
Context (lib : SpiceLib).
Variable py_round : float -> Z -> float.
Variable py_format_et : float -> string.

Lemma test_ck_pass2_keeper loaded_ck dt :
  forall dt' s,
    filled_table lib loaded_ck dt dt' ->
    wp (test_ck_pass2 lib py_round py_format_et dt') s
       (fun r s' =>
          r = Ok tt ->
          keeper s' = match last (map fst dt') with Some fk => [fk] | None => keeper s end).
Proof.
  induction dt as [|[fk rows] dt IH]; intros dt' s Hdt;
    inversion Hdt as [|? [fk' rows'] ? dt0 [Hfst Hrows] Hrest]; subst;
    unfold test_ck_pass2; cbn [for_each].
  - apply wp_ret. reflexivity.
  - cbn [fst snd] in *. subst fk'. apply wp_bind. cbv beta. cbn [fst snd].
    apply wp_bind, wp_kclear. apply wp_bind, wp_ktotal. apply wp_bind.
    apply wp_py_assert; [intros _|intros Hf; cbn in Hf; discriminate].
    apply wp_bind. apply wp_furnsh; [|intros H; discriminate H].
    intros _ _.
    eapply wp_mono; [by eapply (test_ck_rows_spec lib py_round py_format_et)|].
    intros r s1 (Hk1 & _). cbn in Hk1.
    destruct r as [[]|e|]; [|intros H; discriminate H|intros H; discriminate H].
    eapply wp_mono; [by apply IH|].
    intros r s2 H2 Hr. rewrite (H2 Hr), Hk1.
    cbn [map fst]. rewrite last_cons.
    match goal with
    | |- match ?a with _ => _ end = match match ?b with _ => _ end with _ => _ end =>
        change b with a; destruct a; reflexivity
    end.
Qed.

(** X7: [test_ck] writes no file and opens no handle, however it ends.
    When it returns, the kernels of the caller are no longer loaded: the
    pool holds the historical file that was compared last, alone (or,
    with no window, the kernels and the CK that the reload loaded). *)
Theorem test_ck_side_effects kernels frames fks stop_ets output_ck s r s' :
  test_ck lib py_round py_format_et kernels frames fks stop_ets output_ck s = (r, s') ->
  disk s' = disk s /\ ck_open s' = ck_open s
  /\ (r = Ok tt ->
      exists dt s1,
        test_ck_plan lib kernels frames fks stop_ets output_ck s = (Ok dt, s1)
        /\ keeper s' = loaded_after_test kernels output_ck dt).
Proof.
  intros Hrun.
  destruct (test_ck_run lib py_round py_format_et _ _ _ _ _ _ _ _ Hrun)
    as (_ & Hd & Ho & _ & _ & H).
  split; [exact Hd|]. split; [exact Ho|]. intros ->.
  destruct H as [(e & [=] & _)|(dt & s1 & dt' & s2 & results & Hp & Hr & Hp2 & Hres & Hdt & _)].
  exists dt, s1. split; [exact Hp|].
  assert (Hpl : planned dt).
  { subst dt. eapply plans_ok_planned; [exact Hres|constructor]. }
  pose proof (wp_run _ _ _ _ _ (test_ck_reload_spec lib kernels output_ck dt s1 Hpl) Hr)
    as (_ & _ & _ & Hk2 & Hfill).
  rewrite (wp_run _ _ _ _ _ (test_ck_pass2_keeper _ dt dt' s2 Hfill) Hp2 eq_refl), Hk2.
  unfold loaded_after_test.
  assert (Hkeys : map fst dt' = map fst dt).
  { clear -Hfill. induction Hfill as [|e e' d d' [He _] _ IH]; [reflexivity|].
    cbn [map]. f_equal; assumption. }
  by rewrite Hkeys.
Qed.

End TestSideEffects.

(** ** [main] and its options *)

Section Options.
Context (lib : SpiceLib).
Variable doVerbose : bool.
Variable py_round : float -> Z -> float.
Variable py_format_et : float -> string.
Variable script_file : string.

(** X8: without --create, [main] creates no file and opens no handle,
    whatever else it does; with neither --create nor --test, a run that
    returns has made the calls of the setup and cleared the pool, and
    nothing more. *)
Theorem main_without_create argv_arg s r s' :
  main lib doVerbose py_round py_format_et script_file argv_arg s = (r, s') ->
  "--create" ∉ argv_arg ->
  disk s' = disk s /\ ck_open s' = ck_open s
  /\ ("--test" ∉ argv_arg -> r = Ok tt ->
      keeper s' = []
      /\ exists evs,
           trace s'
           = (trace s ++ evs
                ++ [mkEvent Kclear (keeper s ++ main_kernels script_file argv_arg) true])%list
           /\ Forall (fun e => is_setup_call e = true) evs).
Proof.
  intros Hrun Hnc.
  destruct (main_run_cases _ _ _ _ _ _ _ _ _ Hrun)
    as [(cfg & s1 & Hs & Hok)|(e & -> & _ & _ & _ & Hd & Ho & _)].
  2:{ split; [exact Hd|]. split; [exact Ho|]. intros _ [=]. }
  pose proof (wp_run _ _ _ _ _ (main_setup_spec lib script_file argv_arg s) Hs)
    as (evs & Htr & _ & evs0 & -> & Hev).
  destruct cfg as [[[[kernels frames] fks] stop_ets] output_ck].
  destruct Hok as (_ & _ & _ & _ & _ & _ & _ & _ & _ & _ & Hk & Hd & Ho & _).
  unfold main, bind at 1 in Hrun. rewrite Hs in Hrun.
  rewrite (bool_decide_eq_false_2 _ Hnc) in Hrun.
  change (bind (ret tt) ?k ?s) with (k tt s) in Hrun. cbv beta in Hrun.
  destruct (decide ("--test" ∈ argv_arg)) as [Hin|Hnt].
  - rewrite (bool_decide_eq_true_2 _ Hin) in Hrun.
    change (test_ck lib py_round py_format_et kernels frames (length (sheap s1))
              (length (dheap s1)) output_ck
              (set_dheap (dheap s1 ++ [list_at (dheap s1) stop_ets])%list
                 (set_sheap (sheap s1 ++ [list_at (sheap s1) fks])%list s1)) = (r, s')) in Hrun.
    destruct (test_ck_run lib py_round py_format_et _ _ _ _ _ _ _ _ Hrun)
      as (_ & Hd' & Ho' & _).
    cbn in Hd', Ho'. split; [congruence|]. split; [congruence|]. contradiction.
  - rewrite (bool_decide_eq_false_2 _ Hnt) in Hrun. injection Hrun as <- <-.
    split; [exact Hd|]. split; [exact Ho|]. intros _ _.
    split; [exact Hk|]. exists evs0. split; [exact Htr|exact Hev].
Qed.


End Options.

(** ** A file listed for two windows *)

Lemma dict_get_set_other {V : Type} (k k' : string) (v : V) (d : list (string * V)) :
  k' <> k ->
  dict_get String.eqb k (dict_set String.eqb k' v d) = dict_get String.eqb k d.
Proof.
  intros Hne. induction d as [|[k0 v0] d IH]; simpl.
  - by apply String.eqb_neq in Hne as ->.
  - destruct (String.eqb k0 k') eqn:E; simpl.
    + apply String.eqb_eq in E as ->. by apply String.eqb_neq in Hne as ->.
    + destruct (String.eqb k0 k); [reflexivity|exact IH].
Qed.

Lemma set_windows_get results :
  forall dt fk,
    dict_get String.eqb fk (fold_left set_window results dt)
    = match kept_rows results fk with
      | Some table => Some table
      | None => dict_get String.eqb fk dt
      end.
Proof.
  unfold kept_rows.
  induction results as [|[fk' rows] results IH]; intros dt fk; [reflexivity|].
  cbn [fold_left]. rewrite IH. rewrite filter_cons. cbn [fst].
  destruct (decide (fk' = fk)) as [->|Hne].
  - rewrite last_cons.
    destruct (last (filter (fun res => fst res = fk) results)); [reflexivity|].
    unfold set_window. cbn [fst snd]. apply dict_get_set, String.eqb_refl.
  - destruct (last (filter (fun res => fst res = fk) results)); [reflexivity|].
    unfold set_window. cbn [fst snd]. by apply dict_get_set_other.
Qed.

Section RepeatedFile.
Context (lib : SpiceLib).

(** X10: the table of [test_ck] is keyed by file and each window starts
    its file's entry afresh ([dt[fk] = dict()]): after the first loop the
    table holds, for a file, the rows of the last window that names it.
    A file listed for two windows is compared on the later one only. *)
Theorem test_ck_keeps_last_window kernels frames fks stop_ets output_ck s dt s1 :
  test_ck_plan lib kernels frames fks stop_ets output_ck s = (Ok dt, s1) ->
  exists results,
    plans_ok lib (keeper s ++ kernels ++ [output_ck])%list None
      (windows (list_at (sheap s) fks) (list_at (dheap s) stop_ets)) frames results
    /\ forall fk, dict_get String.eqb fk dt = kept_rows results fk.
Proof.
  intros Hplan.
  pose proof (wp_run _ _ _ _ _ (test_ck_plan_spec lib _ _ _ _ _ _) Hplan)
    as (_ & _ & _ & results & Hres & ->).
  exists results. split; [exact Hres|]. intros fk.
  rewrite set_windows_get. by destruct (kept_rows results fk).
Qed.

End RepeatedFile.

(** ** Names: the label of a segment, the kernel of the script *)



Lemma substring_0_length (n : nat) (s : string) :
  String.length (substring 0 n s) = Nat.min n (String.length s).
Proof.
  revert s. induction n as [|n IH]; intros [|c s]; simpl; try reflexivity.
  by rewrite IH.
Qed.

Lemma substring_0_all (n : nat) (s : string) :
  (String.length s <= n)%nat -> substring 0 n s = s.
Proof.
  revert s. induction n as [|n IH]; intros [|c s]; simpl; intros H;
    try reflexivity; [lia|].
  rewrite IH; [reflexivity|lia].
Qed.

Lemma substring_0_app (a b : string) :
  substring 0 (String.length a) (a ++ b) = a.
Proof. induction a as [|c a IH]; simpl; [by destruct b|by rewrite IH]. Qed.

Lemma substring_skip (a b : string) (n : nat) :
  substring (String.length a) n (a ++ b) = substring 0 n b.
Proof. induction a as [|c a IH]; simpl; [reflexivity|exact IH]. Qed.

Lemma length_app_string (a b : string) :
  String.length (a ++ b) = (String.length a + String.length b)%nat.
Proof. induction a as [|c a IH]; simpl; [reflexivity|by rewrite IH]. Qed.

Lemma app_assoc_string (a b c : string) : (a ++ b) ++ c = a ++ (b ++ c).
Proof.
  induction a as [|x a IH]; [reflexivity|].
  change (String x ((a ++ b) ++ c) = String x (a ++ (b ++ c))). by rewrite IH.
Qed.


Lemma string_split (n : nat) :
  forall s : string,
    (n <= String.length s)%nat ->
    s = substring 0 n s ++ substring n (String.length s - n) s.
Proof.
  induction n as [|n IH]; intros [|c s] H; simpl in *; try lia; try reflexivity.
  - by rewrite substring_0_all.
  - change (String c s
            = String c (substring 0 n s ++ substring n (String.length s - n) s)).
    f_equal. apply IH. lia.
Qed.

(** A path that passes the test of line 300 ends in ".py" and one more
    character. *)
Lemma script_suffix (s : string) :
  (4 <= String.length s)%nat ->
  substring (String.length s - 4) 3 s = ".py" ->
  exists base c, s = base ++ ".py" ++ String c "".
Proof.
  intros Hlen Hpy.
  pose proof (string_split (String.length s - 4) s ltac:(lia)) as Hs.
  assert (Hb : String.length (substring 0 (String.length s - 4) s)
               = (String.length s - 4)%nat) by (rewrite substring_0_length; lia).
  remember (substring 0 (String.length s - 4) s) as base eqn:Eb.
  remember (substring (String.length s - 4) (String.length s - (String.length s - 4)) s)
    as rest eqn:Er.
  clear Eb Er.
  assert (Hr : String.length rest = 4%nat).
  { apply (f_equal String.length) in Hs. rewrite length_app_string in Hs. lia. }
  rewrite <- Hb in Hpy. subst s. rewrite substring_skip in Hpy.
  destruct rest as [|a [|b [|c [|d [|? ?]]]]]; simpl in Hr; try lia.
  simpl in Hpy. injection Hpy as -> -> ->.
  by exists base, d.
Qed.

Lemma script_kernel_py base c :
  script_kernel (base ++ ".py" ++ String c "") = base ++ ".py".
Proof.
  assert (E : base ++ ".py" ++ String c "" = (base ++ ".py") ++ String c "").
  { symmetry. apply app_assoc_string. }
  unfold script_kernel. rewrite length_app_string.
  replace (String.length (".py" ++ String c "")) with 4%nat by reflexivity.
  replace (String.length base + 4 - 4)%nat with (String.length base) by lia.
  replace (4 <=? String.length base + 4)%nat with true
    by (symmetry; apply Nat.leb_le; lia).
  rewrite substring_skip.
  replace (substring 0 3 (".py" ++ String c "")) with ".py" by reflexivity.
  rewrite String.eqb_refl. cbn [andb].
  replace (String.length base + 4 - 1)%nat with (String.length (base ++ ".py")).
  2:{ rewrite length_app_string. simpl. lia. }
  rewrite E. by rewrite substring_0_app.
Qed.

Lemma script_kernel_plain script_file :
  (forall base c, script_file <> base ++ ".py" ++ String c "") ->
  script_kernel script_file = script_file.
Proof.
  intros Hno. unfold script_kernel.
  destruct (4 <=? String.length script_file)%nat eqn:E1; [|reflexivity].
  destruct (String.eqb (substring (String.length script_file - 4) 3 script_file) ".py")
    eqn:E2; [|reflexivity].
  exfalso. apply Nat.leb_le in E1. apply String.eqb_eq in E2.
  destruct (script_suffix _ E1 E2) as (base & c & Hs). by apply (Hno base c).
Qed.

Lemma only_options argv_arg :
  (forall arg, arg ∈ argv_arg -> arg = "--test" \/ arg = "--create") ->
  filter (fun arg => negb (bool_decide (arg ∈ non_kernel_opts))) argv_arg = [].
Proof.
  intros Hopts. induction argv_arg as [|arg argv IH]; [reflexivity|].
  rewrite filter_cons.
  assert (Hin : arg ∈ non_kernel_opts).
  { destruct (Hopts arg) as [->| ->]; [by left| |]; unfold non_kernel_opts.
    - apply list_elem_of_here.
    - apply list_elem_of_further, list_elem_of_here. }
  rewrite decide_False.
  - apply IH. intros a Ha. apply Hopts. by right.
  - rewrite (bool_decide_eq_true_2 _ Hin). intros [].
Qed.

Section ScriptKernel.
Context (lib : SpiceLib).
Variable doVerbose : bool.
Variable py_round : float -> Z -> float.
Variable py_format_et : float -> string.
Variable script_file : string.

(** X12: with only options among its arguments, [main] has one kernel,
    the script itself: its path as it is, unless the path ends in ".py"
    and one more character (a compiled ".pyc"), which is left out.  That
    file is what the setup loads and what [create_ck] and [test_ck] get
    as their kernels; when it is not on disk or is not a kernel, the run
    ends in the setup with the error of the toolkit. *)
Theorem main_kernel_of_script argv_arg s :
  (forall arg, arg ∈ argv_arg -> arg = "--test" \/ arg = "--create") ->
  exists kernel,
    main_kernels script_file argv_arg = [kernel]
    /\ (forall base c, script_file = base ++ ".py" ++ String c "" -> kernel = base ++ ".py")
    /\ ((forall base c, script_file <> base ++ ".py" ++ String c "") -> kernel = script_file)
    /\ (forall kernels frames fks stop_ets output_ck s1,
          main_setup lib script_file argv_arg s
          = (Ok (kernels, frames, fks, stop_ets, output_ck), s1) ->
          kernels = [kernel] /\ kernel ∈ disk s /\ lib_readable lib kernel = true)
    /\ (kernel ∉ disk s \/ lib_readable lib kernel = false ->
        forall r s',
          main lib doVerbose py_round py_format_et script_file argv_arg s = (r, s') ->
          r = Raise SpiceyError /\ stops_in_setup s s').
Proof.
  intros Hopts. exists (script_kernel script_file).
  assert (Hk : main_kernels script_file argv_arg = [script_kernel script_file]).
  { unfold main_kernels. by rewrite only_options. }
  split; [exact Hk|]. split; [intros base c ->; apply script_kernel_py|].
  split; [apply script_kernel_plain|]. split.
  - intros kernels frames fks stop_ets output_ck s1 Hs.
    pose proof (wp_run _ _ _ _ _ (main_setup_spec lib script_file argv_arg s) Hs)
      as (evs0 & _ & Hok & _).
    destruct Hok as (-> & Hload & _). rewrite Hk in *.
    split; [reflexivity|]. by inversion Hload as [|? ? [Hin Hr] _].
  - intros Hbad r s' Hrun.
    assert (Hnl : ~ loadable lib s (main_kernels script_file argv_arg)).
    { rewrite Hk. intros Hl. inversion Hl as [|? ? [Hin Hr] _]; subst.
      destruct Hbad as [Hb|Hb]; [contradiction|congruence]. }
    destruct (main_run_cases lib doVerbose py_round py_format_et script_file _ _ _ _ Hrun)
      as [(cfg & s1 & _ & Hok)|(e & -> & _ & Hfail & Hstop)].
    + destruct cfg as [[[[kernels frames] fks] stop_ets] output_ck].
      destruct Hok as (_ & Hload & _). contradiction.
    + split; [|exact Hstop].
      destruct Hfail as [(-> & _)|(Hl & _)]; [reflexivity|contradiction].
Qed.

End ScriptKernel.

(** ** The file that [create_ck] leaves *)

Section OutputFile.
Context (lib : SpiceLib).
Variable doVerbose : bool.

(** X13: the only file that a run of [create_ck] can add is the output
    CK, and no file goes away.  The file is there as soon as the open
    for the first segment returned, also when the run raises afterwards;
    a run that wrote no segment and returns, or that never got to open
    the file, leaves the files as they were. *)
Theorem create_ck_output_file kernels frames fks stop_ets output_ck s r s' :
  create_ck lib doVerbose kernels frames fks stop_ets output_ck s = (r, s') ->
  exists evs,
    trace s' = (trace s ++ evs)%list
    /\ ((opened evs = false /\ segments_written evs = [] /\ disk s' = disk s)
        \/ (opened evs = true /\ (output_ck ∉ disk s)
            /\ disk s' = (disk s ++ [output_ck])%list
            /\ (r = Ok tt -> segments_written evs <> []))).
Proof.
  intros Hrun.
  pose proof (wp_run _ _ _ _ _ (create_ck_spec lib doVerbose _ _ _ _ _ _) Hrun)
    as (pre & Hpre & H).
  destruct (furnsh_events_write_nothing _ Hpre) as (Hw & Hop & _).
  destruct H as [(-> & Htr & Hsame & _)|[(_ & -> & Htr & Hsame)|(Hout & H)]].
  - exists pre. split; [exact Htr|]. left. destruct Hsame as (Hd & _). by repeat split.
  - eexists. split; [exact Htr|]. left. destruct Hsame as (Hd & _).
    rewrite opened_app, segments_written_app, Hop, Hw. by repeat split.
  - destruct H as (s0 & r1 & s1 & post & Hsame & _ & Ht0 & Hj & _ & _ & Ht' & Hd' & _ & _ & _ & _
                   & Hclose).
    destruct Hsame as (Hd0 & _).
    destruct Hj as (_ & evs & Ht1 & _ & Hj).
    assert (Hpost : opened post = false /\ segments_written post = []).
    { destruct r1 as [[h|]|e|]; [|by destruct Hclose as (_ & -> & _)
                                 |by destruct Hclose as (_ & -> & _)|destruct Hclose].
      by destruct Hclose as [(_ & -> & _)|(_ & -> & _)]. }
    destruct Hpost as (Hpo & Hpw).
    exists ((pre ++ [exists_event kernels output_ck s]) ++ evs ++ post)%list.
    split; [rewrite Ht', Ht1, Ht0; by rewrite <- !app_assoc|].
    rewrite !opened_app, !segments_written_app, Hop, Hw, Hpo, Hpw, Hd', !app_nil_r.
    simpl. rewrite orb_false_r.
    destruct r1 as [res|e|]; [| |destruct Hj].
    + destruct Hj as (_ & _ & _ & [(_ & -> & _ & _ & Hd1)|(-> & Hne & Hopn & _ & Hd1)]).
      * left. rewrite Hd1, Hd0. by repeat split.
      * right. rewrite Hopn, Hd1, Hd0. by repeat split.
    + destruct Hj as (_ & _ & [(Hopn & Hw0 & _ & Hd1)|(Hopn & _ & Hd1)]).
      * left. rewrite Hopn, Hw0, Hd1, Hd0. by repeat split.
      * right. rewrite Hopn, Hd1, Hd0. split; [reflexivity|]. split; [exact Hout|].
        split; [reflexivity|]. destruct Hclose as (-> & _). discriminate.
Qed.

End OutputFile.

Lemma create_ck_segment_contents_witness :
  create_ck (toy_lib true) false ["base.tm"] ["A"; "B"] 0 0 "out.bc" toy_start
  = (Ok tt, toy_created)
  /\ exists evs done,
       trace toy_created = (trace toy_start ++ evs)%list
       /\ done `prefix_of`
            schedule None
              (windows (list_at (sheap toy_start) 0) (list_at (dheap toy_start) 0)) ["A"; "B"]
       /\ (Ok tt = Ok tt ->
           done = schedule None
                    (windows (list_at (sheap toy_start) 0) (list_at (dheap toy_start) 0))
                    ["A"; "B"])
       /\ Forall2 (segment_of (toy_lib true) (keeper toy_start ++ ["base.tm"])) done
            (segments_written evs).
Proof.
  assert (H : create_ck (toy_lib true) false ["base.tm"] ["A"; "B"] 0 0 "out.bc" toy_start
              = (Ok tt, toy_created)) by (vm_compute; reflexivity).
  split; [exact H|].
  exact (create_ck_segment_contents (toy_lib true) false _ _ _ _ _ _ _ _ H).
Defined.

Lemma create_ck_opens_once_witness :
  create_ck (toy_lib true) false ["base.tm"] ["A"; "B"] 0 0 "out.bc" toy_start
  = (Ok tt, toy_created)
  /\ exists evs m,
       trace toy_created = (trace toy_start ++ evs)%list
       /\ file_scan "out.bc" (ck_next toy_start) NotOpen evs = Some m
       /\ (Ok tt = Ok tt ->
           (m = NotOpen /\ segments_written evs = [])
           \/ (m = Closed /\ segments_written evs <> []))
       /\ (m = Closed -> Ok tt = Ok tt).
Proof.
  assert (H : create_ck (toy_lib true) false ["base.tm"] ["A"; "B"] 0 0 "out.bc" toy_start
              = (Ok tt, toy_created)) by (vm_compute; reflexivity).
  split; [exact H|].
  exact (create_ck_opens_once (toy_lib true) false _ _ _ _ _ _ _ _ H).
Defined.

Lemma create_ck_exceptions_witness :
  create_ck (toy_lib false) false ["base.tm"] ["A"; "B"] 0 0 "out.bc" toy_start
  = (Raise SpiceyError, toy_failed)
  /\ (Raise SpiceyError : outcome unit) <> OutOfFuel
  /\ forall e, (Raise SpiceyError : outcome unit) = Raise e ->
       e = SpiceyError \/ e = IndexError
       \/ (e = KeyError (KStr (overwrite_message "out.bc")) /\ "out.bc" ∈ disk toy_start)
       \/ (e = ZeroDivisionError /\ false = true).
Proof.
  assert (H : create_ck (toy_lib false) false ["base.tm"] ["A"; "B"] 0 0 "out.bc" toy_start
              = (Raise SpiceyError, toy_failed)) by (vm_compute; reflexivity).
  split; [exact H|].
  exact (create_ck_exceptions (toy_lib false) false _ _ _ _ _ _ _ _ H).
Defined.

Lemma short_stop_times_raise_witness :
  create_ck (toy_lib true) false ["base.tm"] ["A"; "B"] 0 0 "out.bc" toy_short_start
  = (Raise IndexError, toy_short_created)
  /\ (exists e, (Raise IndexError : outcome unit) = Raise e)
  /\ (exists e, (Raise SpiceyError : outcome unit) = Raise e)
  /\ stdout toy_short_tested = stdout toy_short_start.
Proof.
  assert (H1 : create_ck (toy_lib true) false ["base.tm"] ["A"; "B"] 0 0 "out.bc"
                 toy_short_start = (Raise IndexError, toy_short_created))
    by (vm_compute; reflexivity).
  assert (H2 : test_ck (toy_lib true) toy_round toy_format_et ["base.tm"] ["A"; "B"] 0 0
                 "out.bc" toy_short_start = (Raise SpiceyError, toy_short_tested))
    by (vm_compute; reflexivity).
  assert (Hlen : (length (list_at (dheap toy_short_start) 0)
                  < length (list_at (sheap toy_short_start) 0))%nat) by (vm_compute; lia).
  split; [exact H1|].
  exact (short_stop_times_raise (toy_lib true) false toy_round toy_format_et
           _ _ _ _ _ _ _ _ _ _ Hlen H1 H2).
Defined.

Lemma missing_kernels_stop_the_run_witness :
  test_ck (toy_lib true) toy_round toy_format_et ["base.tm"] ["A"; "B"] 0 0 "out.bc"
    toy_start = (Raise SpiceyError, toy_untested)
  /\ stops_at_load toy_start (Raise SpiceyError) toy_untested.
Proof.
  assert (H1 : create_ck (toy_lib true) false ["base.tm"] ["A"; "B"] 0 0 "out.bc" toy_start
               = (Ok tt, toy_created)) by (vm_compute; reflexivity).
  assert (H2 : test_ck (toy_lib true) toy_round toy_format_et ["base.tm"] ["A"; "B"] 0 0
                 "out.bc" toy_start = (Raise SpiceyError, toy_untested))
    by (vm_compute; reflexivity).
  split; [exact H2|].
  destruct (missing_kernels_stop_the_run (toy_lib true) false toy_round toy_format_et
              _ _ _ _ _ _ _ _ _ _ H1 H2) as [_ H].
  apply H. right. intros Hin. apply list_elem_of_In in Hin. simpl in Hin.
  intuition discriminate.
Defined.

Lemma main_configuration_errors_witness :
  (main (toy_lib true) false toy_round toy_format_et toy_script ["missing.tm"; "--create"]
     toy_main_start = (Raise SpiceyError, toy_main_no_kernel)
   /\ stops_in_setup toy_main_start toy_main_no_kernel)
  /\ (main (without_variable "FRAMES_TO_CONVERT" (toy_lib true)) false toy_round
        toy_format_et toy_script toy_argv toy_main_start
      = (Raise SpiceyError, toy_main_no_frames)
      /\ stops_in_setup toy_main_start toy_main_no_frames)
  /\ (main (without_variable "STOP_ETS" (toy_lib true)) false toy_round
        toy_format_et toy_script toy_argv toy_main_start
      = (Raise SpiceyError, toy_main_no_stops)
      /\ stops_in_setup toy_main_start toy_main_no_stops)
  /\ (main (without_variable "OUTPUT_CK" (toy_lib true)) false toy_round
        toy_format_et toy_script toy_argv toy_main_start
      = (Raise SpiceyError, toy_main_no_output)
      /\ stops_in_setup toy_main_start toy_main_no_output).
Proof.
  assert (Hload : forall var,
             loadable (without_variable var (toy_lib true)) toy_main_start
               (main_kernels toy_script toy_argv)) by (intros var; repeat constructor).
  assert (H1 : main (toy_lib true) false toy_round toy_format_et toy_script
                 ["missing.tm"; "--create"] toy_main_start
               = (Raise SpiceyError, toy_main_no_kernel)) by (vm_compute; reflexivity).
  assert (H2 : main (without_variable "FRAMES_TO_CONVERT" (toy_lib true)) false toy_round
                 toy_format_et toy_script toy_argv toy_main_start
               = (Raise SpiceyError, toy_main_no_frames)) by (vm_compute; reflexivity).
  assert (H3 : main (without_variable "STOP_ETS" (toy_lib true)) false toy_round
                 toy_format_et toy_script toy_argv toy_main_start
               = (Raise SpiceyError, toy_main_no_stops)) by (vm_compute; reflexivity).
  assert (H4 : main (without_variable "OUTPUT_CK" (toy_lib true)) false toy_round
                 toy_format_et toy_script toy_argv toy_main_start
               = (Raise SpiceyError, toy_main_no_output)) by (vm_compute; reflexivity).
  split; [split; [exact H1|]|split; [split; [exact H2|]|split; [split; [exact H3|]
                                                              |split; [exact H4|]]]].
  - destruct (main_configuration_errors (toy_lib true) false toy_round toy_format_et
                toy_script _ _ _ _ H1) as [Hn _].
    apply Hn. intros Hl. inversion Hl as [|? ? [Hin _] _]; subst.
    apply list_elem_of_In in Hin. simpl in Hin. intuition discriminate.
  - destruct (main_configuration_errors _ false toy_round toy_format_et
                toy_script _ _ _ _ H2) as [_ Hc].
    destruct (Hc (Hload _)) as (Hf & _). by apply Hf.
  - destruct (main_configuration_errors _ false toy_round toy_format_et
                toy_script _ _ _ _ H3) as [_ Hc].
    destruct (Hc (Hload _)) as (_ & _ & Hs).
    destruct (Hs "A" ["B"] eq_refl) as (Hf & _); [discriminate|]. by apply Hf.
  - destruct (main_configuration_errors _ false toy_round toy_format_et
                toy_script _ _ _ _ H4) as [_ Hc].
    destruct (Hc (Hload _)) as (_ & _ & Hs).
    destruct (Hs "A" ["B"] eq_refl) as (_ & Hf); [discriminate|].
    by apply (Hf [100%float; PrimFloat.opp 1e32%float]).
Defined.

Lemma test_ck_side_effects_witness :
  test_ck (toy_lib true) toy_round toy_format_et ["base.tm"] ["A"; "B"] 0 0 "out.bc"
    toy_test_start = (Ok tt, toy_tested)
  /\ disk toy_tested = disk toy_test_start /\ ck_open toy_tested = ck_open toy_test_start
  /\ ((Ok tt : outcome unit) = Ok tt ->
      exists dt s1,
        test_ck_plan (toy_lib true) ["base.tm"] ["A"; "B"] 0 0 "out.bc" toy_test_start
        = (Ok dt, s1)
        /\ keeper toy_tested = loaded_after_test ["base.tm"] "out.bc" dt).
Proof.
  assert (H : test_ck (toy_lib true) toy_round toy_format_et ["base.tm"] ["A"; "B"] 0 0
                "out.bc" toy_test_start = (Ok tt, toy_tested)) by (vm_compute; reflexivity).
  split; [exact H|].
  exact (test_ck_side_effects (toy_lib true) toy_round toy_format_et _ _ _ _ _ _ _ _ H).
Defined.

Lemma main_without_create_witness :
  main (toy_lib true) false toy_round toy_format_et toy_script ["base.tm"] toy_main_start
  = (Ok tt, toy_main_idle)
  /\ disk toy_main_idle = disk toy_main_start
  /\ ck_open toy_main_idle = ck_open toy_main_start
  /\ keeper toy_main_idle = [].
Proof.
  assert (H : main (toy_lib true) false toy_round toy_format_et toy_script ["base.tm"]
                toy_main_start = (Ok tt, toy_main_idle)) by (vm_compute; reflexivity).
  assert (Hc : "--create" ∉ ["base.tm"]).
  { intros Hin. apply list_elem_of_In in Hin. simpl in Hin. intuition discriminate. }
  assert (Ht : "--test" ∉ ["base.tm"]).
  { intros Hin. apply list_elem_of_In in Hin. simpl in Hin. intuition discriminate. }
  split; [exact H|].
  destruct (main_without_create (toy_lib true) false toy_round toy_format_et toy_script
              _ _ _ _ H Hc) as (Hd & Ho & Hrest).
  split; [exact Hd|]. split; [exact Ho|]. by destruct (Hrest Ht eq_refl).
Defined.


Lemma test_ck_keeps_last_window_witness :
  test_ck_plan (toy_lib true) ["base.tm"] ["A"] 0 0 "out.bc" toy_twice_start
  = (Ok toy_twice_table, toy_twice_planned)
  /\ length toy_twice_table = 1%nat
  /\ exists results,
       plans_ok (toy_lib true) (keeper toy_twice_start ++ ["base.tm"] ++ ["out.bc"])%list None
         (windows (list_at (sheap toy_twice_start) 0) (list_at (dheap toy_twice_start) 0))
         ["A"] results
       /\ forall fk, dict_get String.eqb fk toy_twice_table = kept_rows results fk.
Proof.
  assert (H : test_ck_plan (toy_lib true) ["base.tm"] ["A"] 0 0 "out.bc" toy_twice_start
              = (Ok toy_twice_table, toy_twice_planned)) by (vm_compute; reflexivity).
  split; [exact H|]. split; [reflexivity|].
  exact (test_ck_keeps_last_window (toy_lib true) _ _ _ _ _ _ _ _ H).
Defined.


Lemma main_kernel_of_script_witness :
  main_kernels toy_script ["--create"; "--test"] = [toy_script]
  /\ main_kernels "make_ola_high_low_ck.pyc" ["--create"; "--test"]
     = ["make_ola_high_low_ck.py"]
  /\ forall r s',
       main (toy_lib true) false toy_round toy_format_et toy_script ["--create"; "--test"]
         toy_main_start = (r, s') ->
       r = Raise SpiceyError /\ stops_in_setup toy_main_start s'.
Proof.
  assert (Hopts : forall arg, arg ∈ ["--create"; "--test"] -> arg = "--test" \/ arg = "--create").
  { intros arg Hin. apply list_elem_of_In in Hin. simpl in Hin. intuition. }
  assert (Hplain : forall base c, toy_script <> base ++ ".py" ++ String c "").
  { intros base c E.
    assert (T : substring (String.length toy_script - 4) 3 toy_script = ".py").
    { rewrite E, length_app_string.
      replace (String.length (".py" ++ String c "")) with 4%nat by reflexivity.
      replace (String.length base + 4 - 4)%nat with (String.length base) by lia.
      rewrite substring_skip. reflexivity. }
    vm_compute in T. discriminate T. }
  destruct (main_kernel_of_script (toy_lib true) false toy_round toy_format_et toy_script
              ["--create"; "--test"] toy_main_start Hopts)
    as (kernel & Hk & _ & Hsame & _ & Hmissing).
  destruct (main_kernel_of_script (toy_lib true) false toy_round toy_format_et
              "make_ola_high_low_ck.pyc" ["--create"; "--test"] toy_main_start Hopts)
    as (kernel' & Hk' & Hpy & _).
  rewrite (Hsame Hplain) in Hk, Hmissing.
  split; [exact Hk|]. split.
  - rewrite Hk'. f_equal. apply (Hpy "make_ola_high_low_ck" "c"%char). reflexivity.
  - apply Hmissing. left. intros Hin. apply list_elem_of_In in Hin. simpl in Hin.
    intuition discriminate.
Defined.

Lemma create_ck_output_file_witness :
  create_ck (toy_lib false) false ["base.tm"] ["A"; "B"] 0 0 "out.bc" toy_start
  = (Raise SpiceyError, toy_failed)
  /\ exists evs,
       trace toy_failed = (trace toy_start ++ evs)%list
       /\ ((opened evs = false /\ segments_written evs = [] /\ disk toy_failed = disk toy_start)
           \/ (opened evs = true /\ ("out.bc" ∉ disk toy_start)
               /\ disk toy_failed = (disk toy_start ++ ["out.bc"])%list
               /\ ((Raise SpiceyError : outcome unit) = Ok tt -> segments_written evs <> []))).
Proof.
  assert (H : create_ck (toy_lib false) false ["base.tm"] ["A"; "B"] 0 0 "out.bc" toy_start
              = (Raise SpiceyError, toy_failed)) by (vm_compute; reflexivity).
  split; [exact H|].
  exact (create_ck_output_file (toy_lib false) false _ _ _ _ _ _ _ _ H).
Defined.
